(** * imajin-chat: conversations, participants, invites and the message ledger

    A shallow embedding of the route handlers of the chat backend
    (src/app/api/**/route.ts), of the helpers of src/lib/utils.ts and of the
    relational schema (db/schema.ts), followed by the properties of the
    specification that concern them.

    Conventions of the embedding.
    - A table is the list of its rows, in heap order; [findFirst] is the first
      row that satisfies the condition.  Primary keys and foreign keys are
      checked by the insert operations, which throw when a constraint fails,
      as PostgreSQL does.
    - A handler is a state-passing computation over the database that either
      goes on with a value, leaves through a [return] with a response, or
      throws; the [try]/[catch] of each handler turns a throw into the 500
      response, keeping the writes made before it (the handlers open no
      transaction).
    - Time is a number of milliseconds ([Z]), the resolution of a JavaScript
      Date; a handler reads the clock once.
      The random suffix drawn by [generateId] is an argument of the handler.
    - [requireAuth] is an external service: a handler receives the verified
      identity's id.
    - JavaScript numbers that the handlers compute with are integers far below
      2^53, where doubles are exact; they are modelled by [Z], with [NaN]
      kept apart. *)

From Stdlib Require Import List String Ascii ZArith Lia Bool Arith.
From Stdlib Require Import Permutation Sorted DecimalString.
Import ListNotations.

Set Warnings "-register-all".

Open Scope string_scope.
Open Scope Z_scope.

(* ================================================================== *)
(** ** JavaScript values the handlers rely on *)

Module Js.

(** A number: an integer, or NaN.  The integers stand for the doubles that
    hold an integer exactly, the safe integers (up to 2^53 - 1 in absolute
    value); counts and limits of this program stay far below. *)
Inductive number : Type :=
| NaN
| Num (z : Z).

(** [a >= b] and [a < b] on numbers: false as soon as one side is NaN. *)
Definition ge (a b : number) : bool :=
  match a, b with
  | Num x, Num y => x >=? y
  | _, _ => false
  end.

Definition lt (a b : number) : bool :=
  match a, b with
  | Num x, Num y => x <? y
  | _, _ => false
  end.

Definition add (a b : number) : number :=
  match a, b with
  | Num x, Num y => Num (x + y)
  | _, _ => NaN
  end.

(** [a === b] on numbers: NaN is equal to nothing. *)
Definition strictEq (a b : number) : bool :=
  match a, b with
  | Num x, Num y => x =? y
  | _, _ => false
  end.

(** [Math.min]: NaN as soon as one argument is NaN. *)
Definition min (a b : number) : number :=
  match a, b with
  | Num x, Num y => Num (Z.min x y)
  | _, _ => NaN
  end.

(** [Number.prototype.toString] on a safe integer: its decimal digits, with
    a minus sign below zero.  (Beyond the safe integers a double is inexact,
    and from 1e21 on JavaScript prints an exponent; this is not modelled.) *)
Definition toString (a : number) : string :=
  match a with
  | NaN => "NaN"
  | Num z => NilZero.string_of_int (Z.to_int z)
  end.

(** White space skipped by [parseInt] (the ASCII part of StrWhiteSpaceChar). *)
Definition isWhiteSpace (c : ascii) : bool :=
  let n := nat_of_ascii c in
  ((9 <=? n) && (n <=? 13))%nat || (n =? 32)%nat.

Fixpoint trimStart (s : string) : string :=
  match s with
  | String c rest => if isWhiteSpace c then trimStart rest else s
  | EmptyString => s
  end.

(** The value of a character as a digit of the given radix, if it is one. *)
Definition digitValue (radix : Z) (c : ascii) : option Z :=
  let n := Z.of_nat (nat_of_ascii c) in
  let v :=
    if (48 <=? n) && (n <=? 57) then Some (n - 48)
    else if (97 <=? n) && (n <=? 122) then Some (n - 87)
    else if (65 <=? n) && (n <=? 90) then Some (n - 55)
    else None in
  match v with
  | Some d => if d <? radix then Some d else None
  | None => None
  end.

(** The longest prefix of digits, read in the radix: [None] without a digit. *)
Fixpoint readDigits (radix : Z) (s : string) (acc : option Z) : option Z :=
  match s with
  | String c rest =>
      match digitValue radix c with
      | Some d =>
          readDigits radix rest
            (Some (match acc with Some a => a * radix + d | None => d end))
      | None => acc
      end
  | EmptyString => acc
  end.

(** [parseInt(s)] without a radix: leading white space, a sign, a [0x]
    prefix, then the digits; NaN when there is no digit. *)
Definition parseInt (s : string) : number :=
  let s1 := trimStart s in
  let '(sign, s2) :=
    match s1 with
    | String "-" rest => (-1, rest)
    | String "+" rest => (1, rest)
    | _ => (1, s1)
    end in
  let '(radix, s3) :=
    match s2 with
    | String "0" (String "x" rest) => (16, rest)
    | String "0" (String "X" rest) => (16, rest)
    | _ => (10, s2)
    end in
  match readDigits radix s3 None with
  | Some v => Num (sign * v)
  | None => NaN
  end.

(** Truthiness of a string and of a nullable string. *)
Definition truthyStr (s : string) : bool := negb (String.eqb s EmptyString).

Definition truthyOpt (o : option string) : bool :=
  match o with
  | Some s => truthyStr s
  | None => false
  end.

(** [x || null] on a nullable string. *)
Definition orNull (o : option string) : option string :=
  if truthyOpt o then o else None.

(** A parsed JSON value (numbers restricted to integers). *)
Inductive Json : Type :=
| JNull
| JBool (b : bool)
| JNum (z : Z)
| JStr (s : string)
| JArr (items : list Json)
| JObj (fields : list (string * Json)).

(** Truthiness of a JSON value. *)
Definition truthy (j : Json) : bool :=
  match j with
  | JNull => false
  | JBool b => b
  | JNum z => negb (z =? 0)
  | JStr s => truthyStr s
  | JArr _ | JObj _ => true
  end.

(** [typeof j === 'object'] (true for null, arrays and objects). *)
Definition typeofObject (j : Json) : bool :=
  match j with
  | JNull | JArr _ | JObj _ => true
  | _ => false
  end.

(** Own property of a parsed object: the last binding of the key wins. *)
Fixpoint lookupField (k : string) (fields : list (string * Json)) : option Json :=
  match fields with
  | [] => None
  | (k', v) :: rest =>
      match lookupField k rest with
      | Some w => Some w
      | None => if String.eqb k' k then Some v else None
      end
  end.

(** [j.key]: [None] is [undefined]. *)
Definition getProp (j : Json) (k : string) : option Json :=
  match j with
  | JObj fields => lookupField k fields
  | _ => None
  end.

(** [v === 'text'] for a property that may be undefined. *)
Definition strictEqStr (v : option Json) (s : string) : bool :=
  match v with
  | Some (JStr t) => String.eqb t s
  | _ => false
  end.

(** [Array.prototype.indexOf] on an array of strings. *)
Fixpoint indexOfFrom (xs : list string) (x : string) (i : Z) : Z :=
  match xs with
  | [] => -1
  | y :: ys => if String.eqb y x then i else indexOfFrom ys x (i + 1)
  end.

Definition indexOf (xs : list string) (x : string) : Z := indexOfFrom xs x 0.

(** [Array.prototype.includes] on an array of strings. *)
Definition includes (xs : list string) (x : string) : bool :=
  existsb (fun y => String.eqb y x) xs.

End Js.

(* ================================================================== *)
(** ** src/lib/utils.ts *)

Module Utils.

(** [generateId(prefix)]: the prefix, an underscore and 24 random hex digits,
    here the argument [rnd]. *)
Definition generateId (prefix rnd : string) : string := prefix ++ "_" ++ rnd.

Definition isAlnum (c : ascii) : bool :=
  let n := nat_of_ascii c in
  (((48 <=? n) && (n <=? 57)) || ((65 <=? n) && (n <=? 90))
   || ((97 <=? n) && (n <=? 122)))%nat.

Fixpoint allAlnum (s : string) : bool :=
  match s with
  | EmptyString => true
  | String c rest => isAlnum c && allAlnum rest
  end.

Fixpoint stripPrefix (p s : string) : option string :=
  match p, s with
  | EmptyString, _ => Some s
  | String a p', String b s' => if Ascii.eqb a b then stripPrefix p' s' else None
  | String _ _, EmptyString => None
  end.

(** [/^did:imajin:[a-zA-Z0-9]+$/.test(did)] *)
Definition isValidDid (did : string) : bool :=
  match stripPrefix "did:imajin:" did with
  | Some rest => Js.truthyStr rest && allAlnum rest
  | None => false
  end.

Definition hierarchy : list string := ["readonly"; "member"; "admin"; "owner"].

Definition hasRole (userRole requiredRole : string) : bool :=
  let userLevel := Js.indexOf hierarchy userRole in
  let requiredLevel := Js.indexOf hierarchy requiredRole in
  userLevel >=? requiredLevel.

End Utils.

(* ================================================================== *)
(** ** db/schema.ts: the tables, their constraints and the operations on them *)

Module Db.

(** A [timestamp with time zone] column: milliseconds, or NULL. *)
Definition timestamp : Type := option Z.

Record Conversation : Type := mkConversation {
  conv_id : string;
  conv_type : string;
  conv_name : option string;
  conv_description : option string;
  conv_avatar : option string;
  conv_visibility : string;
  conv_trustRadius : option string;
  conv_createdBy : string;
  conv_createdAt : timestamp;
  conv_updatedAt : timestamp;
  conv_lastMessageAt : timestamp
}.

Record Participant : Type := mkParticipant {
  part_conversationId : string;
  part_did : string;
  part_role : string;
  part_joinedAt : timestamp;
  part_invitedBy : option string;
  part_lastReadAt : timestamp;
  part_muted : bool;
  part_trustExtendedTo : list string
}.

Record Message : Type := mkMessage {
  msg_id : string;
  msg_conversationId : string;
  msg_fromDid : string;
  msg_content : Js.Json;
  msg_contentType : string;
  msg_replyTo : option string;
  msg_createdAt : timestamp;
  msg_editedAt : timestamp;
  msg_deletedAt : timestamp
}.

Record Invite : Type := mkInvite {
  inv_id : string;
  inv_conversationId : string;
  inv_createdBy : string;
  inv_forDid : option string;
  inv_maxUses : option string;
  inv_usedCount : string;
  inv_expiresAt : timestamp;
  inv_createdAt : timestamp;
  inv_revokedAt : timestamp
}.

Record DB : Type := mkDB {
  conversations : list Conversation;
  participants : list Participant;
  messages : list Message;
  invites : list Invite
}.

Definition emptyDB : DB := mkDB [] [] [] [].

(** *** Queries *)

Definition isParticipant (conversationId did : string) (p : Participant) : bool :=
  String.eqb (part_conversationId p) conversationId && String.eqb (part_did p) did.

Definition findParticipant (conversationId did : string) (db : DB) : option Participant :=
  find (isParticipant conversationId did) (participants db).

Definition participantsOf (conversationId : string) (db : DB) : list Participant :=
  filter (fun p => String.eqb (part_conversationId p) conversationId) (participants db).

Definition findConversation (id : string) (db : DB) : option Conversation :=
  find (fun c => String.eqb (conv_id c) id) (conversations db).

Definition findMessage (id : string) (db : DB) : option Message :=
  find (fun m => String.eqb (msg_id m) id) (messages db).

Definition findMessageIn (id conversationId : string) (db : DB) : option Message :=
  find (fun m => String.eqb (msg_id m) id
                 && String.eqb (msg_conversationId m) conversationId)
       (messages db).

Definition findInvite (id : string) (db : DB) : option Invite :=
  find (fun i => String.eqb (inv_id i) id) (invites db).

Definition isSome {A : Type} (o : option A) : bool :=
  match o with
  | Some _ => true
  | None => false
  end.

(** *** Rows as the handlers insert them: the columns they give, the defaults
    of the schema for the others ([defaultNow()] is the clock [now]). *)

Definition newConversation (id type : string) (name description : option string)
    (visibility createdBy : string) (now : Z) : Conversation :=
  mkConversation id type name description None visibility None createdBy
                 (Some now) (Some now) None.

Definition newParticipant (conversationId did role : string)
    (invitedBy : option string) (now : Z) : Participant :=
  mkParticipant conversationId did role (Some now) invitedBy None false [].

Definition newMessage (id conversationId fromDid : string) (content : Js.Json)
    (contentType : string) (replyTo : option string) (now : Z) : Message :=
  mkMessage id conversationId fromDid content contentType replyTo (Some now)
            None None.

Definition newInvite (id conversationId createdBy : string)
    (forDid maxUses : option string) (expiresAt : timestamp) (now : Z) : Invite :=
  mkInvite id conversationId createdBy forDid maxUses "0" expiresAt (Some now)
           None.

(** The content of a server-generated system message. *)
Definition systemContent (text : string) : Js.Json :=
  Js.JObj [("type", Js.JStr "system"); ("text", Js.JStr text)].

(** *** Writes.  An insert returns [None] when a primary key or a foreign key
    is violated (the driver throws). *)

Definition insertConversation (c : Conversation) (db : DB) : option DB :=
  if isSome (findConversation (conv_id c) db) then None
  else Some (mkDB (conversations db ++ [c]) (participants db) (messages db)
                  (invites db)).

Definition insertParticipant (p : Participant) (db : DB) : option DB :=
  if isSome (findParticipant (part_conversationId p) (part_did p) db) then None
  else if isSome (findConversation (part_conversationId p) db)
  then Some (mkDB (conversations db) (participants db ++ [p]) (messages db)
                  (invites db))
  else None.

Definition insertMessage (m : Message) (db : DB) : option DB :=
  if isSome (findMessage (msg_id m) db) then None
  else if isSome (findConversation (msg_conversationId m) db)
  then Some (mkDB (conversations db) (participants db) (messages db ++ [m])
                  (invites db))
  else None.

Definition insertInvite (i : Invite) (db : DB) : option DB :=
  if isSome (findInvite (inv_id i) db) then None
  else if isSome (findConversation (inv_conversationId i) db)
  then Some (mkDB (conversations db) (participants db) (messages db)
                  (invites db ++ [i]))
  else None.

Definition updateConversation (id : string) (f : Conversation -> Conversation)
    (db : DB) : DB :=
  mkDB (map (fun c => if String.eqb (conv_id c) id then f c else c)
            (conversations db))
       (participants db) (messages db) (invites db).

Definition setParticipantRole (role : string) (p : Participant) : Participant :=
  mkParticipant (part_conversationId p) (part_did p) role (part_joinedAt p)
                (part_invitedBy p) (part_lastReadAt p) (part_muted p)
                (part_trustExtendedTo p).

Definition updateParticipantRole (conversationId did role : string) (db : DB) : DB :=
  mkDB (conversations db)
       (map (fun p => if isParticipant conversationId did p
                      then setParticipantRole role p else p)
            (participants db))
       (messages db) (invites db).

Definition deleteParticipant (conversationId did : string) (db : DB) : DB :=
  mkDB (conversations db)
       (filter (fun p => negb (isParticipant conversationId did p))
               (participants db))
       (messages db) (invites db).

Definition setInviteUsedCount (usedCount : string) (i : Invite) : Invite :=
  mkInvite (inv_id i) (inv_conversationId i) (inv_createdBy i) (inv_forDid i)
           (inv_maxUses i) usedCount (inv_expiresAt i) (inv_createdAt i)
           (inv_revokedAt i).

Definition updateInvite (id : string) (f : Invite -> Invite) (db : DB) : DB :=
  mkDB (conversations db) (participants db) (messages db)
       (map (fun i => if String.eqb (inv_id i) id then f i else i) (invites db)).

(** *** The constraints of the schema, as a check on a database. *)

Fixpoint noDupStr (xs : list string) : bool :=
  match xs with
  | [] => true
  | x :: rest => negb (existsb (String.eqb x) rest) && noDupStr rest
  end.

Fixpoint noDupKey (ps : list Participant) : bool :=
  match ps with
  | [] => true
  | p :: rest =>
      negb (existsb (isParticipant (part_conversationId p) (part_did p)) rest)
      && noDupKey rest
  end.

Definition hasConversation (db : DB) (id : string) : bool :=
  isSome (findConversation id db).

Definition wellFormed (db : DB) : bool :=
  noDupStr (map conv_id (conversations db))
  && noDupKey (participants db)
  && noDupStr (map msg_id (messages db))
  && noDupStr (map inv_id (invites db))
  && forallb (fun p => hasConversation db (part_conversationId p)) (participants db)
  && forallb (fun m => hasConversation db (msg_conversationId m)) (messages db)
  && forallb (fun i => hasConversation db (inv_conversationId i)) (invites db).

End Db.

Import Db.

(* ================================================================== *)
(** ** Responses and the handler monad *)

(** The JSON bodies the handlers answer with. *)
Inductive Body : Type :=
| ErrorBody (error : string)
| ConversationBody (conversation : option Conversation)
| ExistingConversationBody (conversation : option Conversation) (existing : bool)
| ParticipantBody (participant : option Participant)
| UpdatedBody (updated : bool)
| RemovedBody (removed : bool)
| MessagesBody (messages : list Message) (hasMore : bool)
| MessageBody (message : option Message)
| InviteBody (invite : option Invite) (link : string)
| PreviewBody (inviteId conversationId : string) (forDid : option string)
              (expiresAt : timestamp) (conversation : Conversation)
              (participantCount : Z)
| JoinedBody (conversationId : string) (joined : bool)
| AlreadyMemberBody (conversationId : string) (alreadyMember : bool).

Record Response : Type := mkResponse {
  body : Body;
  status : Z
}.

(** [jsonResponse(data, status = 200)] and [errorResponse(message, status = 400)] *)
Definition jsonResponse (data : Body) (status : Z) : Response :=
  mkResponse data status.

Definition errorResponse (message : string) (status : Z) : Response :=
  mkResponse (ErrorBody message) status.

Inductive outcome (A : Type) : Type :=
| Value (a : A)
| Returned (r : Response)
| Thrown.

Arguments Value {A} a.
Arguments Returned {A} r.
Arguments Thrown {A}.

Definition Handler (A : Type) : Type := DB -> DB * outcome A.

Definition ret {A : Type} (a : A) : Handler A := fun db => (db, Value a).

Definition bind {A B : Type} (m : Handler A) (k : A -> Handler B) : Handler B :=
  fun db =>
    match m db with
    | (db', Value a) => k a db'
    | (db', Returned r) => (db', Returned r)
    | (db', Thrown) => (db', Thrown)
    end.

Notation "x <- m ;; k" := (bind m (fun x => k))
  (at level 61, m at next level, right associativity).
Notation "m ;; k" := (bind m (fun _ => k))
  (at level 61, right associativity).

(** [return response] inside the handler. *)
Definition leave {A : Type} (r : Response) : Handler A :=
  fun db => (db, Returned r).

(** [if (cond) return response] *)
Definition leaveIf (cond : bool) (r : Response) : Handler unit :=
  if cond then leave r else ret tt.

Definition query {A : Type} (q : DB -> A) : Handler A :=
  fun db => (db, Value (q db)).

Definition update (f : DB -> DB) : Handler unit :=
  fun db => (f db, Value tt).

Definition insert (f : DB -> option DB) : Handler unit :=
  fun db =>
    match f db with
    | Some db' => (db', Value tt)
    | None => (db, Thrown)
    end.

(** [try { ... } catch (error) { return errorResponse(message, 500) }] *)
Definition tryCatch (message : string) (m : Handler Response) (db : DB)
    : DB * Response :=
  match m db with
  | (db', Value r) => (db', r)
  | (db', Returned r) => (db', r)
  | (db', Thrown) => (db', errorResponse message 500)
  end.

Definition forEach {A : Type} (xs : list A) (f : A -> Handler unit) : Handler unit :=
  fold_right (fun x rest => f x ;; rest) (ret tt) xs.

Definition orDefault (o : option string) (d : string) : string :=
  match o with
  | Some s => s
  | None => d
  end.

(* ================================================================== *)
(** ** src/app/api/conversations/[id]/participants/route.ts *)

Module ParticipantsRoute.

Import Utils.

(** The body of POST: [{ did, role = 'member' }]. *)
Record AddBody : Type := mkAddBody {
  add_did : string;
  add_role : option string
}.

(** POST /api/conversations/:id/participants *)
Definition POST (identity conversationId : string) (body : AddBody)
    (rnd : string) (now : Z) : DB -> DB * Response :=
  tryCatch "Failed to add participant" (
    myParticipant <- query (findParticipant conversationId identity) ;;
    match myParticipant with
    | None => leave (errorResponse "Permission denied" 403)
    | Some my =>
        leaveIf (negb (hasRole (part_role my) "admin"))
                (errorResponse "Permission denied" 403) ;;
        let did := add_did body in
        let role := orDefault (add_role body) "member" in
        leaveIf (negb (isValidDid did)) (errorResponse "Invalid DID" 400) ;;
        leaveIf (negb (String.eqb (part_role my) "owner")
                 && hasRole role (part_role my))
                (errorResponse "Cannot add participant with equal or higher role" 400) ;;
        existing <- query (findParticipant conversationId did) ;;
        leaveIf (isSome existing) (errorResponse "Already a participant" 409) ;;
        insert (insertParticipant
                  (newParticipant conversationId did role (Some identity) now)) ;;
        insert (insertMessage
                  (newMessage (generateId "msg" rnd) conversationId identity
                     (systemContent (identity ++ " added " ++ did))
                     "system" None now)) ;;
        participant <- query (findParticipant conversationId did) ;;
        ret (jsonResponse (ParticipantBody participant) 201)
    end).

(** The body of PATCH: [{ did, role }]. *)
Record RoleBody : Type := mkRoleBody {
  role_did : string;
  role_role : string
}.

(** PATCH /api/conversations/:id/participants *)
Definition PATCH (identity conversationId : string) (body : RoleBody)
    (rnd : string) (now : Z) : DB -> DB * Response :=
  tryCatch "Failed to update participant" (
    let did := role_did body in
    let role := role_role body in
    leaveIf (negb (isValidDid did)) (errorResponse "Invalid DID" 400) ;;
    leaveIf (negb (Js.includes ["readonly"; "member"; "admin"] role))
            (errorResponse "Invalid role" 400) ;;
    myParticipant <- query (findParticipant conversationId identity) ;;
    match myParticipant with
    | None => leave (errorResponse "Only the owner can change roles" 403)
    | Some my =>
        leaveIf (negb (String.eqb (part_role my) "owner"))
                (errorResponse "Only the owner can change roles" 403) ;;
        leaveIf (String.eqb did identity)
                (errorResponse "Cannot change your own role" 400) ;;
        update (updateParticipantRole conversationId did role) ;;
        insert (insertMessage
                  (newMessage (generateId "msg" rnd) conversationId identity
                     (systemContent
                        (identity ++ " changed " ++ did ++ "'s role to " ++ role))
                     "system" None now)) ;;
        ret (jsonResponse (UpdatedBody true) 200)
    end).

(** DELETE /api/conversations/:id/participants?did=... *)
Definition DELETE (identity conversationId : string) (didParam : option string)
    (rnd : string) (now : Z) : DB -> DB * Response :=
  tryCatch "Failed to remove participant" (
    match didParam with
    | None => leave (errorResponse "Invalid or missing DID" 400)
    | Some did =>
        leaveIf (negb (Js.truthyStr did) || negb (isValidDid did))
                (errorResponse "Invalid or missing DID" 400) ;;
        myParticipant <- query (findParticipant conversationId identity) ;;
        match myParticipant with
        | None => leave (errorResponse "Conversation not found" 404)
        | Some my =>
            let isSelf := String.eqb did identity in
            leaveIf (negb isSelf && negb (hasRole (part_role my) "admin"))
                    (errorResponse "Permission denied" 403) ;;
            leaveIf (isSelf && String.eqb (part_role my) "owner")
                    (errorResponse "Owner must transfer ownership before leaving" 400) ;;
            targetParticipant <- query (findParticipant conversationId did) ;;
            match targetParticipant with
            | None => leave (errorResponse "Participant not found" 404)
            | Some target =>
                leaveIf (negb isSelf && hasRole (part_role target) (part_role my))
                        (errorResponse
                           "Cannot remove participant with equal or higher role" 400) ;;
                update (deleteParticipant conversationId did) ;;
                let action :=
                  if isSelf then "left the group" else "removed " ++ did in
                insert (insertMessage
                          (newMessage (generateId "msg" rnd) conversationId identity
                             (systemContent (identity ++ " " ++ action))
                             "system" None now)) ;;
                ret (jsonResponse (RemovedBody true) 200)
            end
        end
    end).

End ParticipantsRoute.

(* ================================================================== *)
(** ** src/app/api/conversations/route.ts *)

Module ConversationsRoute.

Import Utils.

(** The body of POST:
    [{ type, name, description, participantDids, visibility = 'private' }]. *)
Record CreateBody : Type := mkCreateBody {
  create_type : option string;
  create_name : option string;
  create_description : option string;
  create_participantDids : option (list string);
  create_visibility : option string
}.

(** The message [type must be "direct" or "group"]. *)
Definition typeMessage : string :=
  let q := String (ascii_of_nat 34) EmptyString in
  "type must be " ++ q ++ "direct" ++ q ++ " or " ++ q ++ "group" ++ q.

(** The rows of [conversations INNER JOIN participants] for the direct
    conversations in which one of the two identities takes part. *)
Definition directRows (identity otherDid : string) (db : DB)
    : list (Conversation * Participant) :=
  flat_map
    (fun c =>
       if String.eqb (conv_type c) "direct"
       then map (pair c)
              (filter (fun p =>
                         String.eqb (part_conversationId p) (conv_id c)
                         && (String.eqb (part_did p) identity
                             || String.eqb (part_did p) otherDid))
                      (participants db))
       else [])
    (conversations db).

(** [Set.prototype.has] and [Set.prototype.add] on a set of strings. *)
Definition setHas (dids : list string) (did : string) : bool :=
  existsb (String.eqb did) dids.

Definition setAdd (dids : list string) (did : string) : list string :=
  if setHas dids did then dids else dids ++ [did].

(** [convCounts]: a record from conversation id to set of dids.  Its keys
    are ids [conv_...], so [Object.entries] lists them in insertion order. *)
Fixpoint addDid (convId did : string) (convCounts : list (string * list string))
    : list (string * list string) :=
  match convCounts with
  | [] => [(convId, setAdd [] did)]
  | (k, dids) :: rest =>
      if String.eqb k convId then (k, setAdd dids did) :: rest
      else (k, dids) :: addDid convId did rest
  end.

Definition groupRows (rows : list (Conversation * Participant))
    : list (string * list string) :=
  fold_left (fun convCounts row =>
               addDid (conv_id (fst row)) (part_did (snd row)) convCounts)
            rows [].

(** The first entry whose set holds both identities. *)
Definition findExisting (identity otherDid : string)
    (convCounts : list (string * list string)) : option string :=
  option_map fst
    (find (fun e => setHas (snd e) identity && setHas (snd e) otherDid)
          convCounts).

(** POST /api/conversations *)
Definition POST (identity : string) (body : CreateBody) (rndConv rndMsg : string)
    (now : Z) : DB -> DB * Response :=
  tryCatch "Failed to create conversation" (
    match create_type body with
    | None => leave (errorResponse typeMessage 400)
    | Some type =>
        leaveIf (negb (Js.truthyStr type)
                 || negb (Js.includes ["direct"; "group"] type))
                (errorResponse typeMessage 400) ;;
        match create_participantDids body with
        | None => leave (errorResponse "participantDids is required" 400)
        | Some participantDids =>
            leaveIf (Nat.eqb (List.length participantDids) 0)
                    (errorResponse "participantDids is required" 400) ;;
            forEach participantDids
              (fun did => leaveIf (negb (isValidDid did))
                            (errorResponse ("Invalid DID: " ++ did) 400)) ;;
            (if String.eqb type "direct"
             then
               match participantDids with
               | [otherDid] =>
                   existing <- query (directRows identity otherDid) ;;
                   match findExisting identity otherDid (groupRows existing) with
                   | Some convId =>
                       conv <- query (findConversation convId) ;;
                       leave (jsonResponse (ExistingConversationBody conv true) 200)
                   | None => ret tt
                   end
               | _ =>
                   leave (errorResponse
                            "Direct conversations must have exactly one other participant"
                            400)
               end
             else ret tt) ;;
            leaveIf (String.eqb type "group"
                     && negb (Js.truthyOpt (create_name body)))
                    (errorResponse "Group conversations require a name" 400) ;;
            let conversationId := generateId "conv" rndConv in
            insert (insertConversation
                      (newConversation conversationId type
                         (Js.orNull (create_name body))
                         (Js.orNull (create_description body))
                         (orDefault (create_visibility body) "private")
                         identity now)) ;;
            insert (insertParticipant
                      (newParticipant conversationId identity "owner" None now)) ;;
            forEach participantDids
              (fun did =>
                 if negb (String.eqb did identity)
                 then insert (insertParticipant
                                (newParticipant conversationId did "member"
                                   (Some identity) now))
                 else ret tt) ;;
            (if String.eqb type "group"
             then insert (insertMessage
                            (newMessage (generateId "msg" rndMsg) conversationId
                               identity
                               (systemContent (identity ++ " created the group"))
                               "system" None now))
             else ret tt) ;;
            conversation <- query (findConversation conversationId) ;;
            ret (jsonResponse (ConversationBody conversation) 201)
        end
    end).

End ConversationsRoute.

(* ================================================================== *)
(** ** src/app/api/conversations/[id]/route.ts *)

Module ConversationRoute.

Import Utils.

(** The body of PATCH: [{ name, description, visibility }].  A field is
    absent ([None], undefined), [null] ([Some None]) or a string. *)
Record PatchBody : Type := mkPatchBody {
  patch_name : option (option string);
  patch_description : option (option string);
  patch_visibility : option (option string)
}.

Definition setUpdatedAt (now : Z) (c : Conversation) : Conversation :=
  mkConversation (conv_id c) (conv_type c) (conv_name c) (conv_description c)
    (conv_avatar c) (conv_visibility c) (conv_trustRadius c) (conv_createdBy c)
    (conv_createdAt c) (Some now) (conv_lastMessageAt c).

Definition setName (name : option string) (c : Conversation) : Conversation :=
  mkConversation (conv_id c) (conv_type c) name (conv_description c)
    (conv_avatar c) (conv_visibility c) (conv_trustRadius c) (conv_createdBy c)
    (conv_createdAt c) (conv_updatedAt c) (conv_lastMessageAt c).

Definition setDescription (description : option string) (c : Conversation)
    : Conversation :=
  mkConversation (conv_id c) (conv_type c) (conv_name c) description
    (conv_avatar c) (conv_visibility c) (conv_trustRadius c) (conv_createdBy c)
    (conv_createdAt c) (conv_updatedAt c) (conv_lastMessageAt c).

Definition setVisibility (visibility : string) (c : Conversation) : Conversation :=
  mkConversation (conv_id c) (conv_type c) (conv_name c) (conv_description c)
    (conv_avatar c) visibility (conv_trustRadius c) (conv_createdBy c)
    (conv_createdAt c) (conv_updatedAt c) (conv_lastMessageAt c).

(** The [updates] object applied to a row: [updatedAt] always, the other
    columns when the body defines them. *)
Definition applyUpdates (body : PatchBody) (visibility : option string) (now : Z)
    (c : Conversation) : Conversation :=
  let c1 := setUpdatedAt now c in
  let c2 := match patch_name body with
            | Some name => setName name c1
            | None => c1
            end in
  let c3 := match patch_description body with
            | Some description => setDescription description c2
            | None => c2
            end in
  match visibility with
  | Some v => setVisibility v c3
  | None => c3
  end.

(** PATCH /api/conversations/:id.  The column [visibility] is NOT NULL: the
    update throws on [visibility: null] when it reaches a row. *)
Definition PATCH (identity conversationId : string) (body : PatchBody) (now : Z)
    : DB -> DB * Response :=
  tryCatch "Failed to update conversation" (
    participant <- query (findParticipant conversationId identity) ;;
    match participant with
    | None => leave (errorResponse "Permission denied" 403)
    | Some p =>
        leaveIf (negb (hasRole (part_role p) "admin"))
                (errorResponse "Permission denied" 403) ;;
        match patch_visibility body with
        | Some None =>
            insert (fun db => if hasConversation db conversationId
                              then None
                              else Some db)
        | Some (Some v) =>
            update (updateConversation conversationId
                      (applyUpdates body (Some v) now))
        | None =>
            update (updateConversation conversationId
                      (applyUpdates body None now))
        end ;;
        updated <- query (findConversation conversationId) ;;
        ret (jsonResponse (ConversationBody updated) 200)
    end).

End ConversationRoute.

(* ================================================================== *)
(** ** src/app/api/conversations/[id]/messages/route.ts *)

Module MessagesRoute.

Import Utils.

(** [ORDER BY created_at DESC]: the key of the first row is not below the key
    of the second; PostgreSQL puts NULL first in descending order. *)
Definition notOlder (a b : Message) : bool :=
  match msg_createdAt a, msg_createdAt b with
  | None, _ => true
  | Some _, None => false
  | Some x, Some y => y <=? x
  end.

Fixpoint insertDesc (m : Message) (sorted : list Message) : list Message :=
  match sorted with
  | [] => [m]
  | m' :: rest => if notOlder m m' then m :: sorted else m' :: insertDesc m rest
  end.

(** Rows with equal keys keep their heap order. *)
Definition orderByCreatedAtDesc (rows : list Message) : list Message :=
  fold_right insertDesc [] rows.

(** The WHERE clause: the conversation, not soft-deleted, and, with a cursor,
    [created_at < cursor]. *)
Definition selected (conversationId : string) (cursor : option Z) (m : Message)
    : bool :=
  String.eqb (msg_conversationId m) conversationId
  && negb (isSome (msg_deletedAt m))
  && match cursor with
     | None => true
     | Some t =>
         match msg_createdAt m with
         | Some c => c <? t
         | None => false
         end
     end.

(** [.limit(limit)]: the query builder emits the LIMIT clause for a number
    that is not negative, and no clause otherwise. *)
Definition limitRows (limit : Js.number) (rows : list Message) : list Message :=
  match limit with
  | Js.Num n => if 0 <=? n then firstn (Z.to_nat n) rows else rows
  | Js.NaN => rows
  end.

Definition selectMessages (conversationId : string) (cursor : option Z)
    (limit : Js.number) (db : DB) : list Message :=
  limitRows limit
    (orderByCreatedAtDesc (filter (selected conversationId cursor) (messages db))).

(** The cursor: the creation time of the message named by [before], when
    [before] is given and names a message that has one. *)
Definition cursorOf (before : option string) (db : DB) : option Z :=
  if Js.truthyOpt before
  then match findMessage (orDefault before EmptyString) db with
       | Some cursorMessage => msg_createdAt cursorMessage
       | None => None
       end
  else None.

(** [Math.min(parseInt(url.searchParams.get('limit') || '50'), 100)] *)
Definition limitOf (limitParam : option string) : Js.number :=
  Js.min (Js.parseInt (orDefault (Js.orNull limitParam) "50")) (Js.Num 100).

(** GET /api/conversations/:id/messages?limit=...&before=... *)
Definition GET (identity conversationId : string)
    (limitParam before : option string) : DB -> DB * Response :=
  let limit := limitOf limitParam in
  tryCatch "Failed to get messages" (
    participant <- query (findParticipant conversationId identity) ;;
    leaveIf (negb (isSome participant))
            (errorResponse "Conversation not found or access denied" 404) ;;
    cursor <- query (cursorOf before) ;;
    result <- query (selectMessages conversationId cursor limit) ;;
    ret (jsonResponse
           (MessagesBody (rev result)
              (Js.strictEq (Js.Num (Z.of_nat (List.length result))) limit))
           200)).

(** The body of POST: [{ content, replyTo }]. *)
Record SendBody : Type := mkSendBody {
  send_content : option Js.Json;
  send_replyTo : option string
}.

Definition setLastMessageAt (now : Z) (c : Conversation) : Conversation :=
  mkConversation (conv_id c) (conv_type c) (conv_name c) (conv_description c)
    (conv_avatar c) (conv_visibility c) (conv_trustRadius c) (conv_createdBy c)
    (conv_createdAt c) (Some now) (Some now).

(** POST /api/conversations/:id/messages *)
Definition POST (identity conversationId : string) (body : SendBody)
    (rnd : string) (now : Z) : DB -> DB * Response :=
  tryCatch "Failed to send message" (
    participant <- query (findParticipant conversationId identity) ;;
    match participant with
    | None => leave (errorResponse "Conversation not found or access denied" 404)
    | Some p =>
        leaveIf (String.eqb (part_role p) "readonly")
                (errorResponse "You do not have permission to send messages" 403) ;;
        match send_content body with
        | None =>
            leave (errorResponse "content is required and must be an object" 400)
        | Some content =>
            leaveIf (negb (Js.truthy content) || negb (Js.typeofObject content))
                    (errorResponse "content is required and must be an object" 400) ;;
            let contentType :=
              if Js.strictEqStr (Js.getProp content "type") "system"
              then "system" else "text" in
            let replyTo := send_replyTo body in
            (if Js.truthyOpt replyTo
             then
               replyMessage <- query (findMessageIn (orDefault replyTo EmptyString)
                                                    conversationId) ;;
               leaveIf (negb (isSome replyMessage))
                       (errorResponse "Reply message not found" 404)
             else ret tt) ;;
            let messageId := generateId "msg" rnd in
            insert (insertMessage
                      (newMessage messageId conversationId identity content
                         contentType (Js.orNull replyTo) now)) ;;
            update (updateConversation conversationId (setLastMessageAt now)) ;;
            message <- query (findMessage messageId) ;;
            ret (jsonResponse (MessageBody message) 201)
        end
    end).

End MessagesRoute.

(* ================================================================== *)
(** ** src/app/api/invites/route.ts *)

Module InvitesRoute.

Import Utils.

(** The body of POST: [{ conversationId, forDid, maxUses, expiresInHours }].
    [maxUses] is any JSON value, [expiresInHours] a JSON integer. *)
Record InviteRequest : Type := mkInviteRequest {
  req_conversationId : option string;
  req_forDid : option string;
  req_maxUses : option Js.Json;
  req_expiresInHours : option Z
}.

Definition joinComma (xs : list string) : string :=
  String.concat "," xs.

(** [value.toString()] of a JSON value that is not null. *)
Fixpoint jsonToString (j : Js.Json) : string :=
  match j with
  | Js.JNull => "null"
  | Js.JBool true => "true"
  | Js.JBool false => "false"
  | Js.JNum z => Js.toString (Js.Num z)
  | Js.JStr s => s
  | Js.JArr items =>
      joinComma (map (fun item =>
                        match item with
                        | Js.JNull => EmptyString
                        | _ => jsonToString item
                        end) items)
  | Js.JObj _ => "[object Object]"
  end.

(** [maxUses?.toString() || null] *)
Definition maxUsesColumn (maxUses : option Js.Json) : option string :=
  match maxUses with
  | None | Some Js.JNull => None
  | Some j => Js.orNull (Some (jsonToString j))
  end.

(** A Date is valid within 8.64e15 ms of the epoch; the driver cannot
    serialise ([toISOString]) an invalid one. *)
Definition validDate (t : Z) : bool := Z.abs t <=? 8640000000000000.

(** [expiresAt]: null unless [expiresInHours] is truthy. *)
Definition expiryOf (expiresInHours : option Z) (now : Z) : timestamp :=
  match expiresInHours with
  | Some h => if negb (h =? 0) then Some (now + h * 60 * 60 * 1000) else None
  | None => None
  end.

Definition defaultBaseUrl : string := "https://chat.imajin.ai".

(** POST /api/invites *)
Definition POST (identity : string) (body : InviteRequest) (rnd : string)
    (baseUrl : option string) (now : Z) : DB -> DB * Response :=
  tryCatch "Failed to create invite" (
    leaveIf (negb (Js.truthyOpt (req_conversationId body)))
            (errorResponse "conversationId is required" 400) ;;
    let conversationId := orDefault (req_conversationId body) EmptyString in
    participant <- query (findParticipant conversationId identity) ;;
    match participant with
    | None => leave (errorResponse "Permission denied" 403)
    | Some p =>
        leaveIf (negb (hasRole (part_role p) "admin"))
                (errorResponse "Permission denied" 403) ;;
        let expiresAt := expiryOf (req_expiresInHours body) now in
        let inviteId := generateId "inv" rnd in
        insert (fun db =>
                  match expiresAt with
                  | Some t => if validDate t then Some db else None
                  | None => Some db
                  end) ;;
        insert (insertInvite
                  (newInvite inviteId conversationId identity
                     (Js.orNull (req_forDid body))
                     (maxUsesColumn (req_maxUses body)) expiresAt now)) ;;
        invite <- query (findInvite inviteId) ;;
        ret (jsonResponse
               (InviteBody invite
                  (orDefault (Js.orNull baseUrl) defaultBaseUrl
                   ++ "/join/" ++ inviteId))
               201)
    end).

End InvitesRoute.

(* ================================================================== *)
(** ** src/app/api/invites/[id]/route.ts *)

Module InviteRoute.

Import Utils.

(** [invite.revokedAt] as a condition: a Date is truthy, null is not. *)
Definition revoked (invite : Invite) : bool := isSome (inv_revokedAt invite).

(** [invite.expiresAt && new Date(invite.expiresAt) < new Date()] *)
Definition expired (invite : Invite) (now : Z) : bool :=
  match inv_expiresAt invite with
  | Some t => t <? now
  | None => false
  end.

(** [invite.maxUses && parseInt(invite.usedCount) >= parseInt(invite.maxUses)] *)
Definition exhausted (invite : Invite) : bool :=
  match inv_maxUses invite with
  | Some maxUses =>
      Js.truthyStr maxUses
      && Js.ge (Js.parseInt (inv_usedCount invite)) (Js.parseInt maxUses)
  | None => false
  end.

(** The three checks shared by preview and redeem, in the order of the source. *)
Definition checkInvite (invite : Invite) (now : Z) : Handler unit :=
  leaveIf (revoked invite) (errorResponse "Invite has been revoked" 410) ;;
  leaveIf (expired invite now) (errorResponse "Invite has expired" 410) ;;
  leaveIf (exhausted invite) (errorResponse "Invite has reached maximum uses" 410).

(** GET /api/invites/:id *)
Definition GET (inviteId : string) (now : Z) : DB -> DB * Response :=
  tryCatch "Failed to get invite" (
    found <- query (findInvite inviteId) ;;
    match found with
    | None => leave (errorResponse "Invite not found" 404)
    | Some invite =>
        checkInvite invite now ;;
        found' <- query (findConversation (inv_conversationId invite)) ;;
        match found' with
        | None => leave (errorResponse "Conversation not found" 404)
        | Some conversation =>
            allParticipants <- query (participantsOf (inv_conversationId invite)) ;;
            ret (jsonResponse
                   (PreviewBody (inv_id invite) (inv_conversationId invite)
                      (inv_forDid invite) (inv_expiresAt invite) conversation
                      (Z.of_nat (List.length allParticipants)))
                   200)
        end
    end).

(** POST /api/invites/:id *)
Definition POST (identity inviteId : string) (rnd : string) (now : Z)
    : DB -> DB * Response :=
  tryCatch "Failed to accept invite" (
    found <- query (findInvite inviteId) ;;
    match found with
    | None => leave (errorResponse "Invite not found" 404)
    | Some invite =>
        checkInvite invite now ;;
        leaveIf (Js.truthyOpt (inv_forDid invite)
                 && negb (String.eqb (orDefault (inv_forDid invite) EmptyString)
                                     identity))
                (errorResponse "This invite is for a different user" 403) ;;
        existing <- query (findParticipant (inv_conversationId invite) identity) ;;
        leaveIf (isSome existing)
                (jsonResponse
                   (AlreadyMemberBody (inv_conversationId invite) true) 200) ;;
        insert (insertParticipant
                  (newParticipant (inv_conversationId invite) identity "member"
                     (Some (inv_createdBy invite)) now)) ;;
        update (updateInvite inviteId
                  (setInviteUsedCount
                     (Js.toString
                        (Js.add (Js.parseInt (inv_usedCount invite)) (Js.Num 1))))) ;;
        insert (insertMessage
                  (newMessage (generateId "msg" rnd) (inv_conversationId invite)
                     identity
                     (systemContent (identity ++ " joined via invite"))
                     "system" None now)) ;;
        ret (jsonResponse (JoinedBody (inv_conversationId invite) true) 200)
    end).

End InviteRoute.

(* ================================================================== *)
(** ** Vocabulary of the specification and sample data *)

(** The rank of a role in the hierarchy, -1 outside it. *)
Definition rank (role : string) : Z := Js.indexOf Utils.hierarchy role.

(** The number of participants of a conversation whose role is [owner]. *)
Definition ownerCount (conversationId : string) (db : DB) : nat :=
  List.length
    (filter (fun p => String.eqb (part_role p) "owner")
            (participantsOf conversationId db)).

(** The dids of the participants of a conversation. *)
Definition memberDids (conversationId : string) (db : DB) : list string :=
  map part_did (participantsOf conversationId db).

(** A removal went through: the answer is [{ removed: true }] and the target
    is no longer a participant. *)
Definition removedFrom (cid did : string) (out : DB * Response) : Prop :=
  snd out = jsonResponse (RemovedBody true) 200
  /\ findParticipant cid did (fst out) = None.

(** An invite is in no terminal state at time [now]: not revoked, not past
    its expiry, and with uses left.  The counters are text columns; they are
    compared through their numeric reading. *)
Definition hasExpired (i : Invite) (now : Z) : Prop :=
  exists t, inv_expiresAt i = Some t /\ t < now.

Definition isExhausted (i : Invite) : Prop :=
  exists m u x,
    inv_maxUses i = Some m /\ m <> EmptyString
    /\ Js.parseInt (inv_usedCount i) = Js.Num u
    /\ Js.parseInt m = Js.Num x /\ x <= u.

Definition validInvite (i : Invite) (now : Z) : Prop :=
  inv_revokedAt i = None /\ ~ hasExpired i now /\ ~ isExhausted i.

(** Validity in the words of the specification: the current time strictly
    before [expiresAt], and [usedCount < maxUses]. *)
Definition validAsStated (i : Invite) (now : Z) : Prop :=
  inv_revokedAt i = None
  /\ (forall t, inv_expiresAt i = Some t -> now < t)
  /\ (forall m, inv_maxUses i = Some m ->
        Js.lt (Js.parseInt (inv_usedCount i)) (Js.parseInt m) = true).

(** The consumer an invite is bound to, if any, is [identity]. *)
Definition openTo (i : Invite) (identity : string) : Prop :=
  inv_forDid i = None \/ inv_forDid i = Some EmptyString
  \/ inv_forDid i = Some identity.

(** The answer is the 410 response. *)
Definition gone (r : Response) : Prop := status r = 410.

(** A direct conversation [cid] in which both [a] and [b] take part. *)
Definition directBetween (db : DB) (a b cid : string) : Prop :=
  (exists c, In c (conversations db) /\ conv_id c = cid
             /\ conv_type c = "direct")
  /\ (exists p, In p (participants db) /\ part_conversationId p = cid
                /\ part_did p = a)
  /\ (exists p, In p (participants db) /\ part_conversationId p = cid
                /\ part_did p = b).

(** A joined row for conversation [k] and identity [d]. *)
Definition hasRow (rows : list (Conversation * Participant)) (k d : string)
    : Prop :=
  exists row, In row rows /\ conv_id (fst row) = k /\ part_did (snd row) = d.

(** The set recorded for a key of [convCounts], empty without an entry. *)
Fixpoint lookupSet (k : string) (convCounts : list (string * list string))
    : list string :=
  match convCounts with
  | [] => []
  | (k', dids) :: rest => if String.eqb k' k then dids else lookupSet k rest
  end.

(** The conversation row and the two participant rows that the creation of a
    direct conversation adds. *)
Definition createdConversation (a rndConv : string)
    (body : ConversationsRoute.CreateBody) (now : Z) : Conversation :=
  newConversation (Utils.generateId "conv" rndConv) "direct"
    (Js.orNull (ConversationsRoute.create_name body))
    (Js.orNull (ConversationsRoute.create_description body))
    (orDefault (ConversationsRoute.create_visibility body) "private") a now.

Definition createdParticipants (a b rndConv : string) (now : Z)
    : list Participant :=
  [newParticipant (Utils.generateId "conv" rndConv) a "owner" None now;
   newParticipant (Utils.generateId "conv" rndConv) b "member" (Some a) now].

(** A page in chronological order: no message is older than one before it. *)
Definition chronological (page : list Message) : Prop :=
  StronglySorted (fun x y => MessagesRoute.notOlder y x = true) page.

(** The order in the words of the specification: strictly increasing
    creation times. *)
Definition strictlyChronological (page : list Message) : Prop :=
  StronglySorted
    (fun x y => exists t u, msg_createdAt x = Some t /\ msg_createdAt y = Some u
                            /\ t < u)
    page.

(** The message is strictly older than the cursor: the creation time of the
    message that [before] names, when it names one that has a creation time. *)
Definition olderThanCursor (db : DB) (before : option string) (m : Message)
    : Prop :=
  forall id c t,
    before = Some id -> id <> EmptyString ->
    findMessage id db = Some c -> msg_createdAt c = Some t ->
    exists x, msg_createdAt m = Some x /\ x < t.

(** The message can be listed: it belongs to the conversation, is not
    soft-deleted and is older than the cursor. *)
Definition listed (db : DB) (cid : string) (before : option string)
    (m : Message) : Prop :=
  In m (messages db)
  /\ msg_conversationId m = cid
  /\ msg_deletedAt m = None
  /\ olderThanCursor db before m.

(** The participant is an owner of the conversation. *)
Definition isOwnerOf (conversationId : string) (p : Participant) : bool :=
  String.eqb (part_conversationId p) conversationId
  && String.eqb (part_role p) "owner".

(** A request on the participants of a conversation. *)
Inductive ParticipantOp : Type :=
| AddOp (identity : string) (body : ParticipantsRoute.AddBody) (rnd : string)
        (now : Z)
| SetRoleOp (identity : string) (body : ParticipantsRoute.RoleBody)
            (rnd : string) (now : Z)
| RemoveOp (identity : string) (didParam : option string) (rnd : string)
           (now : Z).

Definition runOp (conversationId : string) (db : DB) (op : ParticipantOp) : DB :=
  match op with
  | AddOp identity body rnd now =>
      fst (ParticipantsRoute.POST identity conversationId body rnd now db)
  | SetRoleOp identity body rnd now =>
      fst (ParticipantsRoute.PATCH identity conversationId body rnd now db)
  | RemoveOp identity didParam rnd now =>
      fst (ParticipantsRoute.DELETE identity conversationId didParam rnd now db)
  end.

(** The request is an addition that asks for the role [owner]. *)
Definition asksOwner (op : ParticipantOp) : bool :=
  match op with
  | AddOp _ body _ _ =>
      String.eqb (orDefault (ParticipantsRoute.add_role body) "member") "owner"
  | _ => false
  end.

Module Sample.

Definition owner : string := "did:imajin:owner".
Definition alice : string := "did:imajin:alice".
Definition bob : string := "did:imajin:bob".
Definition carol : string := "did:imajin:carol".

(** The owner creates the group Launch with participants alice and bob. *)
Definition launchId : string := Utils.generateId "conv" "launch".

Definition launch : DB :=
  fst (ConversationsRoute.POST owner
         (ConversationsRoute.mkCreateBody (Some "group") (Some "Launch") None
            (Some [alice; bob]) None)
         "launch" "m0" 1000 emptyDB).

(** Alice opens a direct conversation with bob. *)
Definition directId : string := Utils.generateId "conv" "ab".

Definition directBody (other : string) : ConversationsRoute.CreateBody :=
  ConversationsRoute.mkCreateBody (Some "direct") None None (Some [other]) None.

Definition direct : DB :=
  fst (ConversationsRoute.POST alice (directBody bob) "ab" "m0" 1000 emptyDB).

(** An invite to Launch that expires at time 5000, and one bound to bob. *)
Definition expiring : Invite :=
  mkInvite "inv_e" launchId owner None None "0" (Some 5000) (Some 1000) None.

Definition forBob : Invite :=
  mkInvite "inv_b" launchId owner (Some bob) None "0" None (Some 1000) None.

Definition launchWithInvites : DB :=
  mkDB (conversations launch) (participants launch) (messages launch)
       [expiring; forBob].

(** Alice sends four messages to bob, at times 2001 to 2004. *)
Definition cipher (text : string) : MessagesRoute.SendBody :=
  MessagesRoute.mkSendBody
    (Some (Js.JObj [("encrypted", Js.JStr text); ("nonce", Js.JStr "n")])) None.

Definition ledger : DB :=
  let send rnd now db :=
    fst (MessagesRoute.POST alice directId (cipher rnd) rnd now db) in
  send "t4" 2004 (send "t3" 2003 (send "t2" 2002 (send "t1" 2001 direct))).

Definition sent (rnd : string) (now : Z) : Message :=
  newMessage (Utils.generateId "msg" rnd) directId alice
    (Js.JObj [("encrypted", Js.JStr rnd); ("nonce", Js.JStr "n")]) "text" None
    now.

(** Two messages sent within the same millisecond. *)
Definition burst : DB :=
  let send rnd now db :=
    fst (MessagesRoute.POST alice directId (cipher rnd) rnd now db) in
  send "t2" 2001 (send "t1" 2001 direct).

(** The owner creates an open invite to Launch; zed, whose id is a DID of
    another method, redeems it. *)
Definition zed : string := "did:key:z6MkZed".

Definition launchJoined : DB :=
  let invited :=
    fst (InvitesRoute.POST owner
           (InvitesRoute.mkInviteRequest (Some launchId) None None None)
           "open" None 1500 launch) in
  fst (InviteRoute.POST zed (Utils.generateId "inv" "open") "m7" 2000 invited).

End Sample.

From Stdlib Require Import DecimalPos.

(* ================================================================== *)
(** ** The remaining handlers

    The handlers below answer with bodies of their own and, for the key
    directory, work on tables of their own; they run in the same monad, taken
    here over any state and any response. *)

Module Gen.

Section Monad.

Context {S R : Type}.

Inductive outcome (A : Type) : Type :=
| Value (a : A)
| Returned (r : R)
| Thrown.

Definition Handler (A : Type) : Type := S -> S * outcome A.

Definition ret {A : Type} (a : A) : Handler A :=
  fun s => (s, Value A a).

Definition bind {A B : Type} (m : Handler A) (k : A -> Handler B) : Handler B :=
  fun s =>
    match m s with
    | (s', Value _ a) => k a s'
    | (s', Returned _ r) => (s', Returned B r)
    | (s', Thrown _) => (s', Thrown B)
    end.

Definition leave {A : Type} (r : R) : Handler A :=
  fun s => (s, Returned A r).

Definition leaveIf (cond : bool) (r : R) : Handler unit :=
  if cond then leave r else ret tt.

Definition query {A : Type} (q : S -> A) : Handler A :=
  fun s => (s, Value A (q s)).

Definition update (f : S -> S) : Handler unit :=
  fun s => (f s, Value unit tt).

Definition insert (f : S -> option S) : Handler unit :=
  fun s =>
    match f s with
    | Some s' => (s', Value unit tt)
    | None => (s, Thrown unit)
    end.

Definition forEach {A : Type} (xs : list A) (f : A -> Handler unit)
    : Handler unit :=
  fold_right (fun x rest => bind (f x) (fun _ => rest)) (ret tt) xs.

(** [try { ... } catch (error) { return failure }] *)
Definition tryCatch (failure : R) (m : Handler R) (s : S) : S * R :=
  match m s with
  | (s', Value _ r) => (s', r)
  | (s', Returned _ r) => (s', r)
  | (s', Thrown _) => (s', failure)
  end.

End Monad.

Arguments outcome R A : clear implicits.
Arguments Handler S R A : clear implicits.

End Gen.

Declare Scope gen_scope.
Delimit Scope gen_scope with gen.

Notation "x <- m ;; k" := (Gen.bind m (fun x => k))
  (at level 61, m at next level, right associativity) : gen_scope.
Notation "m ;; k" := (Gen.bind m (fun _ => k))
  (at level 61, right associativity) : gen_scope.

(** A conversation as listed for a participant:
    [{ ...conversation, myRole, muted, lastReadAt }]. *)
Record ConversationSummary : Type := mkSummary {
  sum_conversation : Conversation;
  sum_myRole : string;
  sum_muted : bool;
  sum_lastReadAt : timestamp
}.

(** The JSON bodies of the remaining handlers. *)
Inductive Answer : Type :=
| ErrorAnswer (error : string)
| ParticipantsAnswer (participants : list Participant)
| ConversationsAnswer (conversations : list ConversationSummary)
| DetailAnswer (conversation : Conversation) (participants : list Participant)
               (myRole : string)
| DeletedAnswer (deleted : bool)
| InvitesAnswer (invites : list Invite)
| RevokedAnswer (revoked : bool)
| UploadedAnswer (success : bool) (preKeysAdded : Z)
| OwnKeysAnswer (did identityKey signedPreKey signature : string)
                (updatedAt : timestamp) (unusedPreKeyCount : Z)
| KeysAnswer (did identityKey signedPreKey signature : string)
             (oneTimePreKey : option string).

Record Reply : Type := mkReply {
  answer : Answer;
  code : Z
}.

Definition jsonReply (data : Answer) (status : Z) : Reply := mkReply data status.

Definition errorReply (message : string) (status : Z) : Reply :=
  mkReply (ErrorAnswer message) status.

(* ------------------------------------------------------------------ *)
(** *** GET of src/app/api/conversations/[id]/participants/route.ts *)

Module ParticipantsList.

Local Open Scope gen_scope.

(** GET /api/conversations/:id/participants *)
Definition GET (identity conversationId : string) : DB -> DB * Reply :=
  Gen.tryCatch (errorReply "Failed to list participants" 500) (
    myParticipant <- Gen.query (findParticipant conversationId identity) ;;
    Gen.leaveIf (negb (isSome myParticipant))
      (errorReply "Conversation not found or access denied" 404) ;;
    allParticipants <- Gen.query (participantsOf conversationId) ;;
    Gen.ret (jsonReply (ParticipantsAnswer allParticipants) 200)).

End ParticipantsList.

(* ------------------------------------------------------------------ *)
(** *** GET of src/app/api/conversations/route.ts *)

Module ConversationsList.

Local Open Scope gen_scope.

(** [ORDER BY last_message_at DESC]: NULL sorts first in descending order. *)
Definition notBefore (a b : timestamp) : bool :=
  match a, b with
  | None, _ => true
  | Some _, None => false
  | Some x, Some y => y <=? x
  end.

Definition rowNotBefore (a b : Conversation * Participant) : bool :=
  notBefore (conv_lastMessageAt (fst a)) (conv_lastMessageAt (fst b)).

Fixpoint insertRow (r : Conversation * Participant)
    (sorted : list (Conversation * Participant))
    : list (Conversation * Participant) :=
  match sorted with
  | [] => [r]
  | r' :: rest =>
      if rowNotBefore r r' then r :: sorted else r' :: insertRow r rest
  end.

Definition orderByLastMessageAtDesc (rows : list (Conversation * Participant))
    : list (Conversation * Participant) :=
  fold_right insertRow [] rows.

(** [participants INNER JOIN conversations ON conversationId = id
     WHERE participants.did = identity] *)
Definition joinedRows (identity : string) (db : DB)
    : list (Conversation * Participant) :=
  flat_map
    (fun p =>
       if String.eqb (part_did p) identity
       then map (fun c => (c, p))
              (filter (fun c => String.eqb (part_conversationId p) (conv_id c))
                      (conversations db))
       else [])
    (participants db).

Definition summary (row : Conversation * Participant) : ConversationSummary :=
  mkSummary (fst row) (part_role (snd row)) (part_muted (snd row))
            (part_lastReadAt (snd row)).

(** GET /api/conversations *)
Definition GET (identity : string) : DB -> DB * Reply :=
  Gen.tryCatch (errorReply "Failed to list conversations" 500) (
    userConversations <-
      Gen.query (fun db => orderByLastMessageAtDesc (joinedRows identity db)) ;;
    Gen.ret (jsonReply (ConversationsAnswer (map summary userConversations)) 200)).

End ConversationsList.

(* ------------------------------------------------------------------ *)
(** *** GET and DELETE of src/app/api/conversations/[id]/route.ts *)

Module ConversationDetail.

Local Open Scope gen_scope.

(** [DELETE FROM conversations WHERE id = ...]: the foreign keys of
    participants, messages and invites are declared ON DELETE CASCADE (so is
    the one of read_receipts, a table that no handler reads or writes). *)
Definition deleteConversation (id : string) (db : DB) : DB :=
  mkDB (filter (fun c => negb (String.eqb (conv_id c) id)) (conversations db))
       (filter (fun p => negb (String.eqb (part_conversationId p) id))
               (participants db))
       (filter (fun m => negb (String.eqb (msg_conversationId m) id))
               (messages db))
       (filter (fun i => negb (String.eqb (inv_conversationId i) id))
               (invites db)).

(** GET /api/conversations/:id *)
Definition GET (identity conversationId : string) : DB -> DB * Reply :=
  Gen.tryCatch (errorReply "Failed to get conversation" 500) (
    found <- Gen.query (findParticipant conversationId identity) ;;
    match found with
    | None =>
        Gen.leave (errorReply "Conversation not found or access denied" 404)
    | Some participant =>
        found' <- Gen.query (findConversation conversationId) ;;
        match found' with
        | None => Gen.leave (errorReply "Conversation not found" 404)
        | Some conversation =>
            allParticipants <- Gen.query (participantsOf conversationId) ;;
            Gen.ret (jsonReply
                       (DetailAnswer conversation allParticipants
                          (part_role participant))
                       200)
        end
    end).

(** DELETE /api/conversations/:id *)
Definition DELETE (identity conversationId : string) : DB -> DB * Reply :=
  Gen.tryCatch (errorReply "Failed to delete conversation" 500) (
    found <- Gen.query (findParticipant conversationId identity) ;;
    match found with
    | None =>
        Gen.leave (errorReply "Only the owner can delete a conversation" 403)
    | Some participant =>
        Gen.leaveIf (negb (String.eqb (part_role participant) "owner"))
          (errorReply "Only the owner can delete a conversation" 403) ;;
        Gen.update (deleteConversation conversationId) ;;
        Gen.ret (jsonReply (DeletedAnswer true) 200)
    end).

End ConversationDetail.

(* ------------------------------------------------------------------ *)
(** *** GET of src/app/api/invites/route.ts *)

Module InvitesList.

Local Open Scope gen_scope.

(** GET /api/invites?conversationId=... *)
Definition GET (identity : string) (conversationIdParam : option string)
    : DB -> DB * Reply :=
  fun db =>
    if negb (Js.truthyOpt conversationIdParam)
    then (db, errorReply "conversationId is required" 400)
    else
      let conversationId := orDefault conversationIdParam EmptyString in
      Gen.tryCatch (errorReply "Failed to list invites" 500) (
        found <- Gen.query (findParticipant conversationId identity) ;;
        match found with
        | None => Gen.leave (errorReply "Permission denied" 403)
        | Some participant =>
            Gen.leaveIf (negb (Utils.hasRole (part_role participant) "admin"))
              (errorReply "Permission denied" 403) ;;
            inviteList <-
              Gen.query (fun db =>
                filter (fun i =>
                          String.eqb (inv_conversationId i) conversationId
                          && negb (isSome (inv_revokedAt i)))
                       (invites db)) ;;
            Gen.ret (jsonReply (InvitesAnswer inviteList) 200)
        end) db.

End InvitesList.

(* ------------------------------------------------------------------ *)
(** *** DELETE of src/app/api/invites/[id]/route.ts *)

Module InviteRevoke.

Local Open Scope gen_scope.

Definition setRevokedAt (now : Z) (i : Invite) : Invite :=
  mkInvite (inv_id i) (inv_conversationId i) (inv_createdBy i) (inv_forDid i)
           (inv_maxUses i) (inv_usedCount i) (inv_expiresAt i) (inv_createdAt i)
           (Some now).

(** DELETE /api/invites/:id *)
Definition DELETE (identity inviteId : string) (now : Z) : DB -> DB * Reply :=
  Gen.tryCatch (errorReply "Failed to revoke invite" 500) (
    found <- Gen.query (findInvite inviteId) ;;
    match found with
    | None => Gen.leave (errorReply "Invite not found" 404)
    | Some invite =>
        (if negb (String.eqb (inv_createdBy invite) identity)
         then
           found' <- Gen.query (findParticipant (inv_conversationId invite)
                                                identity) ;;
           match found' with
           | None => Gen.leave (errorReply "Permission denied" 403)
           | Some participant =>
               Gen.leaveIf
                 (negb (Utils.hasRole (part_role participant) "admin"))
                 (errorReply "Permission denied" 403)
           end
         else Gen.ret tt) ;;
        Gen.update (updateInvite inviteId (setRevokedAt now)) ;;
        Gen.ret (jsonReply (RevokedAnswer true) 200)
    end).

End InviteRevoke.

(* ------------------------------------------------------------------ *)
(** *** The key directory: tables [public_keys] and [pre_keys] *)

Module Keys.

Record PublicKey : Type := mkPublicKey {
  key_did : string;
  key_identityKey : string;
  key_signedPreKey : string;
  key_signature : string;
  key_updatedAt : timestamp
}.

(** [used] is a nullable boolean with default false. *)
Record PreKey : Type := mkPreKey {
  pre_id : string;
  pre_did : string;
  pre_key : string;
  pre_used : option bool;
  pre_createdAt : timestamp
}.

Record Store : Type := mkStore {
  publicKeys : list PublicKey;
  preKeys : list PreKey
}.

Definition emptyStore : Store := mkStore [] [].

Definition findBundle (did : string) (s : Store) : option PublicKey :=
  find (fun b => String.eqb (key_did b) did) (publicKeys s).

Definition findPreKey (did : string) (s : Store) : option PreKey :=
  find (fun k => String.eqb (pre_did k) did) (preKeys s).

Definition preKeysOf (did : string) (s : Store) : list PreKey :=
  filter (fun k => String.eqb (pre_did k) did) (preKeys s).

(** [k.used] as a condition. *)
Definition isUsed (k : PreKey) : bool :=
  match pre_used k with
  | Some b => b
  | None => false
  end.

Definition insertBundle (b : PublicKey) (s : Store) : option Store :=
  if isSome (findBundle (key_did b) s) then None
  else Some (mkStore (publicKeys s ++ [b]) (preKeys s)).

Definition updateBundle (did : string) (f : PublicKey -> PublicKey) (s : Store)
    : Store :=
  mkStore (map (fun b => if String.eqb (key_did b) did then f b else b)
               (publicKeys s))
          (preKeys s).

(** The primary key [id] and the foreign key [did] of [pre_keys]. *)
Definition insertPreKey (k : PreKey) (s : Store) : option Store :=
  if existsb (fun k' => String.eqb (pre_id k') (pre_id k)) (preKeys s) then None
  else if isSome (findBundle (pre_did k) s)
  then Some (mkStore (publicKeys s) (preKeys s ++ [k]))
  else None.

Definition setUsed (k : PreKey) : PreKey :=
  mkPreKey (pre_id k) (pre_did k) (pre_key k) (Some true) (pre_createdAt k).

Definition markUsed (id : string) (s : Store) : Store :=
  mkStore (publicKeys s)
          (map (fun k => if String.eqb (pre_id k) id then setUsed k else k)
               (preKeys s)).

(** The number of pre-keys of an identity that are not marked used. *)
Definition unusedCount (did : string) (s : Store) : Z :=
  Z.of_nat (List.length (filter (fun k => negb (isUsed k)) (preKeysOf did s))).

End Keys.

(* ------------------------------------------------------------------ *)
(** *** src/app/api/keys/route.ts *)

Module KeysRoute.

Import Keys.

Local Open Scope gen_scope.

(** The body of POST:
    [{ identityKey, signedPreKey, signature, oneTimePreKeys }]. *)
Record UploadBody : Type := mkUploadBody {
  up_identityKey : option string;
  up_signedPreKey : option string;
  up_signature : option string;
  up_oneTimePreKeys : option (list string)
}.

Definition replaceBundle (identityKey signedPreKey signature : string)
    (now : Z) (b : PublicKey) : PublicKey :=
  mkPublicKey (key_did b) identityKey signedPreKey signature (Some now).

(** The keys of the loop, each with the rank of its [generateId] draw. *)
Definition numbered (keys : list string) : list (nat * string) :=
  combine (seq 0 (List.length keys)) keys.

(** POST /api/keys.  [rnd i] is the random suffix of the i-th generated id. *)
Definition POST (identity : string) (body : UploadBody) (rnd : nat -> string)
    (now : Z) : Store -> Store * Reply :=
  Gen.tryCatch (errorReply "Failed to upload keys" 500) (
    Gen.leaveIf (negb (Js.truthyOpt (up_identityKey body))
                 || negb (Js.truthyOpt (up_signedPreKey body))
                 || negb (Js.truthyOpt (up_signature body)))
      (errorReply "identityKey, signedPreKey, and signature are required" 400) ;;
    let identityKey := orDefault (up_identityKey body) EmptyString in
    let signedPreKey := orDefault (up_signedPreKey body) EmptyString in
    let signature := orDefault (up_signature body) EmptyString in
    existing <- Gen.query (findBundle identity) ;;
    (if isSome existing
     then Gen.update (updateBundle identity
                        (replaceBundle identityKey signedPreKey signature now))
     else Gen.insert (insertBundle
                        (mkPublicKey identity identityKey signedPreKey
                           signature (Some now)))) ;;
    match up_oneTimePreKeys body with
    | Some oneTimePreKeys =>
        Gen.forEach (numbered oneTimePreKeys)
          (fun draw =>
             Gen.insert (insertPreKey
                           (mkPreKey (Utils.generateId "pk" (rnd (fst draw)))
                              identity (snd draw) (Some false) (Some now)))) ;;
        Gen.ret (jsonReply
                   (UploadedAnswer true (Z.of_nat (List.length oneTimePreKeys)))
                   200)
    | None => Gen.ret (jsonReply (UploadedAnswer true 0) 200)
    end).

(** GET /api/keys *)
Definition GET (identity : string) : Store -> Store * Reply :=
  Gen.tryCatch (errorReply "Failed to get keys" 500) (
    found <- Gen.query (findBundle identity) ;;
    match found with
    | None => Gen.leave (errorReply "No keys uploaded" 404)
    | Some keyBundle =>
        unusedCount <- Gen.query (unusedCount identity) ;;
        Gen.ret (jsonReply
                   (OwnKeysAnswer (key_did keyBundle) (key_identityKey keyBundle)
                      (key_signedPreKey keyBundle) (key_signature keyBundle)
                      (key_updatedAt keyBundle) unusedCount)
                   200)
    end).

End KeysRoute.

(* ------------------------------------------------------------------ *)
(** *** src/app/api/keys/[did]/route.ts *)

Module KeyRoute.

Import Keys.

Local Open Scope gen_scope.

(** GET /api/keys/:did *)
Definition GET (did : string) : Store -> Store * Reply :=
  fun s =>
    if negb (Utils.isValidDid did)
    then (s, errorReply "Invalid DID format" 400)
    else
      Gen.tryCatch (errorReply "Failed to get keys" 500) (
        found <- Gen.query (findBundle did) ;;
        match found with
        | None => Gen.leave (errorReply "No keys found for this DID" 404)
        | Some keyBundle =>
            oneTimeKey <- Gen.query (findPreKey did) ;;
            match oneTimeKey with
            | Some k =>
                if negb (isUsed k) then Gen.update (markUsed (pre_id k))
                else Gen.ret tt
            | None => Gen.ret tt
            end ;;
            Gen.ret (jsonReply
                       (KeysAnswer (key_did keyBundle)
                          (key_identityKey keyBundle)
                          (key_signedPreKey keyBundle) (key_signature keyBundle)
                          (Js.orNull (option_map pre_key oneTimeKey)))
                       200)
        end) s.

End KeyRoute.

(* ------------------------------------------------------------------ *)
(** *** src/lib/crypto.ts: keys as hex strings *)

Module Crypto.

Local Open Scope N_scope.

(** A digit of [Buffer.prototype.toString('hex')]: lower case. *)
Definition hexDigit (n : N) : ascii :=
  if n <? 10 then ascii_of_N (48 + n) else ascii_of_N (87 + n).

Definition byteToHex (b : Byte.byte) : string :=
  let n := Byte.to_N b in
  String (hexDigit (n / 16)) (String (hexDigit (n mod 16)) EmptyString).

(** [Buffer.from(key).toString('hex')] *)
Definition keyToHex (key : list Byte.byte) : string :=
  fold_right (fun b rest => (byteToHex b ++ rest)%string) EmptyString key.

(** The value of a hex digit of either case. *)
Definition unhex (c : ascii) : option N :=
  let n := N_of_ascii c in
  if (48 <=? n) && (n <=? 57) then Some (n - 48)
  else if (97 <=? n) && (n <=? 102) then Some (n - 87)
  else if (65 <=? n) && (n <=? 70) then Some (n - 55)
  else None.

(** [new Uint8Array(Buffer.from(hex, 'hex'))]: pairs of digits are decoded
    up to the first pair that is incomplete or holds another character. *)
Fixpoint hexToKey (hex : string) : list Byte.byte :=
  match hex with
  | String a (String b rest) =>
      match unhex a, unhex b with
      | Some x, Some y =>
          match Byte.of_N (16 * x + y) with
          | Some byte => byte :: hexToKey rest
          | None => []
          end
      | _, _ => []
      end
  | _ => []
  end.

(** A string of pairs of lower-case hex digits, as [keyToHex] writes them. *)
Definition isLowerHex (c : ascii) : bool :=
  let n := N_of_ascii c in
  (48 <=? n) && (n <=? 57) || (97 <=? n) && (n <=? 102).

Fixpoint lowerHexPairs (s : string) : bool :=
  match s with
  | EmptyString => true
  | String a (String b rest) =>
      (isLowerHex a && isLowerHex b && lowerHexPairs rest)%bool
  | String _ EmptyString => false
  end.

(** [generateId(prefix)] on the twelve random bytes it draws. *)
Definition generateIdFrom (prefix : string) (random : list Byte.byte) : string :=
  Utils.generateId prefix (keyToHex random).

End Crypto.

(* ------------------------------------------------------------------ *)
(** *** src/app/conversations/page.tsx: the age of the last message *)

Module ConversationsPage.

(** [formatTime(date)] at the time [now]; [toLocaleDateString] renders the
    dates that are a week old or more. *)
Definition formatTime (toLocaleDateString : Z -> string) (now date : Z)
    : string :=
  let diffMs := now - date in
  let diffMins := diffMs / 60000 in
  let diffHours := diffMs / 3600000 in
  let diffDays := diffMs / 86400000 in
  if diffMins <? 1 then "now"
  else if diffMins <? 60 then Js.toString (Js.Num diffMins) ++ "m"
  else if diffHours <? 24 then Js.toString (Js.Num diffHours) ++ "h"
  else if diffDays <? 7 then Js.toString (Js.Num diffDays) ++ "d"
  else toLocaleDateString date.

End ConversationsPage.

(* ------------------------------------------------------------------ *)
(** *** Vocabulary for the remaining handlers *)

(** The numbers that a double holds exactly: NaN and the integers up to
    [Number.MAX_SAFE_INTEGER] in absolute value. *)
Definition maxSafeInteger : Z := 9007199254740991.

Definition isSafe (n : Js.number) : Prop :=
  match n with
  | Js.NaN => True
  | Js.Num z => Z.abs z <= maxSafeInteger
  end.


(** The identities of [participantDids] for which the creation of a
    conversation inserts a member row: all but the requester. *)
Definition otherDids (identity : string) (dids : list string) : list string :=
  filter (fun did => negb (String.eqb did identity)) dids.

(** The pre-key rows that an upload inserts. *)
Definition uploadedPreKeys (identity : string) (rnd : nat -> string) (now : Z)
    (keys : list string) : list Keys.PreKey :=
  map (fun draw =>
         Keys.mkPreKey (Utils.generateId "pk" (rnd (fst draw))) identity
                       (snd draw) (Some false) (Some now))
      (KeysRoute.numbered keys).

(** Running a handler of the remaining ones. *)
Ltac gstep :=
  cbn [negb orb andb];
  cbv beta iota zeta delta
    [Gen.tryCatch Gen.bind Gen.query Gen.leave Gen.leaveIf Gen.ret Gen.update
     Gen.insert].

(** The constraints of the schema, as propositions. *)
Definition WF (db : DB) : Prop :=
  NoDup (map conv_id (conversations db))
  /\ noDupKey (participants db) = true
  /\ NoDup (map msg_id (messages db))
  /\ NoDup (map inv_id (invites db))
  /\ (forall p, In p (participants db) ->
                In (part_conversationId p) (map conv_id (conversations db)))
  /\ (forall m, In m (messages db) ->
                In (msg_conversationId m) (map conv_id (conversations db)))
  /\ (forall i, In i (invites db) ->
                In (inv_conversationId i) (map conv_id (conversations db))).

(** Running a handler: unfold the monad on the current goal. *)
Ltac step :=
  cbn [negb orb andb];
  cbv beta iota zeta delta
    [tryCatch bind query leave leaveIf ret update insert].

(** Splitting a conjunction of cases into its cases. *)
Ltac conj_split :=
  repeat match goal with
         | |- _ /\ _ => split
         | |- _ <-> _ => split
         end.


(** The validation steps of a request for a direct conversation. *)
Ltac enter_direct Htype Hdids Hvalid :=
  unfold ConversationsRoute.POST; step; rewrite Htype; step;
  change (negb (Js.truthyStr "direct")
          || negb (Js.includes ["direct"; "group"] "direct")) with false;
  step; rewrite Hdids; step;
  cbn [List.length Nat.eqb forEach fold_right]; step;
  rewrite Hvalid; step;
  change (String.eqb "direct" "direct") with true;
  change (String.eqb "direct" "group") with false;
  step.

(* ================================================================== *)
(** * Properties *)

(** ** The helpers on concrete inputs *)

Example parseInt_examples :
  Js.parseInt "42" = Js.Num 42 /\ Js.parseInt "  -7px" = Js.Num (-7) /\
  Js.parseInt "0x1F" = Js.Num 31 /\ Js.parseInt "abc" = Js.NaN /\
  Js.parseInt EmptyString = Js.NaN /\ Js.toString (Js.Num 120) = "120" /\
  Js.toString (Js.Num (-3)) = "-3".
Proof. repeat split; reflexivity. Qed.

Example isValidDid_examples :
  Utils.isValidDid "did:imajin:alice" = true /\
  Utils.isValidDid "did:imajin:" = false /\
  Utils.isValidDid "did:imajin:a-b" = false /\
  Utils.isValidDid "xdid:imajin:a" = false.
Proof. repeat split; reflexivity. Qed.

(** ** The role hierarchy *)

Section RoleHierarchy.

Import Utils.

Lemma indexOf_hierarchy_cases (r : string) :
  (r = "readonly" /\ Js.indexOf hierarchy r = 0)
  \/ (r = "member" /\ Js.indexOf hierarchy r = 1)
  \/ (r = "admin" /\ Js.indexOf hierarchy r = 2)
  \/ (r = "owner" /\ Js.indexOf hierarchy r = 3)
  \/ (~ In r hierarchy /\ Js.indexOf hierarchy r = -1).
Proof.
  unfold Js.indexOf, hierarchy; cbn [Js.indexOfFrom].
  destruct (String.eqb_spec "readonly" r) as [<- | Hr]; [now left |].
  destruct (String.eqb_spec "member" r) as [<- | Hm]; [now right; left |].
  destruct (String.eqb_spec "admin" r) as [<- | Ha]; [now right; right; left |].
  destruct (String.eqb_spec "owner" r) as [<- | Ho];
    [now right; right; right; left |].
  right; right; right; right; split; [| reflexivity].
  intros [H | [H | [H | [H | []]]]]; congruence.
Qed.

Lemma indexOf_hierarchy_range (r : string) :
  -1 <= Js.indexOf hierarchy r <= 3.
Proof.
  destruct (indexOf_hierarchy_cases r)
    as [[_ H] | [[_ H] | [[_ H] | [[_ H] | [_ H]]]]]; rewrite H; lia.
Qed.

Lemma hasRole_spec (u x : string) :
  hasRole u x = true <-> Js.indexOf hierarchy x <= Js.indexOf hierarchy u.
Proof.
  unfold hasRole; cbv zeta. rewrite Z.geb_le. reflexivity.
Qed.

Lemma hasRole_owner_any (x : string) : hasRole "owner" x = true.
Proof.
  apply hasRole_spec. pose proof (indexOf_hierarchy_range x).
  change (Js.indexOf hierarchy "owner") with 3. lia.
Qed.

(** C10: a role string outside the hierarchy has rank -1; every user role
    passes a check against such a required role, and such a user role fails
    the check against [readonly], the lowest rank. *)
Theorem hasRole_unranked (u x : string) :
  ~ In x hierarchy ->
  Js.indexOf hierarchy x = -1
  /\ hasRole u x = true
  /\ hasRole x "readonly" = false.
Proof.
  intros Hx.
  assert (Hrank : Js.indexOf hierarchy x = -1).
  { destruct (indexOf_hierarchy_cases x)
      as [[E _] | [[E _] | [[E _] | [[E _] | [_ H]]]]]; try exact H;
      exfalso; apply Hx; subst x; simpl; tauto. }
  split; [exact Hrank |]. split.
  - apply hasRole_spec. rewrite Hrank.
    pose proof (indexOf_hierarchy_range u). lia.
  - unfold hasRole; cbv zeta. rewrite Hrank. reflexivity.
Qed.

Lemma hasRole_unranked_witness :
  ~ In "superuser" hierarchy
  /\ Js.indexOf hierarchy "superuser" = -1
  /\ hasRole "readonly" "superuser" = true
  /\ hasRole "superuser" "readonly" = false.
Proof.
  assert (H : ~ In "superuser" hierarchy).
  { simpl. intros [E | [E | [E | [E | []]]]]; discriminate E. }
  split; [exact H | exact (hasRole_unranked "readonly" "superuser" H)].
Defined.

End RoleHierarchy.

(** ** Facts about the tables *)

Lemma wellFormed_participant_conversation (db : DB) (cid did : string)
    (p : Participant) :
  wellFormed db = true ->
  findParticipant cid did db = Some p ->
  hasConversation db cid = true.
Proof.
  unfold wellFormed. intros Hwf Hp.
  repeat (apply andb_prop in Hwf; destruct Hwf as [Hwf ?]).
  apply find_some in Hp. destruct Hp as [Hin Hkey].
  unfold isParticipant in Hkey. apply andb_prop in Hkey.
  destruct Hkey as [Hc _]. apply String.eqb_eq in Hc. subst cid.
  match goal with
  | H : forallb _ (participants db) = true |- _ =>
      rewrite forallb_forall in H; exact (H p Hin)
  end.
Qed.

Lemma isValidDid_truthy (did : string) :
  Utils.isValidDid did = true -> Js.truthyStr did = true.
Proof. destruct did; [discriminate | reflexivity]. Qed.

Lemma findParticipant_delete (cid did : string) (db : DB) :
  findParticipant cid did (deleteParticipant cid did db) = None.
Proof.
  unfold findParticipant, deleteParticipant; cbn [participants].
  induction (participants db) as [| p ps IH]; [reflexivity |].
  cbn [filter]. destruct (isParticipant cid did p) eqn:E; cbn [negb].
  - exact IH.
  - cbn [find]. rewrite E. exact IH.
Qed.

Lemma insertMessage_fresh (m : Message) (db : DB) :
  findMessage (msg_id m) db = None ->
  hasConversation db (msg_conversationId m) = true ->
  insertMessage m db
  = Some (mkDB (conversations db) (participants db) (messages db ++ [m])
               (invites db)).
Proof.
  unfold insertMessage, hasConversation. intros -> ->. reflexivity.
Qed.

(** ** Removing a participant *)

Section Removal.

Import Utils.
Import ParticipantsRoute.

Lemma findParticipant_delete_other (cid did k d : string) (db : DB) :
  k <> cid \/ d <> did ->
  findParticipant k d (deleteParticipant cid did db) = findParticipant k d db.
Proof.
  intros Hother. unfold findParticipant, deleteParticipant.
  cbn [participants].
  induction (participants db) as [| p ps IH]; [reflexivity |].
  cbn [filter]. destruct (isParticipant cid did p) eqn:E; cbn [negb find].
  - destruct (isParticipant k d p) eqn:E'; [| exact IH].
    exfalso. unfold isParticipant in E, E'.
    apply andb_prop in E. destruct E as [E1 E2].
    apply andb_prop in E'. destruct E' as [E3 E4].
    apply String.eqb_eq in E1, E2, E3, E4.
    destruct Hother as [H | H]; apply H; congruence.
  - destruct (isParticipant k d p); [reflexivity | exact IH].
Qed.

(** C9 (as amended): a request by a participant that names a participant of
    the same conversation.  When the did named is well formed, a participant
    who removes themself succeeds unless they are the owner, and a
    participant who removes another one succeeds exactly when their rank is
    at least the rank of [admin] and strictly above the rank of the target.
    A removal deletes the row of the target only and appends one system
    message.  Every refusal leaves the database as it was: 400 for the owner
    who leaves, 403 for a requester below [admin], 400 for a target of equal
    or higher rank, and 400 for a did that is not well formed, whoever asks,
    the participant themself included. *)
Theorem remove_rules (identity cid did rnd : string) (now : Z) (db : DB)
    (my target : Participant) :
  wellFormed db = true ->
  findParticipant cid identity db = Some my ->
  findParticipant cid did db = Some target ->
  findMessage (generateId "msg" rnd) db = None ->
  (removedFrom cid did (DELETE identity cid (Some did) rnd now db)
   <-> isValidDid did = true
       /\ (did = identity /\ part_role my <> "owner"
           \/ did <> identity
              /\ rank "admin" <= rank (part_role my)
              /\ rank (part_role target) < rank (part_role my)))
  /\ (removedFrom cid did (DELETE identity cid (Some did) rnd now db) ->
      (forall k d,
         k <> cid \/ d <> did ->
         findParticipant k d (fst (DELETE identity cid (Some did) rnd now db))
         = findParticipant k d db)
      /\ conversations (fst (DELETE identity cid (Some did) rnd now db))
         = conversations db
      /\ invites (fst (DELETE identity cid (Some did) rnd now db))
         = invites db
      /\ messages (fst (DELETE identity cid (Some did) rnd now db))
         = (messages db
            ++ [mkMessage (generateId "msg" rnd) cid identity
                  (Js.JObj
                     [("type", Js.JStr "system");
                      ("text",
                       Js.JStr (if String.eqb did identity
                                then identity ++ " left the group"
                                else identity ++ " removed " ++ did))])
                  "system" None (Some now) None None])%list)
  /\ (~ removedFrom cid did (DELETE identity cid (Some did) rnd now db) ->
      fst (DELETE identity cid (Some did) rnd now db) = db)
  /\ (isValidDid did = false ->
      DELETE identity cid (Some did) rnd now db
      = (db, errorResponse "Invalid or missing DID" 400))
  /\ (isValidDid did = true -> did = identity -> part_role my = "owner" ->
      DELETE identity cid (Some did) rnd now db
      = (db, errorResponse "Owner must transfer ownership before leaving" 400))
  /\ (isValidDid did = true -> did <> identity ->
      rank (part_role my) < rank "admin" ->
      DELETE identity cid (Some did) rnd now db
      = (db, errorResponse "Permission denied" 403))
  /\ (isValidDid did = true -> did <> identity ->
      rank "admin" <= rank (part_role my) ->
      rank (part_role my) <= rank (part_role target) ->
      DELETE identity cid (Some did) rnd now db
      = (db, errorResponse
               "Cannot remove participant with equal or higher role" 400)).
Proof.
  intros Hwf Hmy Htarget Hfresh.
  pose proof (wellFormed_participant_conversation _ _ _ _ Hwf Hmy) as Hconv.
  assert (Hadmin : hasRole (part_role my) "admin" = true
                   <-> rank "admin" <= rank (part_role my))
    by (unfold rank; apply hasRole_spec).
  assert (Hpeer : hasRole (part_role target) (part_role my) = true
                  <-> rank (part_role my) <= rank (part_role target))
    by (unfold rank; apply hasRole_spec).
  unfold DELETE, removedFrom. step.
  destruct (isValidDid did) eqn:Hvalid.
  2: { rewrite orb_true_r. cbn [fst snd]. conj_split;
         try (intros; first [reflexivity | discriminate]).
       - intros [E _]. discriminate E.
       - intros [E _]. discriminate E.
       - intros [E _]. discriminate E. }
  rewrite (isValidDid_truthy _ Hvalid). step. rewrite Hmy. step.
  destruct (String.eqb_spec did identity) as [Hself | Hother];
    cbn [negb andb].
  - subst did. step.
    destruct (String.eqb_spec (part_role my) "owner") as [Howner | Hrole];
      step.
    + cbn [fst snd]. conj_split;
        try (intros; first [reflexivity | discriminate | congruence]).
      * intros [E _]. discriminate E.
      * intros [_ [[_ E] | [E _]]]; congruence.
      * intros [E _]. discriminate E.
    + rewrite Htarget. step.
      rewrite insertMessage_fresh by assumption. cbn [fst snd].
      pose proof (findParticipant_delete cid identity db) as Hgone.
      conj_split;
        try (intros; first [reflexivity | discriminate | congruence]).
      * intros _. split; [reflexivity |]. left. split; [reflexivity |].
        assumption.
      * intros _. split; [reflexivity | exact Hgone].
      * intros _. conj_split; try reflexivity.
        intros k d Hkd.
        apply (findParticipant_delete_other cid identity k d db Hkd).
      * intros E. exfalso. apply E. split; [reflexivity | assumption].
  - destruct (hasRole (part_role my) "admin") eqn:Ha; cbn [negb]; step.
    + assert (Hge : rank "admin" <= rank (part_role my))
        by (now apply Hadmin).
      rewrite Htarget. step.
      destruct (hasRole (part_role target) (part_role my)) eqn:Hp; step.
      * assert (Hle : rank (part_role my) <= rank (part_role target))
          by (now apply Hpeer).
        cbn [fst snd]. conj_split;
          try (intros;
               first [reflexivity | discriminate | congruence | lia]).
        -- intros [E _]. discriminate E.
        -- intros [_ [[E _] | [_ [_ E]]]]; [congruence | lia].
        -- intros [E _]. discriminate E.
      * assert (Hlt : rank (part_role target) < rank (part_role my)).
        { destruct (Z.le_gt_cases (rank (part_role my))
                      (rank (part_role target))) as [E | E]; [| lia].
          apply Hpeer in E. congruence. }
        rewrite insertMessage_fresh by assumption. cbn [fst snd].
        pose proof (findParticipant_delete cid did db) as Hgone.
        conj_split;
          try (intros;
               first [reflexivity | discriminate | congruence | lia]).
        -- intros _. split; [reflexivity |]. right. repeat split; assumption.
        -- intros _. split; [reflexivity | exact Hgone].
        -- intros _. conj_split; try reflexivity.
           intros k d Hkd.
           apply (findParticipant_delete_other cid did k d db Hkd).
        -- intros E. exfalso. apply E. split; [reflexivity | assumption].
    + assert (Hlow : rank (part_role my) < rank "admin").
      { destruct (Z.le_gt_cases (rank "admin") (rank (part_role my)))
          as [E | E]; [| lia].
        apply Hadmin in E. congruence. }
      cbn [fst snd]. conj_split;
        try (intros;
             first [reflexivity | discriminate | congruence | lia]).
      * intros [E _]. discriminate E.
      * intros [_ [[E _] | [_ [E _]]]]; [congruence | lia].
      * intros [E _]. discriminate E.
Qed.

End Removal.

(** ** The single owner *)

Section SingleOwner.

Import Utils.
Import ParticipantsRoute.

Example launch_well_formed :
  wellFormed Sample.launch = true
  /\ memberDids Sample.launchId Sample.launch
     = [Sample.owner; Sample.alice; Sample.bob]
  /\ ownerCount Sample.launchId Sample.launch = 1%nat.
Proof. repeat split; vm_compute; reflexivity. Qed.

(** C1 (fails on the code): the owner of a conversation with one owner adds a
    new participant with the role [owner]; the request is accepted (201) and
    the conversation then has two owners. *)
Theorem add_creates_second_owner :
  ownerCount Sample.launchId Sample.launch = 1%nat
  /\ status (snd (POST Sample.owner Sample.launchId
                       (mkAddBody Sample.carol (Some "owner")) "m1" 2000
                       Sample.launch)) = 201
  /\ ownerCount Sample.launchId
       (fst (POST Sample.owner Sample.launchId
                  (mkAddBody Sample.carol (Some "owner")) "m1" 2000
                  Sample.launch)) = 2%nat.
Proof. repeat split; vm_compute; reflexivity. Qed.

End SingleOwner.

(** ** Removal on the sample group *)

Lemma remove_rules_witness :
  removedFrom Sample.launchId Sample.bob
    (ParticipantsRoute.DELETE Sample.owner Sample.launchId (Some Sample.bob)
       "m2" 3000 Sample.launch)
  <-> Utils.isValidDid Sample.bob = true
      /\ (Sample.bob = Sample.owner /\ "owner" <> "owner"
          \/ Sample.bob <> Sample.owner
             /\ rank "admin" <= rank "owner"
             /\ rank "member" < rank "owner").
Proof.
  refine (proj1 (remove_rules Sample.owner Sample.launchId Sample.bob "m2" 3000
                   Sample.launch
                   (newParticipant Sample.launchId Sample.owner "owner" None 1000)
                   (newParticipant Sample.launchId Sample.bob "member"
                      (Some Sample.owner) 1000)
                   _ _ _ _)).
  - vm_compute; reflexivity.
  - vm_compute; reflexivity.
  - vm_compute; reflexivity.
  - vm_compute; reflexivity.
Defined.

(** C9 (as stated, refuted): zed, whose id is a DID of another method, joined
    the group through an invite and is a member of it.  The removal handler
    refuses every did that is not of the form [did:imajin:...]: zed cannot
    leave, and the owner cannot remove zed. *)
Lemma remove_rules_counterexample :
  option_map part_role
    (findParticipant Sample.launchId Sample.zed Sample.launchJoined)
  = Some "member"
  /\ option_map part_role
       (findParticipant Sample.launchId Sample.owner Sample.launchJoined)
     = Some "owner"
  /\ ParticipantsRoute.DELETE Sample.zed Sample.launchId (Some Sample.zed)
       "m8" 3000 Sample.launchJoined
     = (Sample.launchJoined, errorResponse "Invalid or missing DID" 400)
  /\ ParticipantsRoute.DELETE Sample.owner Sample.launchId (Some Sample.zed)
       "m8" 3000 Sample.launchJoined
     = (Sample.launchJoined, errorResponse "Invalid or missing DID" 400).
Proof. repeat split; vm_compute; reflexivity. Qed.

Example member_cannot_remove_peer :
  ParticipantsRoute.DELETE Sample.alice Sample.launchId (Some Sample.bob)
    "m2" 3000 Sample.launch
  = (Sample.launch, errorResponse "Permission denied" 403).
Proof. vm_compute; reflexivity. Qed.

(** ** Sending a message *)

Section Send.

Import Utils.
Import MessagesRoute.

Lemma findMessage_app_fresh (m : Message) (ms : list Message) :
  find (fun m' => String.eqb (msg_id m') (msg_id m)) ms = None ->
  find (fun m' => String.eqb (msg_id m') (msg_id m)) (ms ++ [m])%list = Some m.
Proof.
  induction ms as [| m0 ms IH]; cbn [find app].
  - rewrite String.eqb_refl. reflexivity.
  - destruct (String.eqb (msg_id m0) (msg_id m)); [discriminate | exact IH].
Qed.

(** C2 (as amended): a message sent through POST .../messages carries the
    content the caller supplied, and its contentType is [system] exactly when
    the [type] field of that content is the string [system], [text]
    otherwise: the tag is read from the caller's content. *)
Theorem send_contentType (identity cid rnd : string) (content : Js.Json)
    (replyTo : option string) (now : Z) (db : DB) (p : Participant) :
  wellFormed db = true ->
  findParticipant cid identity db = Some p ->
  part_role p <> "readonly" ->
  Js.truthy content = true ->
  Js.typeofObject content = true ->
  (Js.truthyOpt replyTo = true ->
   isSome (findMessageIn (orDefault replyTo EmptyString) cid db) = true) ->
  findMessage (generateId "msg" rnd) db = None ->
  exists m db',
    POST identity cid (mkSendBody (Some content) replyTo) rnd now db
    = (db', jsonResponse (MessageBody (Some m)) 201)
    /\ messages db' = (messages db ++ [m])%list
    /\ msg_fromDid m = identity
    /\ msg_content m = content
    /\ (Js.getProp content "type" = Some (Js.JStr "system") ->
        msg_contentType m = "system")
    /\ (Js.getProp content "type" <> Some (Js.JStr "system") ->
        msg_contentType m = "text").
Proof.
  intros Hwf Hp Hrole Htruthy Hobj Hreply Hfresh.
  pose proof (wellFormed_participant_conversation _ _ _ _ Hwf Hp) as Hconv.
  apply String.eqb_neq in Hrole.
  set (contentType :=
         if Js.strictEqStr (Js.getProp content "type") "system"
         then "system" else "text").
  set (m := newMessage (generateId "msg" rnd) cid identity content contentType
                       (Js.orNull replyTo) now).
  exists m. eexists.
  unfold POST. step. rewrite Hp. step. rewrite Hrole. step.
  cbn [send_content send_replyTo]. step. rewrite Htruthy, Hobj. step.
  fold contentType. fold m.
  destruct (Js.truthyOpt replyTo) eqn:Htr;
    [ specialize (Hreply eq_refl);
      destruct (findMessageIn (orDefault replyTo EmptyString) cid db);
      [cbn [isSome] | discriminate Hreply]
    | ];
    step;
    rewrite (insertMessage_fresh m db Hfresh Hconv); step;
    unfold findMessage, updateConversation;
    cbn [messages conversations participants invites];
    change (generateId "msg" rnd) with (msg_id m) in Hfresh |- *;
    unfold findMessage in Hfresh;
    rewrite (findMessage_app_fresh m (messages db) Hfresh).
  all: split; [reflexivity |]; cbn [messages]; split; [reflexivity |];
    split; [reflexivity |]; split; [reflexivity |];
    subst m contentType; cbn [msg_contentType newMessage];
    (split;
     [ intros ->; reflexivity
     | intros Hne;
       destruct (Js.getProp content "type") as [[| | | s | |] |];
       try reflexivity;
       cbn [Js.strictEqStr];
       destruct (String.eqb_spec s "system") as [-> | _];
       [exfalso; apply Hne; reflexivity | reflexivity] ]).
Qed.

Lemma send_contentType_witness :
  exists m db',
    POST Sample.alice Sample.launchId
      (mkSendBody (Some (Js.JObj [("encrypted", Js.JStr "x"); ("nonce", Js.JStr "n")]))
                  None) "m3" 4000 Sample.launch
    = (db', jsonResponse (MessageBody (Some m)) 201)
    /\ messages db' = (messages Sample.launch ++ [m])%list
    /\ msg_fromDid m = Sample.alice
    /\ msg_content m = Js.JObj [("encrypted", Js.JStr "x"); ("nonce", Js.JStr "n")]
    /\ (Js.getProp (Js.JObj [("encrypted", Js.JStr "x"); ("nonce", Js.JStr "n")])
                   "type" = Some (Js.JStr "system") ->
        msg_contentType m = "system")
    /\ (Js.getProp (Js.JObj [("encrypted", Js.JStr "x"); ("nonce", Js.JStr "n")])
                   "type" <> Some (Js.JStr "system") ->
        msg_contentType m = "text").
Proof.
  refine (send_contentType Sample.alice Sample.launchId "m3"
            (Js.JObj [("encrypted", Js.JStr "x"); ("nonce", Js.JStr "n")])
            None 4000 Sample.launch
            (newParticipant Sample.launchId Sample.alice "member"
               (Some Sample.owner) 1000) _ _ _ _ _ _ _).
  - vm_compute; reflexivity.
  - vm_compute; reflexivity.
  - vm_compute; discriminate.
  - reflexivity.
  - reflexivity.
  - cbn; discriminate.
  - vm_compute; reflexivity.
Defined.

(** C2 (as stated, refuted): a member sends a content object tagged
    [system]; the message is stored under the member's name with contentType
    [system]. *)
Lemma send_system_counterexample :
  exists m,
    snd (POST Sample.alice Sample.launchId
           (mkSendBody (Some (systemContent "forged notice")) None)
           "m3" 4000 Sample.launch)
    = jsonResponse (MessageBody (Some m)) 201
    /\ In m (messages
               (fst (POST Sample.alice Sample.launchId
                       (mkSendBody (Some (systemContent "forged notice")) None)
                       "m3" 4000 Sample.launch)))
    /\ msg_fromDid m = Sample.alice
    /\ msg_contentType m = "system".
Proof.
  eexists. split; [vm_compute; reflexivity |].
  split; [vm_compute; right; left; reflexivity |].
  split; reflexivity.
Qed.

End Send.

(** ** Invites: terminal states, redemption by a member, expiry *)

Section Invites.

Import Utils.
Import InviteRoute.

Lemma checkInvite_run (invite : Invite) (now : Z) (db : DB) :
  checkInvite invite now db
  = if revoked invite
    then (db, Returned (errorResponse "Invite has been revoked" 410))
    else if expired invite now
    then (db, Returned (errorResponse "Invite has expired" 410))
    else if exhausted invite
    then (db, Returned (errorResponse "Invite has reached maximum uses" 410))
    else (db, Value tt).
Proof.
  unfold checkInvite. step.
  destruct (revoked invite); [reflexivity |].
  destruct (expired invite now); [reflexivity |].
  destruct (exhausted invite); reflexivity.
Qed.

Lemma revoked_iff (invite : Invite) :
  revoked invite = true <-> inv_revokedAt invite <> None.
Proof.
  unfold revoked. destruct (inv_revokedAt invite); cbn [isSome]; split;
    congruence.
Qed.

Lemma expired_iff (invite : Invite) (now : Z) :
  expired invite now = true <-> hasExpired invite now.
Proof.
  unfold expired, hasExpired. destruct (inv_expiresAt invite) as [t |].
  - rewrite Z.ltb_lt. split.
    + intros H. exists t. auto.
    + intros [t' [E H]]. injection E as <-. exact H.
  - split; [discriminate | intros [t [E _]]; discriminate E].
Qed.

Lemma truthyStr_iff (s : string) :
  Js.truthyStr s = true <-> s <> EmptyString.
Proof.
  unfold Js.truthyStr. destruct (String.eqb_spec s EmptyString); cbn [negb];
    split; congruence.
Qed.

Lemma exhausted_iff (invite : Invite) :
  exhausted invite = true <-> isExhausted invite.
Proof.
  unfold exhausted, isExhausted. destruct (inv_maxUses invite) as [m |].
  - rewrite andb_true_iff, truthyStr_iff. split.
    + intros [Hm Hge].
      destruct (Js.parseInt (inv_usedCount invite)) as [| u] eqn:Eu;
        [discriminate Hge |].
      destruct (Js.parseInt m) as [| x] eqn:Ex; [discriminate Hge |].
      cbn [Js.ge] in Hge. rewrite Z.geb_le in Hge.
      exists m, u, x. auto.
    + intros [m' [u [x [E [Hm [Eu [Ex Hle]]]]]]]. injection E as <-.
      split; [exact Hm |]. rewrite Eu, Ex. cbn [Js.ge].
      rewrite Z.geb_le. exact Hle.
  - split; [discriminate |].
    intros [m [u [x [E _]]]]. discriminate E.
Qed.

Lemma validInvite_iff (invite : Invite) (now : Z) :
  validInvite invite now
  <-> revoked invite = false /\ expired invite now = false
      /\ exhausted invite = false.
Proof.
  unfold validInvite.
  rewrite <- expired_iff, <- exhausted_iff, !not_true_iff_false.
  assert (Hr : inv_revokedAt invite = None <-> revoked invite = false).
  { unfold revoked. destruct (inv_revokedAt invite); cbn [isSome]; split;
      congruence. }
  rewrite Hr. reflexivity.
Qed.

Lemma GET_not_gone_when_passed (inviteId : string) (now : Z) (db : DB)
    (invite : Invite) :
  findInvite inviteId db = Some invite ->
  revoked invite = false -> expired invite now = false ->
  exhausted invite = false ->
  ~ gone (snd (GET inviteId now db)).
Proof.
  intros Hf Hr He Hx. unfold GET, gone. step. rewrite Hf.
  rewrite checkInvite_run, Hr, He, Hx. step.
  destruct (findConversation (inv_conversationId invite) db);
    cbn [snd status errorResponse jsonResponse]; discriminate.
Qed.

Lemma POST_not_gone_when_passed (identity inviteId rnd : string) (now : Z)
    (db : DB) (invite : Invite) :
  findInvite inviteId db = Some invite ->
  revoked invite = false -> expired invite now = false ->
  exhausted invite = false ->
  ~ gone (snd (POST identity inviteId rnd now db)).
Proof.
  intros Hf Hr He Hx. unfold POST, gone. step. rewrite Hf.
  rewrite checkInvite_run, Hr, He, Hx. step.
  destruct (Js.truthyOpt (inv_forDid invite)
            && negb (String.eqb (orDefault (inv_forDid invite) EmptyString)
                                identity))%bool;
    [cbn [snd status errorResponse]; discriminate |].
  destruct (isSome (findParticipant (inv_conversationId invite) identity db));
    [cbn [snd status jsonResponse]; discriminate |].
  destruct (insertParticipant _ db) as [db1 |];
    [| cbn [snd status errorResponse]; discriminate].
  match goal with
  | |- context [insertMessage ?m ?d] => destruct (insertMessage m d)
  end; cbn [snd status errorResponse jsonResponse]; discriminate.
Qed.

Lemma invite_stopped (identity inviteId rnd : string) (now : Z) (db : DB)
    (invite : Invite) (message : string) :
  findInvite inviteId db = Some invite ->
  checkInvite invite now db = (db, Returned (errorResponse message 410)) ->
  GET inviteId now db = (db, errorResponse message 410)
  /\ POST identity inviteId rnd now db = (db, errorResponse message 410).
Proof.
  intros Hf Hc. unfold GET, POST. step. rewrite Hf, Hc. split; reflexivity.
Qed.

(** C3 (as amended): an unknown invite id is answered 404 by preview and by
    redeem.  For an invite that exists, neither answers 410 exactly when the
    invite is not revoked, its expiry (if any) is not strictly before the
    current time, and its uses (if limited) are not used up; otherwise both
    answer 410 without touching the database, naming the first failed check
    in the order revoked, expired, exhausted. *)
Theorem invite_terminal_states (identity inviteId rnd : string) (now : Z)
    (db : DB) :
  match findInvite inviteId db with
  | None =>
      GET inviteId now db = (db, errorResponse "Invite not found" 404)
      /\ POST identity inviteId rnd now db
         = (db, errorResponse "Invite not found" 404)
  | Some invite =>
      (~ gone (snd (GET inviteId now db)) <-> validInvite invite now)
      /\ (~ gone (snd (POST identity inviteId rnd now db))
          <-> validInvite invite now)
      /\ (inv_revokedAt invite <> None ->
          GET inviteId now db = (db, errorResponse "Invite has been revoked" 410)
          /\ POST identity inviteId rnd now db
             = (db, errorResponse "Invite has been revoked" 410))
      /\ (inv_revokedAt invite = None -> hasExpired invite now ->
          GET inviteId now db = (db, errorResponse "Invite has expired" 410)
          /\ POST identity inviteId rnd now db
             = (db, errorResponse "Invite has expired" 410))
      /\ (inv_revokedAt invite = None -> ~ hasExpired invite now ->
          isExhausted invite ->
          GET inviteId now db
          = (db, errorResponse "Invite has reached maximum uses" 410)
          /\ POST identity inviteId rnd now db
             = (db, errorResponse "Invite has reached maximum uses" 410))
  end.
Proof.
  destruct (findInvite inviteId db) as [invite |] eqn:Hf.
  - pose proof (checkInvite_run invite now db) as Hrun.
    pose proof (validInvite_iff invite now) as Hvalid.
    pose proof (revoked_iff invite) as Hr.
    pose proof (expired_iff invite now) as He.
    pose proof (exhausted_iff invite) as Hx.
    assert (Hgone : forall message,
               checkInvite invite now db
               = (db, Returned (errorResponse message 410)) ->
               gone (snd (GET inviteId now db))
               /\ gone (snd (POST identity inviteId rnd now db))).
    { intros message Hc.
      destruct (invite_stopped identity inviteId rnd now db invite message Hf Hc)
        as [-> ->]. split; reflexivity. }
    assert (Hiff :
              (~ gone (snd (GET inviteId now db)) <-> validInvite invite now)
              /\ (~ gone (snd (POST identity inviteId rnd now db))
                  <-> validInvite invite now)).
    { destruct (revoked invite) eqn:Er;
        [| destruct (expired invite now) eqn:Ee;
           [| destruct (exhausted invite) eqn:Ex]].
      4: { split; split; intros _; try (apply Hvalid; auto).
           - now apply (GET_not_gone_when_passed inviteId now db invite).
           - now apply (POST_not_gone_when_passed identity inviteId rnd now db
                          invite). }
      all: destruct (Hgone _ Hrun) as [Hg Hp];
        split; split; intros H; try contradiction;
        apply Hvalid in H; destruct H as [H1 [H2 H3]]; congruence. }
    destruct Hiff as [Hi1 Hi2].
    split; [exact Hi1 |]. split; [exact Hi2 |].
    split; [| split].
    + intros Hrev. apply Hr in Hrev. rewrite Hrev in Hrun.
      exact (invite_stopped identity inviteId rnd now db invite _ Hf Hrun).
    + intros Hrev Hexp. apply He in Hexp.
      assert (revoked invite = false) as Hnr
          by (unfold revoked; rewrite Hrev; reflexivity).
      rewrite Hnr, Hexp in Hrun.
      exact (invite_stopped identity inviteId rnd now db invite _ Hf Hrun).
    + intros Hrev Hexp Hexh. apply Hx in Hexh.
      assert (revoked invite = false) as Hnr
          by (unfold revoked; rewrite Hrev; reflexivity).
      assert (expired invite now = false) as Hne.
      { destruct (expired invite now) eqn:E; [| reflexivity].
        exfalso. apply Hexp. apply He. reflexivity. }
      rewrite Hnr, Hne, Hexh in Hrun.
      exact (invite_stopped identity inviteId rnd now db invite _ Hf Hrun).
  - unfold GET, POST. step. rewrite Hf. split; reflexivity.
Qed.

(** C3 (as stated, refuted): at the very instant of its expiry an invite is
    not valid in the words of the specification ([now < expiresAt] fails),
    yet preview and redeem both go through. *)
Lemma invite_boundary_counterexample :
  findInvite "inv_e" Sample.launchWithInvites = Some Sample.expiring
  /\ ~ validAsStated Sample.expiring 5000
  /\ status (snd (GET "inv_e" 5000 Sample.launchWithInvites)) = 200
  /\ snd (POST Sample.carol "inv_e" "m4" 5000 Sample.launchWithInvites)
     = jsonResponse (JoinedBody Sample.launchId true) 200.
Proof.
  split; [reflexivity |]. split.
  - intros [_ [H _]]. specialize (H 5000 eq_refl). lia.
  - split; vm_compute; reflexivity.
Qed.

(** C6 (as amended): when a valid invite is not bound to another identity and
    the consumer already takes part in its conversation, redeem answers
    [alreadyMember: true] and leaves the database as it was: no use counted,
    no participant, no message. *)
Theorem redeem_by_member (identity inviteId rnd : string) (now : Z) (db : DB)
    (invite : Invite) (p : Participant) :
  findInvite inviteId db = Some invite ->
  validInvite invite now ->
  openTo invite identity ->
  findParticipant (inv_conversationId invite) identity db = Some p ->
  POST identity inviteId rnd now db
  = (db, jsonResponse (AlreadyMemberBody (inv_conversationId invite) true) 200).
Proof.
  intros Hf Hvalid Hopen Hp.
  apply validInvite_iff in Hvalid. destruct Hvalid as [Hr [He Hx]].
  unfold POST. step. rewrite Hf, checkInvite_run, Hr, He, Hx. step.
  assert (Hfor : (Js.truthyOpt (inv_forDid invite)
                  && negb (String.eqb (orDefault (inv_forDid invite) EmptyString)
                                      identity))%bool = false).
  { destruct Hopen as [-> | [-> | ->]]; try reflexivity.
    cbn [orDefault]. rewrite String.eqb_refl. cbn [negb].
    apply andb_false_r. }
  rewrite Hfor, Hp. reflexivity.
Qed.

Lemma redeem_by_member_witness :
  POST Sample.alice "inv_e" "m4" 2000 Sample.launchWithInvites
  = (Sample.launchWithInvites,
     jsonResponse (AlreadyMemberBody Sample.launchId true) 200).
Proof.
  refine (redeem_by_member Sample.alice "inv_e" "m4" 2000
            Sample.launchWithInvites Sample.expiring
            (newParticipant Sample.launchId Sample.alice "member"
               (Some Sample.owner) 1000) _ _ _ _).
  - reflexivity.
  - apply validInvite_iff. repeat split; reflexivity.
  - left; reflexivity.
  - vm_compute; reflexivity.
Defined.

(** C6 (as stated, refuted): bob's personal invite is valid and alice already
    takes part in the conversation, yet her redeem is answered 403. *)
Lemma redeem_bound_counterexample :
  findInvite "inv_b" Sample.launchWithInvites = Some Sample.forBob
  /\ validInvite Sample.forBob 2000
  /\ validAsStated Sample.forBob 2000
  /\ isSome (findParticipant Sample.launchId Sample.alice
               Sample.launchWithInvites) = true
  /\ POST Sample.alice "inv_b" "m4" 2000 Sample.launchWithInvites
     = (Sample.launchWithInvites,
        errorResponse "This invite is for a different user" 403).
Proof.
  split; [reflexivity |].
  split; [apply validInvite_iff; repeat split; reflexivity |].
  split.
  - split; [reflexivity |]. split; intros x H; discriminate H.
  - split; vm_compute; reflexivity.
Qed.

End Invites.

Lemma find_app_fresh {A : Type} (f : A -> bool) (l : list A) (x : A) :
  find f l = None -> f x = true -> find f (l ++ [x])%list = Some x.
Proof.
  intros Hl Hx. induction l as [| y l IH]; cbn [find app].
  - rewrite Hx. reflexivity.
  - cbn [find] in Hl. destruct (f y); [discriminate Hl | exact (IH Hl)].
Qed.

Section InviteExpiry.

Import Utils.

Lemma invite_terminal_states_witness :
  InviteRoute.GET "inv_e" 6000 Sample.launchWithInvites
  = (Sample.launchWithInvites, errorResponse "Invite has expired" 410)
  /\ InviteRoute.POST Sample.carol "inv_e" "m4" 6000 Sample.launchWithInvites
     = (Sample.launchWithInvites, errorResponse "Invite has expired" 410).
Proof.
  refine (proj1 (proj2 (proj2 (proj2
            (invite_terminal_states Sample.carol "inv_e" "m4" 6000
               Sample.launchWithInvites)))) _ _).
  - reflexivity.
  - exists 5000. split; [reflexivity | lia].
Defined.

(** C8 (as amended): an invite created with [expiresInHours = 0] is stored
    without an expiry ([expiresAt] null, the count of hours being read as
    absent), so no later preview answers that it has expired. *)
Theorem zero_hours_no_expiry (identity cid rnd : string)
    (forDid : option string) (maxUses : option Js.Json)
    (baseUrl : option string) (now : Z) (db : DB) (p : Participant) :
  wellFormed db = true ->
  cid <> EmptyString ->
  findParticipant cid identity db = Some p ->
  hasRole (part_role p) "admin" = true ->
  findInvite (generateId "inv" rnd) db = None ->
  exists invite db' link,
    InvitesRoute.POST identity
      (InvitesRoute.mkInviteRequest (Some cid) forDid maxUses (Some 0))
      rnd baseUrl now db
    = (db', jsonResponse (InviteBody (Some invite) link) 201)
    /\ findInvite (generateId "inv" rnd) db' = Some invite
    /\ inv_expiresAt invite = None
    /\ forall later,
         snd (InviteRoute.GET (generateId "inv" rnd) later db')
         <> errorResponse "Invite has expired" 410.
Proof.
  intros Hwf Hcid Hp Hadmin Hfresh.
  pose proof (wellFormed_participant_conversation _ _ _ _ Hwf Hp) as Hconv.
  apply truthyStr_iff in Hcid.
  set (invite := newInvite (generateId "inv" rnd) cid identity
                   (Js.orNull forDid) (InvitesRoute.maxUsesColumn maxUses)
                   None now).
  assert (Hfound :
            findInvite (generateId "inv" rnd)
              (mkDB (conversations db) (participants db) (messages db)
                    (invites db ++ [invite])) = Some invite).
  { unfold findInvite in *. cbn [invites].
    apply find_app_fresh; [exact Hfresh | apply String.eqb_refl]. }
  exists invite. eexists. eexists.
  unfold InvitesRoute.POST. step.
  cbn [InvitesRoute.req_conversationId InvitesRoute.req_forDid
       InvitesRoute.req_maxUses InvitesRoute.req_expiresInHours
       Js.truthyOpt orDefault].
  rewrite Hcid. step. rewrite Hp. step. rewrite Hadmin. step.
  change (InvitesRoute.expiryOf (Some 0) now) with (@None Z). step.
  fold invite. unfold insertInvite.
  change (inv_id invite) with (generateId "inv" rnd).
  change (inv_conversationId invite) with cid.
  unfold hasConversation in Hconv. rewrite Hfresh, Hconv. cbn [isSome]. step.
  rewrite Hfound.
  split; [reflexivity |]. split; [exact Hfound |]. split; [reflexivity |].
  intros later. unfold InviteRoute.GET. step. rewrite Hfound.
  rewrite checkInvite_run.
  change (InviteRoute.revoked invite) with false.
  change (InviteRoute.expired invite later) with false.
  cbv iota.
  destruct (InviteRoute.exhausted invite); step;
    [cbn [snd]; unfold errorResponse; intros H; inversion H |].
  match goal with
  | |- context [findConversation ?c ?d] => destruct (findConversation c d)
  end; cbn [snd]; unfold errorResponse, jsonResponse; intros H; inversion H.
Qed.

Lemma zero_hours_no_expiry_witness :
  exists invite db' link,
    InvitesRoute.POST Sample.owner
      (InvitesRoute.mkInviteRequest (Some Sample.launchId) None None (Some 0))
      "z" None 5000 Sample.launch
    = (db', jsonResponse (InviteBody (Some invite) link) 201)
    /\ findInvite (generateId "inv" "z") db' = Some invite
    /\ inv_expiresAt invite = None
    /\ forall later,
         snd (InviteRoute.GET (generateId "inv" "z") later db')
         <> errorResponse "Invite has expired" 410.
Proof.
  refine (zero_hours_no_expiry Sample.owner Sample.launchId "z" None None None
            5000 Sample.launch
            (newParticipant Sample.launchId Sample.owner "owner" None 1000)
            _ _ _ _ _).
  - vm_compute; reflexivity.
  - vm_compute; discriminate.
  - vm_compute; reflexivity.
  - vm_compute; reflexivity.
  - vm_compute; reflexivity.
Defined.

(** C8 (as stated, refuted): the owner creates an invite with
    [expiresInHours = 0] at time 5000; the stored [expiresAt] is null, not
    5000, and a preview one millisecond later is answered 200. *)
Lemma zero_hours_counterexample :
  exists invite,
    findInvite (generateId "inv" "z")
      (fst (InvitesRoute.POST Sample.owner
              (InvitesRoute.mkInviteRequest (Some Sample.launchId) None None
                 (Some 0))
              "z" None 5000 Sample.launch))
    = Some invite
    /\ inv_expiresAt invite <> Some 5000
    /\ status (snd (InviteRoute.GET (generateId "inv" "z") 5001
                      (fst (InvitesRoute.POST Sample.owner
                              (InvitesRoute.mkInviteRequest
                                 (Some Sample.launchId) None None (Some 0))
                              "z" None 5000 Sample.launch))))
       = 200.
Proof.
  eexists. split; [vm_compute; reflexivity |].
  split; [discriminate | vm_compute; reflexivity].
Qed.

(** With a count of hours that is not zero, the expiry is the creation time
    plus that many hours. *)
Lemma expiryOf_hours (h now : Z) :
  h <> 0 -> InvitesRoute.expiryOf (Some h) now = Some (now + h * 3600000).
Proof.
  intros Hh. unfold InvitesRoute.expiryOf.
  destruct (Z.eqb_spec h 0); [contradiction |]. cbn [negb]. f_equal. lia.
Qed.

End InviteExpiry.

(** ** Creating a direct conversation *)

Section DirectCreation.

Import Utils.
Import ConversationsRoute.

Lemma setHas_iff (dids : list string) (d : string) :
  setHas dids d = true <-> In d dids.
Proof.
  unfold setHas. rewrite existsb_exists. split.
  - intros [x [Hin Heq]]. apply String.eqb_eq in Heq. now subst x.
  - intros Hin. exists d. split; [exact Hin | apply String.eqb_refl].
Qed.

Lemma setHas_setAdd (dids : list string) (d x : string) :
  setHas (setAdd dids d) x = setHas dids x || String.eqb x d.
Proof.
  unfold setAdd. destruct (setHas dids d) eqn:Hd.
  - destruct (String.eqb_spec x d) as [-> | _].
    + rewrite Hd. reflexivity.
    + now rewrite orb_false_r.
  - unfold setHas. rewrite existsb_app. cbn [existsb].
    now rewrite orb_false_r.
Qed.

Lemma lookupSet_addDid (k k' d : string) (cc : list (string * list string)) :
  lookupSet k (addDid k' d cc)
  = if String.eqb k' k then setAdd (lookupSet k cc) d else lookupSet k cc.
Proof.
  induction cc as [| [k0 s0] cc IH]; cbn [addDid lookupSet].
  - destruct (String.eqb k' k); reflexivity.
  - destruct (String.eqb_spec k0 k') as [-> | Hne]; cbn [lookupSet].
    + destruct (String.eqb k' k); reflexivity.
    + destruct (String.eqb_spec k0 k) as [-> | Hne'].
      * destruct (String.eqb_spec k' k) as [-> | _]; [congruence | reflexivity].
      * exact IH.
Qed.

Lemma keys_addDid (k d : string) (cc : list (string * list string)) :
  map fst (addDid k d cc)
  = if existsb (String.eqb k) (map fst cc) then map fst cc
    else (map fst cc ++ [k])%list.
Proof.
  induction cc as [| [k0 s0] cc IH]; cbn [addDid map fst existsb app].
  - reflexivity.
  - rewrite (String.eqb_sym k k0).
    destruct (String.eqb k0 k); cbn [orb map fst].
    + reflexivity.
    + rewrite IH. destruct (existsb (String.eqb k) (map fst cc)); reflexivity.
Qed.

Lemma keys_addDid_NoDup (k d : string) (cc : list (string * list string)) :
  NoDup (map fst cc) -> NoDup (map fst (addDid k d cc)).
Proof.
  intros Hnd. rewrite keys_addDid.
  destruct (existsb (String.eqb k) (map fst cc)) eqn:E; [exact Hnd |].
  apply NoDup_app; [exact Hnd | constructor; [intros [] | constructor] |].
  intros x Hx [Hk | []]. subst x.
  assert (existsb (String.eqb k) (map fst cc) = true) as Hex.
  { apply existsb_exists. exists k. split; [exact Hx | apply String.eqb_refl]. }
  congruence.
Qed.

Lemma lookupSet_In (k : string) (s : list string)
    (cc : list (string * list string)) :
  NoDup (map fst cc) -> In (k, s) cc -> lookupSet k cc = s.
Proof.
  induction cc as [| [k0 s0] cc IH]; intros Hnd Hin; [contradiction |].
  cbn [map fst] in Hnd. inversion Hnd as [| ? ? Hnotin Hnd']; subst.
  cbn [lookupSet]. destruct Hin as [E | Hin].
  - injection E as -> ->. now rewrite String.eqb_refl.
  - destruct (String.eqb_spec k0 k) as [-> | _]; [| now apply IH].
    exfalso. apply Hnotin. apply in_map_iff. exists (k, s). auto.
Qed.

Lemma lookupSet_entry (k d : string) (cc : list (string * list string)) :
  In d (lookupSet k cc) -> In (k, lookupSet k cc) cc.
Proof.
  induction cc as [| [k0 s0] cc IH]; cbn [lookupSet]; [contradiction |].
  destruct (String.eqb_spec k0 k) as [-> | _]; intros H.
  - left; reflexivity.
  - right; exact (IH H).
Qed.

(** The grouping loop records, for each conversation, the identities of its
    joined rows. *)
Lemma groupRows_from (rows pre : list (Conversation * Participant))
    (acc : list (string * list string)) :
  NoDup (map fst acc) ->
  (forall k d, In d (lookupSet k acc) <-> hasRow pre k d) ->
  let cc := fold_left (fun convCounts row =>
                         addDid (conv_id (fst row)) (part_did (snd row))
                                convCounts) rows acc in
  NoDup (map fst cc)
  /\ (forall k d, In d (lookupSet k cc) <-> hasRow (pre ++ rows)%list k d).
Proof.
  revert pre acc. induction rows as [| row rows IH]; intros pre acc Hnd Hacc.
  - cbn [fold_left]. rewrite app_nil_r. auto.
  - cbn [fold_left].
    replace (pre ++ row :: rows)%list with ((pre ++ [row]) ++ rows)%list
      by (rewrite <- app_assoc; reflexivity).
    apply IH; [now apply keys_addDid_NoDup |].
    intros k d. rewrite lookupSet_addDid.
    unfold hasRow.
    destruct (String.eqb_spec (conv_id (fst row)) k) as [Hk | Hk].
    + rewrite <- setHas_iff, setHas_setAdd, orb_true_iff, setHas_iff, Hacc.
      split.
      * intros [[r [Hin [H1 H2]]] | Hd].
        -- exists r. rewrite in_app_iff. auto.
        -- apply String.eqb_eq in Hd. exists row. rewrite in_app_iff.
           cbn [In]. auto.
      * intros [r [Hin [H1 H2]]]. apply in_app_iff in Hin.
        destruct Hin as [Hin | [<- | []]].
        -- left. exists r. auto.
        -- right. apply String.eqb_eq. auto.
    + rewrite Hacc. split.
      * intros [r [Hin [H1 H2]]]. exists r. rewrite in_app_iff. auto.
      * intros [r [Hin [H1 H2]]]. apply in_app_iff in Hin.
        destruct Hin as [Hin | [<- | []]]; [| congruence].
        exists r. auto.
Qed.

Lemma groupRows_spec (rows : list (Conversation * Participant)) :
  NoDup (map fst (groupRows rows))
  /\ (forall k d, In d (lookupSet k (groupRows rows)) <-> hasRow rows k d).
Proof.
  apply (groupRows_from rows [] []).
  - constructor.
  - intros k d. cbn [lookupSet]. split; [contradiction |].
    intros [r [[] _]].
Qed.

Lemma hasRow_directRows (a b k d : string) (db : DB) :
  hasRow (directRows a b db) k d
  <-> (exists c, In c (conversations db) /\ conv_id c = k
                 /\ conv_type c = "direct")
      /\ (exists p, In p (participants db) /\ part_conversationId p = k
                    /\ part_did p = d)
      /\ (d = a \/ d = b).
Proof.
  unfold hasRow, directRows. split.
  - intros [[c p] [Hin [Hk Hd]]]. cbn [fst snd] in Hk, Hd.
    apply in_flat_map in Hin. destruct Hin as [c' [Hc' Hin]].
    destruct (String.eqb_spec (conv_type c') "direct") as [Ht | _];
      [| contradiction].
    apply in_map_iff in Hin. destruct Hin as [p' [E Hp']].
    injection E as -> ->. apply filter_In in Hp'. destruct Hp' as [Hp Hcond].
    apply andb_prop in Hcond. destruct Hcond as [Hcid Hor].
    apply String.eqb_eq in Hcid. apply orb_prop in Hor.
    repeat split.
    + exists c. auto.
    + exists p. repeat split; [exact Hp | congruence | exact Hd].
    + destruct Hor as [H | H]; apply String.eqb_eq in H; [left | right];
        congruence.
  - intros [[c [Hc [Hk Ht]]] [[p [Hp [Hcid Hd]]] Hor]].
    exists (c, p). cbn [fst snd]. split; [| auto].
    apply in_flat_map. exists c. split; [exact Hc |].
    rewrite Ht, String.eqb_refl.
    apply in_map. apply filter_In. split; [exact Hp |].
    apply andb_true_intro. split.
    + apply String.eqb_eq. congruence.
    + apply orb_true_intro.
      destruct Hor as [H | H]; [left | right]; apply String.eqb_eq; congruence.
Qed.

(** The scan answers a conversation exactly when a direct conversation holds
    both identities, and the one it answers is such a conversation. *)
Lemma findExisting_spec (a b : string) (db : DB) :
  match findExisting a b (groupRows (directRows a b db)) with
  | Some k => directBetween db a b k
  | None => forall k, ~ directBetween db a b k
  end.
Proof.
  destruct (groupRows_spec (directRows a b db)) as [Hnd Hrows].
  assert (Hboth : forall k,
             (In a (lookupSet k (groupRows (directRows a b db)))
              /\ In b (lookupSet k (groupRows (directRows a b db))))
             <-> directBetween db a b k).
  { intros k. rewrite !Hrows, !hasRow_directRows. unfold directBetween.
    split.
    - intros [[Hc [Ha _]] [_ [Hb _]]]. auto.
    - intros [Hc [Ha Hb]]. auto. }
  unfold findExisting.
  destruct (find _ (groupRows (directRows a b db))) as [[k s] |] eqn:Hfind;
    cbn [option_map fst].
  - apply find_some in Hfind. destruct Hfind as [Hin Hcond].
    cbn [snd] in Hcond. apply andb_prop in Hcond.
    apply Hboth. rewrite (lookupSet_In k s _ Hnd Hin).
    rewrite <- !setHas_iff. exact Hcond.
  - intros k Hk. apply Hboth in Hk. destruct Hk as [Ha Hb].
    pose proof (lookupSet_entry _ _ _ Ha) as Hentry.
    pose proof (find_none _ _ Hfind _ Hentry) as Hno. cbn [snd] in Hno.
    apply setHas_iff in Ha. apply setHas_iff in Hb.
    rewrite Ha, Hb in Hno. discriminate Hno.
Qed.

Lemma find_app {A : Type} (f : A -> bool) (l l' : list A) :
  find f (l ++ l')%list
  = match find f l with
    | Some x => Some x
    | None => find f l'
    end.
Proof.
  induction l as [| x l IH]; cbn [find app]; [reflexivity |].
  destruct (f x); [reflexivity | exact IH].
Qed.

Lemma fresh_conversation_no_participant (db : DB) (k : string) (p : Participant) :
  wellFormed db = true ->
  findConversation k db = None ->
  In p (participants db) ->
  String.eqb (part_conversationId p) k = false.
Proof.
  unfold wellFormed. intros Hwf Hfresh Hin.
  repeat (apply andb_prop in Hwf; destruct Hwf as [Hwf ?]).
  match goal with
  | H : forallb _ (participants db) = true |- _ =>
      rewrite forallb_forall in H; specialize (H p Hin)
  end.
  destruct (String.eqb_spec (part_conversationId p) k) as [E | _];
    [| reflexivity].
  unfold hasConversation in *. rewrite E, Hfresh in *. discriminate.
Qed.

Lemma fresh_findParticipant (db : DB) (k did : string) :
  wellFormed db = true ->
  findConversation k db = None ->
  findParticipant k did db = None.
Proof.
  intros Hwf Hfresh. unfold findParticipant.
  destruct (find _ (participants db)) as [p |] eqn:E; [| reflexivity].
  apply find_some in E. destruct E as [Hin Hkey].
  unfold isParticipant in Hkey. apply andb_prop in Hkey.
  rewrite (fresh_conversation_no_participant db k p Hwf Hfresh Hin) in Hkey.
  destruct Hkey; discriminate.
Qed.

Lemma fresh_participantsOf (db : DB) (k : string) :
  wellFormed db = true ->
  findConversation k db = None ->
  participantsOf k db = [].
Proof.
  intros Hwf Hfresh. unfold participantsOf.
  assert (H : forall p, In p (participants db) ->
                        String.eqb (part_conversationId p) k = false)
    by (intros p; apply fresh_conversation_no_participant; assumption).
  induction (participants db) as [| p ps IH]; [reflexivity |].
  cbn [filter]. rewrite (H p (or_introl eq_refl)).
  apply IH. intros q Hq. apply H. now right.
Qed.

Lemma findConversation_id (db : DB) (k : string) (c : Conversation) :
  findConversation k db = Some c -> conv_id c = k /\ In c (conversations db).
Proof.
  unfold findConversation. intros H. apply find_some in H.
  destruct H as [Hin Hk]. apply String.eqb_eq in Hk. auto.
Qed.

Lemma directBetween_found (db : DB) (a b k : string) :
  directBetween db a b k -> exists c, findConversation k db = Some c.
Proof.
  intros [[c [Hin [Hk _]]] _]. unfold findConversation.
  destruct (find _ (conversations db)) as [c' |] eqn:E; [eauto |].
  pose proof (find_none _ _ E c Hin) as Hno. cbn beta in Hno.
  rewrite Hk, String.eqb_refl in Hno. discriminate Hno.
Qed.

Lemma create_direct_existing (a b rndConv rndMsg : string) (body : CreateBody)
    (now : Z) (db : DB) :
  create_type body = Some "direct" ->
  create_participantDids body = Some [b] ->
  isValidDid b = true ->
  (exists k, directBetween db a b k) ->
  exists c,
    POST a body rndConv rndMsg now db
    = (db, jsonResponse (ExistingConversationBody (Some c) true) 200)
    /\ directBetween db a b (conv_id c)
    /\ findConversation (conv_id c) db = Some c.
Proof.
  intros Htype Hdids Hvalid [k Hk].
  pose proof (findExisting_spec a b db) as Hscan.
  enter_direct Htype Hdids Hvalid.
  destruct (findExisting a b (groupRows (directRows a b db))) as [k' |];
    [| exfalso; exact (Hscan k Hk)].
  destruct (directBetween_found db a b k' Hscan) as [c Hc].
  exists c. rewrite Hc.
  destruct (findConversation_id db k' c Hc) as [Hid _].
  split; [reflexivity |]. rewrite Hid. split; [exact Hscan | exact Hc].
Qed.

Lemma create_direct_new (a b rndConv rndMsg : string) (body : CreateBody)
    (now : Z) (db : DB) :
  wellFormed db = true ->
  create_type body = Some "direct" ->
  create_participantDids body = Some [b] ->
  isValidDid b = true ->
  a <> b ->
  findConversation (generateId "conv" rndConv) db = None ->
  (forall k, ~ directBetween db a b k) ->
  POST a body rndConv rndMsg now db
  = (mkDB (conversations db ++ [createdConversation a rndConv body now])
          (participants db ++ createdParticipants a b rndConv now)
          (messages db) (invites db),
     jsonResponse
       (ConversationBody (Some (createdConversation a rndConv body now)))
       201).
Proof.
  intros Hwf Htype Hdids Hvalid Hab Hfresh Hnone.
  pose proof (findExisting_spec a b db) as Hscan.
  enter_direct Htype Hdids Hvalid.
  destruct (findExisting a b (groupRows (directRows a b db))) as [k' |];
    [exfalso; exact (Hnone k' Hscan) |].
  step.
  fold (createdConversation a rndConv body now).
  set (c := createdConversation a rndConv body now).
  set (cid := generateId "conv" rndConv) in *.
  set (pa := newParticipant cid a "owner" None now).
  set (pb := newParticipant cid b "member" (Some a) now).
  unfold insertConversation. change (conv_id c) with cid.
  rewrite Hfresh. cbn [isSome].
  set (db1 := mkDB (conversations db ++ [c]) (participants db) (messages db)
                   (invites db)).
  assert (Hc1 : forall ps ms, findConversation cid
                  (mkDB (conversations db ++ [c]) ps ms (invites db))
                = Some c).
  { intros ps ms. unfold findConversation in *. cbn [conversations].
    apply find_app_fresh; [exact Hfresh | apply String.eqb_refl]. }
  pose proof (fresh_findParticipant db cid a Hwf Hfresh) as Hpa.
  pose proof (fresh_findParticipant db cid b Hwf Hfresh) as Hpb.
  unfold insertParticipant.
  change (part_conversationId pa) with cid. change (part_did pa) with a.
  change (part_conversationId pb) with cid. change (part_did pb) with b.
  change (findParticipant cid a db1) with (findParticipant cid a db).
  rewrite Hpa. unfold db1. rewrite Hc1. cbn [isSome].
  cbn [conversations participants messages invites].
  destruct (String.eqb_spec b a) as [E | _]; [congruence |]. cbn [negb].
  assert (Hpb' : findParticipant cid b
                   (mkDB (conversations db ++ [c]) (participants db ++ [pa])
                         (messages db) (invites db)) = None).
  { unfold findParticipant in *. cbn [participants]. rewrite find_app, Hpb.
    cbn [find]. unfold isParticipant.
    change (part_did pa) with a.
    destruct (String.eqb_spec a b) as [E | _]; [congruence |].
    now rewrite andb_false_r. }
  rewrite Hpb', Hc1. cbn [isSome].
  cbn [conversations participants messages invites].
  rewrite Hc1. unfold createdParticipants. fold cid. fold pa. fold pb.
  rewrite <- app_assoc. reflexivity.
Qed.



Lemma directBetween_sym (db : DB) (a b k : string) :
  directBetween db a b k -> directBetween db b a k.
Proof. intros [Hc [Ha Hb]]. repeat split; assumption. Qed.

Lemma directBetween_created (db : DB) (a b x y k rndConv : string)
    (body : CreateBody) (now : Z) :
  (forall k', ~ directBetween db x y k') ->
  directBetween
    (mkDB (conversations db ++ [createdConversation a rndConv body now])
          (participants db ++ createdParticipants a b rndConv now)
          (messages db) (invites db)) x y k ->
  k = generateId "conv" rndConv.
Proof.
  intros Hnone [[c [Hc [Hk Ht]]] [[p [Hp [Hpk Hpd]]] [q [Hq [Hqk Hqd]]]]].
  cbn [conversations participants] in *.
  destruct (String.eqb_spec k (generateId "conv" rndConv)) as [E | Hne];
    [exact E | exfalso].
  apply (Hnone k). repeat split.
  - exists c. apply in_app_iff in Hc. destruct Hc as [Hc | [<- | []]]; [auto |].
    exfalso. apply Hne. symmetry. exact Hk.
  - exists p. apply in_app_iff in Hp.
    destruct Hp as [Hp | [<- | [<- | []]]]; [auto | |];
      exfalso; apply Hne; symmetry; exact Hpk.
  - exists q. apply in_app_iff in Hq.
    destruct Hq as [Hq | [<- | [<- | []]]]; [auto | |];
      exfalso; apply Hne; symmetry; exact Hqk.
Qed.

Lemma directBetween_just_created (db : DB) (a b rndConv : string)
    (body : CreateBody) (now : Z) :
  directBetween
    (mkDB (conversations db ++ [createdConversation a rndConv body now])
          (participants db ++ createdParticipants a b rndConv now)
          (messages db) (invites db)) a b (generateId "conv" rndConv).
Proof.
  unfold directBetween. cbn [conversations participants]. repeat split.
  - exists (createdConversation a rndConv body now).
    rewrite in_app_iff. cbn [In]. auto.
  - eexists. rewrite in_app_iff. split; [right; left; reflexivity |].
    split; reflexivity.
  - eexists. rewrite in_app_iff. split; [right; right; left; reflexivity |].
    split; reflexivity.
Qed.

(** Creating the conversation and asking again, from either side, answers the
    conversation of the first request and writes nothing more. *)
Lemma create_direct_twice (a b rndConv rndMsg rndConv' rndMsg' : string)
    (body body' : CreateBody) (now now' : Z) (db : DB)
    (requester other : string) :
  wellFormed db = true ->
  create_type body = Some "direct" ->
  create_participantDids body = Some [b] ->
  isValidDid a = true -> isValidDid b = true ->
  a <> b ->
  findConversation (generateId "conv" rndConv) db = None ->
  (forall k, ~ directBetween db a b k) ->
  (requester = a /\ other = b) \/ (requester = b /\ other = a) ->
  create_type body' = Some "direct" ->
  create_participantDids body' = Some [other] ->
  POST requester body' rndConv' rndMsg' now'
       (fst (POST a body rndConv rndMsg now db))
  = (fst (POST a body rndConv rndMsg now db),
     jsonResponse
       (ExistingConversationBody
          (Some (createdConversation a rndConv body now)) true) 200).
Proof.
  intros Hwf Htype Hdids Ha Hb Hab Hfresh Hnone Hwho Htype' Hdids'.
  rewrite (create_direct_new a b rndConv rndMsg body now db
             Hwf Htype Hdids Hb Hab Hfresh Hnone). cbn [fst].
  set (db' := mkDB _ _ _ _).
  pose proof (directBetween_just_created db a b rndConv body now) as Hjust.
  fold db' in Hjust.
  assert (Hother : isValidDid other = true)
    by (destruct Hwho as [[_ ->] | [_ ->]]; assumption).
  assert (Hex : exists k, directBetween db' requester other k).
  { exists (generateId "conv" rndConv).
    destruct Hwho as [[-> ->] | [-> ->]];
      [exact Hjust | exact (directBetween_sym _ _ _ _ Hjust)]. }
  destruct (create_direct_existing requester other rndConv' rndMsg' body' now'
              db' Htype' Hdids' Hother Hex) as [c [Hrun [Hc Hfound]]].
  rewrite Hrun. f_equal. f_equal. f_equal. f_equal.
  assert (Hid : conv_id c = generateId "conv" rndConv).
  { destruct Hwho as [[-> ->] | [-> ->]].
    - exact (directBetween_created db a b a b _ rndConv body now Hnone Hc).
    - apply (directBetween_created db a b b a _ rndConv body now); [| exact Hc].
      intros k Hk. exact (Hnone k (directBetween_sym _ _ _ _ Hk)). }
  rewrite Hid in Hfound. unfold db', findConversation in Hfound.
  cbn [conversations] in Hfound.
  rewrite (find_app_fresh _ (conversations db)
             (createdConversation a rndConv body now)) in Hfound.
  - now injection Hfound as <-.
  - exact Hfresh.
  - apply String.eqb_refl.
Qed.

End DirectCreation.

(** ** Direct conversations after their creation *)

Section DirectLifetime.

Import Utils.

Lemma insertParticipant_conversations (p : Participant) (db db' : DB) :
  insertParticipant p db = Some db' -> conversations db' = conversations db.
Proof.
  unfold insertParticipant. intros H.
  destruct (isSome (findParticipant _ _ db)); [discriminate H |].
  destruct (isSome (findConversation _ db)); [| discriminate H].
  now injection H as <-.
Qed.

Lemma insertMessage_frame (m : Message) (db db' : DB) :
  insertMessage m db = Some db' ->
  conversations db' = conversations db /\ participants db' = participants db.
Proof.
  unfold insertMessage. intros H.
  destruct (isSome (findMessage _ db)); [discriminate H |].
  destruct (isSome (findConversation _ db)); [| discriminate H].
  injection H as <-. auto.
Qed.

(** Adding a participant writes no conversation row. *)
Lemma add_keeps_conversations (identity cid rnd : string)
    (body : ParticipantsRoute.AddBody) (now : Z) (db : DB) :
  conversations (fst (ParticipantsRoute.POST identity cid body rnd now db))
  = conversations db.
Proof.
  unfold ParticipantsRoute.POST. step.
  destruct (findParticipant cid identity db) as [my |]; [| reflexivity]. step.
  destruct (hasRole (part_role my) "admin"); [| reflexivity]. step.
  destruct (isValidDid (ParticipantsRoute.add_did body)); [| reflexivity]. step.
  destruct (negb (String.eqb (part_role my) "owner") && _)%bool;
    [reflexivity |].
  destruct (isSome (findParticipant cid _ db)); [reflexivity |].
  destruct (insertParticipant _ db) as [db1 |] eqn:E1; [| reflexivity].
  apply insertParticipant_conversations in E1.
  match goal with
  | |- context [insertMessage ?m db1] =>
      destruct (insertMessage m db1) as [db2 |] eqn:E2
  end; cbn [fst]; [| exact E1].
  apply insertMessage_frame in E2. destruct E2 as [E2 _]. congruence.
Qed.

(** Removing a participant writes no conversation row. *)
Lemma remove_keeps_conversations (identity cid rnd : string)
    (didParam : option string) (now : Z) (db : DB) :
  conversations (fst (ParticipantsRoute.DELETE identity cid didParam rnd now db))
  = conversations db.
Proof.
  unfold ParticipantsRoute.DELETE. step.
  destruct didParam as [did |]; [| reflexivity]. step.
  destruct (negb (Js.truthyStr did) || negb (isValidDid did))%bool;
    [reflexivity |].
  destruct (findParticipant cid identity db) as [my |]; [| reflexivity].
  destruct (negb (String.eqb did identity)
            && negb (hasRole (part_role my) "admin"))%bool; [reflexivity |].
  destruct (String.eqb did identity && String.eqb (part_role my) "owner")%bool;
    [reflexivity |].
  destruct (findParticipant cid did db) as [target |]; [| reflexivity].
  destruct (negb (String.eqb did identity)
            && hasRole (part_role target) (part_role my))%bool;
    [reflexivity |].
  match goal with
  | |- context [insertMessage ?m ?d] =>
      destruct (insertMessage m d) as [db2 |] eqn:E2
  end; cbn [fst]; [| reflexivity].
  apply insertMessage_frame in E2. destruct E2 as [E2 _]. exact E2.
Qed.

Lemma applyUpdates_keeps (body : ConversationRoute.PatchBody)
    (visibility : option string) (now : Z) (c : Conversation) :
  conv_id (ConversationRoute.applyUpdates body visibility now c) = conv_id c
  /\ conv_type (ConversationRoute.applyUpdates body visibility now c)
     = conv_type c.
Proof.
  unfold ConversationRoute.applyUpdates.
  destruct (ConversationRoute.patch_name body),
    (ConversationRoute.patch_description body), visibility;
    split; reflexivity.
Qed.

Lemma updateConversation_keeps (cid : string) (f : Conversation -> Conversation)
    (db : DB) :
  (forall c, conv_id (f c) = conv_id c /\ conv_type (f c) = conv_type c) ->
  map conv_id (conversations (updateConversation cid f db))
  = map conv_id (conversations db)
  /\ map conv_type (conversations (updateConversation cid f db))
     = map conv_type (conversations db)
  /\ participants (updateConversation cid f db) = participants db.
Proof.
  intros Hf. unfold updateConversation. cbn [conversations participants].
  rewrite !map_map. repeat split; apply map_ext; intros c;
    destruct (String.eqb (conv_id c) cid); try reflexivity; apply Hf.
Qed.

(** Updating a conversation keeps the id and the type of every conversation
    and writes no participant row. *)
Lemma update_keeps_type (identity cid : string)
    (body : ConversationRoute.PatchBody) (now : Z) (db : DB) :
  map conv_id (conversations (fst (ConversationRoute.PATCH identity cid body now db)))
  = map conv_id (conversations db)
  /\ map conv_type
       (conversations (fst (ConversationRoute.PATCH identity cid body now db)))
     = map conv_type (conversations db)
  /\ participants (fst (ConversationRoute.PATCH identity cid body now db))
     = participants db.
Proof.
  unfold ConversationRoute.PATCH. step.
  destruct (findParticipant cid identity db) as [p |]; [| auto]. step.
  destruct (hasRole (part_role p) "admin"); [| auto]. step.
  destruct (ConversationRoute.patch_visibility body) as [[v |] |]; step;
    cbn [fst].
  - apply updateConversation_keeps. intros c. apply applyUpdates_keeps.
  - destruct (hasConversation db cid); auto.
  - apply updateConversation_keeps. intros c. apply applyUpdates_keeps.
Qed.

(** C4 (as amended): a direct conversation created for a requester and
    another identity has exactly these two, distinct, participants when it is
    created, the requester with the role [owner] and the other identity with
    the role [member].  Afterwards no update, addition or removal changes the id or the
    type of a conversation; an update writes no participant row and an
    addition or removal writes no conversation row.  The handlers do not look
    at the type, so the name and the members of a direct conversation can
    change like those of a group. *)
Theorem direct_lifetime (a b rndConv rndMsg : string)
    (body : ConversationsRoute.CreateBody) (now : Z) (db : DB) :
  wellFormed db = true ->
  ConversationsRoute.create_type body = Some "direct" ->
  ConversationsRoute.create_participantDids body = Some [b] ->
  isValidDid b = true ->
  a <> b ->
  findConversation (generateId "conv" rndConv) db = None ->
  (forall k, ~ directBetween db a b k) ->
  (memberDids (generateId "conv" rndConv)
     (fst (ConversationsRoute.POST a body rndConv rndMsg now db)) = [a; b]
   /\ (exists c,
         findConversation (generateId "conv" rndConv)
           (fst (ConversationsRoute.POST a body rndConv rndMsg now db)) = Some c
         /\ conv_type c = "direct")
   /\ (exists pa pb,
         participantsOf (generateId "conv" rndConv)
           (fst (ConversationsRoute.POST a body rndConv rndMsg now db))
         = [pa; pb]
         /\ part_did pa = a /\ part_role pa = "owner"
         /\ part_did pb = b /\ part_role pb = "member"))
  /\ (forall identity cid patch now' db',
        map conv_id
          (conversations (fst (ConversationRoute.PATCH identity cid patch now' db')))
        = map conv_id (conversations db')
        /\ map conv_type
             (conversations
                (fst (ConversationRoute.PATCH identity cid patch now' db')))
           = map conv_type (conversations db')
        /\ participants (fst (ConversationRoute.PATCH identity cid patch now' db'))
           = participants db')
  /\ (forall identity cid add rnd now' db',
        conversations (fst (ParticipantsRoute.POST identity cid add rnd now' db'))
        = conversations db')
  /\ (forall identity cid didParam rnd now' db',
        conversations
          (fst (ParticipantsRoute.DELETE identity cid didParam rnd now' db'))
        = conversations db').
Proof.
  intros Hwf Htype Hdids Hvalid Hab Hfresh Hnone.
  split; [| split; [| split]].
  - rewrite (create_direct_new a b rndConv rndMsg body now db
               Hwf Htype Hdids Hvalid Hab Hfresh Hnone). cbn [fst].
    assert (Hrows :
              participantsOf (generateId "conv" rndConv)
                (mkDB (conversations db
                       ++ [createdConversation a rndConv body now])
                      (participants db ++ createdParticipants a b rndConv now)
                      (messages db) (invites db))
              = createdParticipants a b rndConv now).
    { unfold participantsOf. cbn [participants].
      rewrite filter_app.
      fold (participantsOf (generateId "conv" rndConv) db).
      rewrite (fresh_participantsOf db _ Hwf Hfresh).
      unfold createdParticipants. cbn [filter app part_conversationId
                                       newParticipant].
      rewrite String.eqb_refl. reflexivity. }
    split; [| split].
    + unfold memberDids. rewrite Hrows. reflexivity.
    + exists (createdConversation a rndConv body now).
      split; [| reflexivity].
      unfold findConversation in *. cbn [conversations].
      apply find_app_fresh; [exact Hfresh | apply String.eqb_refl].
    + rewrite Hrows. unfold createdParticipants. do 2 eexists.
      split; [reflexivity |]. repeat split.
  - intros. apply update_keeps_type.
  - intros. apply add_keeps_conversations.
  - intros. apply remove_keeps_conversations.
Qed.

Lemma direct_lifetime_witness :
  memberDids Sample.directId Sample.direct = [Sample.alice; Sample.bob]
  /\ (exists c,
        findConversation Sample.directId Sample.direct = Some c
        /\ conv_type c = "direct")
  /\ (exists pa pb,
        participantsOf Sample.directId Sample.direct = [pa; pb]
        /\ part_did pa = Sample.alice /\ part_role pa = "owner"
        /\ part_did pb = Sample.bob /\ part_role pb = "member").
Proof.
  refine (proj1 (direct_lifetime Sample.alice Sample.bob "ab" "m0"
                   (Sample.directBody Sample.bob) 1000 emptyDB
                   _ _ _ _ _ _ _)).
  - reflexivity.
  - reflexivity.
  - reflexivity.
  - vm_compute; reflexivity.
  - vm_compute; discriminate.
  - reflexivity.
  - intros k [[c [[] _]] _].
Defined.

(** C4 (as stated, refuted): in the direct conversation of alice and bob,
    alice changes the name, alice adds carol, and bob leaves; and a direct
    conversation that alice opens with herself has a single participant. *)
Lemma direct_lifetime_counterexample :
  option_map conv_name (findConversation Sample.directId Sample.direct)
  = Some None
  /\ option_map conv_name
       (findConversation Sample.directId
          (fst (ConversationRoute.PATCH Sample.alice Sample.directId
                  (ConversationRoute.mkPatchBody (Some (Some "renamed")) None None)
                  2000 Sample.direct)))
     = Some (Some "renamed")
  /\ memberDids Sample.directId
       (fst (ParticipantsRoute.POST Sample.alice Sample.directId
               (ParticipantsRoute.mkAddBody Sample.carol None) "m1" 2000
               Sample.direct))
     = [Sample.alice; Sample.bob; Sample.carol]
  /\ memberDids Sample.directId
       (fst (ParticipantsRoute.DELETE Sample.bob Sample.directId
               (Some Sample.bob) "m1" 2000 Sample.direct))
     = [Sample.alice]
  /\ memberDids (generateId "conv" "aa")
       (fst (ConversationsRoute.POST Sample.alice
               (Sample.directBody Sample.alice) "aa" "m0" 1000 emptyDB))
     = [Sample.alice].
Proof. repeat split; vm_compute; reflexivity. Qed.

End DirectLifetime.

(** ** Listing messages *)

Section Listing.

Import Utils.
Import MessagesRoute.

Lemma notOlder_total (a b : Message) :
  notOlder a b = false -> notOlder b a = true.
Proof.
  unfold notOlder.
  destruct (msg_createdAt a) as [x |], (msg_createdAt b) as [y |];
    try reflexivity; try discriminate.
  rewrite Z.leb_gt, Z.leb_le. lia.
Qed.

Lemma notOlder_trans (a b c : Message) :
  notOlder a b = true -> notOlder b c = true -> notOlder a c = true.
Proof.
  unfold notOlder.
  destruct (msg_createdAt a) as [x |], (msg_createdAt b) as [y |],
    (msg_createdAt c) as [z |]; try reflexivity; try discriminate.
  rewrite !Z.leb_le. lia.
Qed.

Lemma insertDesc_perm (m : Message) (l : list Message) :
  Permutation (insertDesc m l) (m :: l).
Proof.
  induction l as [| m' l IH]; cbn [insertDesc]; [reflexivity |].
  destruct (notOlder m m'); [reflexivity |].
  rewrite IH. apply perm_swap.
Qed.

Lemma insertDesc_sorted (m : Message) (l : list Message) :
  StronglySorted (fun x y => notOlder x y = true) l ->
  StronglySorted (fun x y => notOlder x y = true) (insertDesc m l).
Proof.
  induction 1 as [| m' l Hs IH Hall]; cbn [insertDesc].
  - repeat constructor.
  - destruct (notOlder m m') eqn:E.
    + constructor; [constructor; assumption |].
      constructor; [exact E |].
      rewrite Forall_forall in *. intros y Hy.
      exact (notOlder_trans _ _ _ E (Hall y Hy)).
    + constructor; [exact IH |].
      rewrite Forall_forall in *. intros y Hy.
      apply (Permutation_in _ (insertDesc_perm m l)) in Hy.
      destruct Hy as [<- | Hy]; [now apply notOlder_total | exact (Hall y Hy)].
Qed.

Lemma orderBy_perm (rows : list Message) :
  Permutation (orderByCreatedAtDesc rows) rows.
Proof.
  induction rows as [| m rows IH]; cbn [orderByCreatedAtDesc fold_right].
  - reflexivity.
  - fold (orderByCreatedAtDesc rows). rewrite insertDesc_perm.
    now constructor.
Qed.

Lemma orderBy_sorted (rows : list Message) :
  StronglySorted (fun x y => notOlder x y = true) (orderByCreatedAtDesc rows).
Proof.
  induction rows as [| m rows IH]; cbn [orderByCreatedAtDesc fold_right].
  - constructor.
  - apply insertDesc_sorted. exact IH.
Qed.

Lemma sorted_app {A : Type} (R : A -> A -> Prop) (l1 l2 : list A) :
  StronglySorted R (l1 ++ l2) ->
  StronglySorted R l1 /\ forall x y, In x l1 -> In y l2 -> R x y.
Proof.
  induction l1 as [| a l1 IH]; cbn [app]; intros H.
  - split; [constructor | intros x y []].
  - inversion H as [| ? ? Hs Hall]; subst.
    destruct (IH Hs) as [Hs1 Hcross]. split.
    + constructor; [exact Hs1 |].
      rewrite Forall_forall in *. intros y Hy. apply Hall.
      apply in_app_iff. now left.
    + intros x y [<- | Hx] Hy.
      * rewrite Forall_forall in Hall. apply Hall. apply in_app_iff. now right.
      * now apply Hcross.
Qed.

Lemma sorted_snoc {A : Type} (R : A -> A -> Prop) (l : list A) (x : A) :
  StronglySorted R l -> (forall y, In y l -> R y x) ->
  StronglySorted R (l ++ [x]).
Proof.
  induction 1 as [| a l Hs IH Hall]; cbn [app]; intros Hx.
  - repeat constructor.
  - constructor.
    + apply IH. intros y Hy. apply Hx. now right.
    + rewrite Forall_forall in *. intros y Hy. apply in_app_iff in Hy.
      destruct Hy as [Hy | [<- | []]]; [now apply Hall | apply Hx; now left].
Qed.

Lemma sorted_rev {A : Type} (R : A -> A -> Prop) (l : list A) :
  StronglySorted R l -> StronglySorted (fun x y => R y x) (rev l).
Proof.
  induction 1 as [| a l Hs IH Hall]; cbn [rev]; [constructor |].
  apply sorted_snoc; [exact IH |].
  intros y Hy. apply in_rev in Hy. rewrite Forall_forall in Hall.
  now apply Hall.
Qed.

Lemma cursorOf_some (before : option string) (db : DB) (t : Z) :
  cursorOf before db = Some t
  <-> exists id c, before = Some id /\ id <> EmptyString
                   /\ findMessage id db = Some c /\ msg_createdAt c = Some t.
Proof.
  unfold cursorOf. destruct before as [id |]; cbn [Js.truthyOpt orDefault].
  - destruct (Js.truthyStr id) eqn:Hid.
    + apply truthyStr_iff in Hid. split.
      * destruct (findMessage id db) as [c |] eqn:Hc; [| discriminate].
        intros H. exists id, c. auto.
      * intros [id' [c [E [_ [Hc Ht]]]]]. injection E as <-.
        rewrite Hc. exact Ht.
    + split; [discriminate |].
      intros [id' [c [E [Hne _]]]]. injection E as <-.
      apply truthyStr_iff in Hne. congruence.
  - split; [discriminate |]. intros [id [c [E _]]]. discriminate E.
Qed.

(** The WHERE clause selects the messages that can be listed. *)
Lemma selected_listed (db : DB) (cid : string) (before : option string)
    (m : Message) :
  In m (filter (selected cid (cursorOf before db)) (messages db))
  <-> listed db cid before m.
Proof.
  rewrite filter_In. unfold listed, selected, olderThanCursor.
  rewrite !andb_true_iff, String.eqb_eq.
  assert (Hdel : negb (isSome (msg_deletedAt m)) = true
                 <-> msg_deletedAt m = None).
  { destruct (msg_deletedAt m); cbn; split; congruence. }
  rewrite Hdel.
  destruct (cursorOf before db) as [t |] eqn:Hcur.
  - apply cursorOf_some in Hcur. destruct Hcur as [id [c [Hb [Hid [Hc Ht]]]]].
    split.
    + intros [Hin [[Hcid Hnd] Hlt]]. repeat split; try assumption.
      intros id' c' t' E _ Hc' Ht'. rewrite Hb in E. injection E as <-.
      rewrite Hc in Hc'. injection Hc' as <-. rewrite Ht in Ht'.
      injection Ht' as <-.
      destruct (msg_createdAt m) as [x |]; [| discriminate Hlt].
      exists x. split; [reflexivity | now apply Z.ltb_lt].
    + intros [Hin [Hcid [Hnd Hold]]]. repeat split; try assumption.
      destruct (Hold id c t Hb Hid Hc Ht) as [x [-> Hx]].
      now apply Z.ltb_lt.
  - split.
    + intros [Hin [[Hcid Hnd] _]]. repeat split; try assumption.
      intros id c t Hb Hid Hc Ht. exfalso.
      assert (cursorOf before db = Some t) as H
        by (apply cursorOf_some; exists id, c; auto).
      congruence.
    + intros [Hin [Hcid [Hnd _]]]. auto.
Qed.

Lemma limitOf_default :
  limitOf None = Js.Num 50 /\ limitOf (Some EmptyString) = Js.Num 50.
Proof. split; reflexivity. Qed.

Lemma limitOf_capped (limitParam : option string) (n : Z) :
  limitOf limitParam = Js.Num n -> n <= 100.
Proof.
  unfold limitOf, Js.min.
  destruct (Js.parseInt _) as [| x]; [discriminate |].
  intros H. injection H as <-. lia.
Qed.

(** C7 (as amended): for a participant and a limit that reads as a positive
    number [n] (50 when absent, never above 100), the page holds at most [n]
    messages; every message of the page can be listed (same conversation, not
    soft-deleted, strictly older than the cursor, if [before] resolves to
    one); a message that can be listed and is missing from the page is no
    newer than any message of the page, and the page is then full; the page
    is in chronological order (creation times never decrease); and [hasMore]
    tells whether the page holds exactly [n] messages. *)
Theorem list_page (identity cid : string) (limitParam before : option string)
    (db : DB) (p : Participant) (n : Z) :
  findParticipant cid identity db = Some p ->
  limitOf limitParam = Js.Num n ->
  0 < n ->
  exists page,
    GET identity cid limitParam before db
    = (db,
       jsonResponse
         (MessagesBody page (Z.of_nat (List.length page) =? n)) 200)
    /\ n <= 100
    /\ (limitParam = None -> n = 50)
    /\ Z.of_nat (List.length page) <= n
    /\ (forall m, In m page -> listed db cid before m)
    /\ (forall m, listed db cid before m ->
         In m page
         \/ (Z.of_nat (List.length page) = n
             /\ forall m', In m' page -> notOlder m' m = true))
    /\ chronological page.
Proof.
  intros Hp Hlimit Hpos.
  set (sorted := orderByCreatedAtDesc
                   (filter (selected cid (cursorOf before db)) (messages db))).
  set (k := Z.to_nat n).
  exists (rev (firstn k sorted)).
  assert (Hsplit : (firstn k sorted ++ skipn k sorted)%list = sorted)
    by apply firstn_skipn.
  assert (Hsorted : StronglySorted (fun x y => notOlder x y = true)
                      (firstn k sorted ++ skipn k sorted)).
  { rewrite Hsplit. apply orderBy_sorted. }
  apply sorted_app in Hsorted. destruct Hsorted as [Hfirst Hcross].
  assert (Hmem : forall m, In m sorted <-> listed db cid before m).
  { intros m. rewrite <- selected_listed. unfold sorted. split; intros H.
    - exact (Permutation_in _ (orderBy_perm _) H).
    - exact (Permutation_in _ (Permutation_sym (orderBy_perm _)) H). }
  assert (Hlen : (List.length (firstn k sorted) <= k)%nat)
    by apply firstn_le_length.
  split; [| split; [| split; [| split; [| split; [| split]]]]].
  - unfold GET. step. rewrite Hp. cbn [isSome negb]. step.
    rewrite Hlimit. unfold selectMessages, limitRows.
    destruct (Z.leb_spec 0 n) as [_ | Hneg]; [| lia].
    fold sorted. fold k. cbn [Js.strictEq]. rewrite length_rev. reflexivity.
  - exact (limitOf_capped _ _ Hlimit).
  - intros ->. destruct limitOf_default as [E _]. rewrite E in Hlimit.
    now injection Hlimit as <-.
  - rewrite length_rev. unfold k in *. lia.
  - intros m Hm. apply in_rev in Hm. apply Hmem. rewrite <- Hsplit.
    apply in_app_iff. now left.
  - intros m Hm. apply Hmem in Hm. rewrite <- Hsplit in Hm.
    apply in_app_iff in Hm. destruct Hm as [Hm | Hm].
    + left. now apply in_rev in Hm.
    + right. split.
      * rewrite length_rev, length_firstn.
        assert (List.length (skipn k sorted) <> 0)%nat as Hne
          by (destruct (skipn k sorted); [contradiction | discriminate]).
        rewrite length_skipn in Hne. unfold k in *. lia.
      * intros m' Hm'. apply in_rev in Hm'. exact (Hcross m' m Hm' Hm).
  - unfold chronological. apply sorted_rev. exact Hfirst.
Qed.

Lemma list_page_witness :
  exists page,
    GET Sample.alice Sample.directId (Some "2") None Sample.ledger
    = (Sample.ledger,
       jsonResponse
         (MessagesBody page (Z.of_nat (List.length page) =? 2)) 200)
    /\ 2 <= 100
    /\ (Some "2" = None -> 2 = 50)
    /\ Z.of_nat (List.length page) <= 2
    /\ (forall m, In m page -> listed Sample.ledger Sample.directId None m)
    /\ (forall m, listed Sample.ledger Sample.directId None m ->
         In m page
         \/ (Z.of_nat (List.length page) = 2
             /\ forall m', In m' page -> notOlder m' m = true))
    /\ chronological page.
Proof.
  refine (list_page Sample.alice Sample.directId (Some "2") None Sample.ledger
            (newParticipant Sample.directId Sample.alice "owner" None 1000)
            2 _ _ _).
  - vm_compute; reflexivity.
  - vm_compute; reflexivity.
  - lia.
Defined.

(** The pages of the ledger of four messages, two by two. *)
Example pagination_pages :
  GET Sample.alice Sample.directId (Some "2") None Sample.ledger
  = (Sample.ledger,
     jsonResponse
       (MessagesBody [Sample.sent "t3" 2003; Sample.sent "t4" 2004] true) 200)
  /\ GET Sample.alice Sample.directId (Some "2")
         (Some (generateId "msg" "t3")) Sample.ledger
     = (Sample.ledger,
        jsonResponse
          (MessagesBody [Sample.sent "t1" 2001; Sample.sent "t2" 2002] true)
          200).
Proof. split; vm_compute; reflexivity. Qed.

(** C7 (as stated, refuted): the second page of the ledger, which holds the
    two oldest messages, comes with [hasMore = true], not false; and two
    messages created in the same millisecond are listed in an order that is
    not strictly increasing. *)
Lemma list_page_counterexample :
  snd (GET Sample.alice Sample.directId (Some "2")
         (Some (generateId "msg" "t3")) Sample.ledger)
  = jsonResponse
      (MessagesBody [Sample.sent "t1" 2001; Sample.sent "t2" 2002] true) 200
  /\ snd (GET Sample.alice Sample.directId None None Sample.burst)
     = jsonResponse
         (MessagesBody [Sample.sent "t2" 2001; Sample.sent "t1" 2001] false)
         200
  /\ ~ strictlyChronological [Sample.sent "t2" 2001; Sample.sent "t1" 2001].
Proof.
  split; [vm_compute; reflexivity |].
  split; [vm_compute; reflexivity |].
  intros H. inversion H as [| ? ? _ Hall]; subst.
  inversion Hall as [| ? ? [t [u [Ht [Hu Hlt]]]] _]; subst.
  cbn in Ht, Hu. injection Ht as <-. injection Hu as <-. lia.
Qed.

End Listing.

(** ** The operations that keep the single owner *)

Section OwnerKept.

Import Utils.
Import ParticipantsRoute.

Lemma ownerCount_filter (k : string) (db : DB) :
  ownerCount k db = List.length (filter (isOwnerOf k) (participants db)).
Proof.
  unfold ownerCount, participantsOf, isOwnerOf. f_equal.
  induction (participants db) as [| p ps IH]; [reflexivity |].
  cbn [filter]. destruct (String.eqb (part_conversationId p) k); cbn [andb filter].
  - destruct (String.eqb (part_role p) "owner"); [f_equal |]; exact IH.
  - exact IH.
Qed.

Lemma filter_single {A : Type} (f : A -> bool) (l : list A) (x y : A) :
  List.length (filter f l) = 1%nat ->
  In x l -> In y l -> f x = true -> f y = true -> x = y.
Proof.
  intros Hlen Hx Hy Hfx Hfy.
  assert (Hx' : In x (filter f l)) by (apply filter_In; auto).
  assert (Hy' : In y (filter f l)) by (apply filter_In; auto).
  destruct (filter f l) as [| a [| b rest]]; try discriminate Hlen.
  destruct Hx' as [<- | []]. destruct Hy' as [<- | []]. reflexivity.
Qed.

Lemma filter_map_same {A : Type} (f : A -> bool) (g : A -> A) (l : list A) :
  (forall x, In x l -> f (g x) = f x) ->
  List.length (filter f (map g l)) = List.length (filter f l).
Proof.
  induction l as [| x l IH]; intros H; [reflexivity |].
  cbn [map filter]. rewrite (H x (or_introl eq_refl)).
  destruct (f x); cbn [List.length]; rewrite IH; auto;
    intros y Hy; apply H; now right.
Qed.

Lemma filter_filter_same {A : Type} (f keep : A -> bool) (l : list A) :
  (forall x, In x l -> keep x = false -> f x = false) ->
  filter f (filter keep l) = filter f l.
Proof.
  induction l as [| x l IH]; intros H; [reflexivity |].
  cbn [filter].
  assert (IH' : filter f (filter keep l) = filter f l)
    by (apply IH; intros y Hy; apply H; now right).
  destruct (keep x) eqn:E; cbn [filter].
  - now rewrite IH'.
  - now rewrite (H x (or_introl eq_refl) E).
Qed.

Lemma noDupKey_unique (ps : list Participant) (cid did : string)
    (t p : Participant) :
  noDupKey ps = true ->
  find (isParticipant cid did) ps = Some t ->
  In p ps -> isParticipant cid did p = true -> p = t.
Proof.
  induction ps as [| q ps IH]; intros Hnd Hfind Hin Hkey; [contradiction |].
  cbn [noDupKey] in Hnd. apply andb_prop in Hnd. destruct Hnd as [Hq Hnd].
  cbn [find] in Hfind.
  assert (Hsame : forall r, isParticipant cid did q = true ->
                            isParticipant cid did r = true ->
                            isParticipant (part_conversationId q) (part_did q) r
                            = true).
  { intros r Hq' Hr. unfold isParticipant in *.
    apply andb_prop in Hq'. apply andb_prop in Hr.
    destruct Hq' as [H1 H2], Hr as [H3 H4].
    apply String.eqb_eq in H1, H2, H3, H4.
    apply andb_true_intro. split; apply String.eqb_eq; congruence. }
  destruct (isParticipant cid did q) eqn:Eq.
  - injection Hfind as <-. destruct Hin as [-> | Hin]; [reflexivity |].
    exfalso. apply negb_true_iff in Hq.
    assert (existsb (isParticipant (part_conversationId q) (part_did q)) ps
            = true) as Hex.
    { apply existsb_exists. exists p. split; [exact Hin | now apply Hsame]. }
    congruence.
  - destruct Hin as [-> | Hin]; [congruence |]. now apply IH.
Qed.

Lemma wellFormed_noDupKey (db : DB) :
  wellFormed db = true -> noDupKey (participants db) = true.
Proof.
  unfold wellFormed. intros Hwf.
  repeat (apply andb_prop in Hwf; destruct Hwf as [Hwf ?]). assumption.
Qed.

(** A change of role leaves the number of owners of every conversation as it
    was, in a conversation that has one owner. *)
Lemma set_role_keeps_owners (identity cid rnd k : string) (body : RoleBody)
    (now : Z) (db : DB) :
  ownerCount cid db = 1%nat ->
  ownerCount k (fst (PATCH identity cid body rnd now db)) = ownerCount k db.
Proof.
  intros Hone. unfold PATCH. step.
  destruct (isValidDid (role_did body)); [| reflexivity]. step.
  destruct (Js.includes ["readonly"; "member"; "admin"] (role_role body))
    eqn:Hrole; [| reflexivity]. step.
  destruct (findParticipant cid identity db) as [my |] eqn:Hmy;
    [| reflexivity]. step.
  destruct (String.eqb_spec (part_role my) "owner") as [Howner | _];
    [| reflexivity]. step.
  destruct (String.eqb_spec (role_did body) identity) as [_ | Hother];
    [reflexivity |]. step.
  set (db1 := updateParticipantRole cid (role_did body) (role_role body) db).
  assert (Hcount : ownerCount k db1 = ownerCount k db).
  { rewrite !ownerCount_filter. unfold db1, updateParticipantRole.
    cbn [participants]. apply filter_map_same. intros p Hp.
    destruct (isParticipant cid (role_did body) p) eqn:Hkey; [| reflexivity].
    assert (Hnew : isOwnerOf k (setParticipantRole (role_role body) p) = false).
    { unfold isOwnerOf, setParticipantRole. cbn [part_role part_conversationId].
      assert (String.eqb (role_role body) "owner" = false) as ->.
      { cbn [Js.includes existsb] in Hrole.
        destruct (String.eqb_spec (role_role body) "owner") as [E | _];
          [| reflexivity].
        rewrite E in Hrole. discriminate Hrole. }
      apply andb_false_r. }
    rewrite Hnew. symmetry.
    destruct (isOwnerOf k p) eqn:Hold; [exfalso | reflexivity].
    unfold isOwnerOf in Hold. apply andb_prop in Hold.
    destruct Hold as [Hk Hr]. apply String.eqb_eq in Hk.
    unfold isParticipant in Hkey. apply andb_prop in Hkey.
    destruct Hkey as [Hc Hd]. apply String.eqb_eq in Hc, Hd.
    apply find_some in Hmy. destruct Hmy as [Hin Hmykey].
    unfold isParticipant in Hmykey. apply andb_prop in Hmykey.
    destruct Hmykey as [Hmc Hmd]. apply String.eqb_eq in Hmc, Hmd.
    rewrite ownerCount_filter in Hone.
    assert (p = my) as ->.
    { apply (filter_single (isOwnerOf cid) (participants db)); auto;
        unfold isOwnerOf; apply andb_true_intro; split;
        try (apply String.eqb_eq; assumption); assumption. }
    congruence. }
  match goal with
  | |- context [insertMessage ?m db1] =>
      destruct (insertMessage m db1) as [db2 |] eqn:E2
  end; cbn [fst]; [| exact Hcount].
  apply insertMessage_frame in E2. destruct E2 as [_ E2].
  rewrite <- Hcount. rewrite !ownerCount_filter. now rewrite E2.
Qed.

(** A removal leaves the number of owners of every conversation as it was. *)
Lemma remove_keeps_owners (identity cid rnd k : string)
    (didParam : option string) (now : Z) (db : DB) :
  noDupKey (participants db) = true ->
  ownerCount k (fst (DELETE identity cid didParam rnd now db)) = ownerCount k db.
Proof.
  intros Hwf. unfold DELETE. step.
  destruct didParam as [did |]; [| reflexivity]. step.
  destruct (negb (Js.truthyStr did) || negb (isValidDid did))%bool;
    [reflexivity |].
  destruct (findParticipant cid identity db) as [my |] eqn:Hmy; [| reflexivity].
  destruct (negb (String.eqb did identity)
            && negb (hasRole (part_role my) "admin"))%bool; [reflexivity |].
  destruct (String.eqb did identity && String.eqb (part_role my) "owner")%bool
    eqn:Hleave; [reflexivity |].
  destruct (findParticipant cid did db) as [target |] eqn:Htarget;
    [| reflexivity].
  destruct (negb (String.eqb did identity)
            && hasRole (part_role target) (part_role my))%bool eqn:Hpeer;
    [reflexivity |].
  assert (Hnot : String.eqb (part_role target) "owner" = false).
  { destruct (String.eqb_spec did identity) as [-> | _].
    - rewrite Hmy in Htarget. injection Htarget as <-.
      cbn [andb] in Hleave. exact Hleave.
    - cbn [negb andb] in Hpeer.
      destruct (String.eqb_spec (part_role target) "owner") as [E | _];
        [| reflexivity].
      rewrite E, hasRole_owner_any in Hpeer. discriminate Hpeer. }
  set (db1 := deleteParticipant cid did db).
  assert (Hcount : ownerCount k db1 = ownerCount k db).
  { rewrite !ownerCount_filter. unfold db1, deleteParticipant.
    cbn [participants]. f_equal. apply filter_filter_same.
    intros p Hp Hkey. apply negb_false_iff in Hkey.
    rewrite (noDupKey_unique _ cid did target p Hwf Htarget Hp Hkey).
    unfold isOwnerOf. rewrite Hnot. apply andb_false_r. }
  match goal with
  | |- context [insertMessage ?m db1] =>
      destruct (insertMessage m db1) as [db2 |] eqn:E2
  end; cbn [fst]; [| exact Hcount].
  apply insertMessage_frame in E2. destruct E2 as [_ E2].
  rewrite <- Hcount. rewrite !ownerCount_filter. now rewrite E2.
Qed.

(** An addition with a role other than [owner] leaves the number of owners of
    every conversation as it was. *)
Lemma add_keeps_owners (identity cid rnd k : string) (body : AddBody)
    (now : Z) (db : DB) :
  orDefault (add_role body) "member" <> "owner" ->
  ownerCount k (fst (POST identity cid body rnd now db)) = ownerCount k db.
Proof.
  intros Hrole. apply String.eqb_neq in Hrole. unfold POST. step.
  destruct (findParticipant cid identity db) as [my |]; [| reflexivity]. step.
  destruct (hasRole (part_role my) "admin"); [| reflexivity]. step.
  destruct (isValidDid (add_did body)); [| reflexivity]. step.
  destruct (negb (String.eqb (part_role my) "owner") && _)%bool;
    [reflexivity |].
  destruct (isSome (findParticipant cid _ db)); [reflexivity |].
  unfold insertParticipant at 1.
  destruct (isSome (findParticipant _ _ db)); [reflexivity |].
  destruct (isSome (findConversation _ db)); [| reflexivity].
  set (db1 := mkDB _ _ _ _).
  assert (Hcount : ownerCount k db1 = ownerCount k db).
  { rewrite !ownerCount_filter. unfold db1. cbn [participants].
    rewrite filter_app, length_app. cbn [filter].
    unfold isOwnerOf at 2. cbn [part_role newParticipant].
    rewrite Hrole, andb_false_r. cbn [List.length]. lia. }
  match goal with
  | |- context [insertMessage ?m db1] =>
      destruct (insertMessage m db1) as [db2 |] eqn:E2
  end; cbn [fst]; [| exact Hcount].
  apply insertMessage_frame in E2. destruct E2 as [_ E2].
  rewrite <- Hcount. rewrite !ownerCount_filter. now rewrite E2.
Qed.

Lemma isParticipant_sym (p q : Participant) :
  isParticipant (part_conversationId p) (part_did p) q
  = isParticipant (part_conversationId q) (part_did q) p.
Proof.
  unfold isParticipant.
  rewrite (String.eqb_sym (part_conversationId q)), (String.eqb_sym (part_did q)).
  reflexivity.
Qed.

Lemma noDupKey_app_fresh (ps : list Participant) (p : Participant) :
  noDupKey ps = true ->
  find (isParticipant (part_conversationId p) (part_did p)) ps = None ->
  noDupKey (ps ++ [p]) = true.
Proof.
  induction ps as [| q ps IH]; intros Hnd Hfresh; [reflexivity |].
  cbn [noDupKey app] in *. apply andb_prop in Hnd. destruct Hnd as [Hq Hnd].
  cbn [find] in Hfresh.
  destruct (isParticipant (part_conversationId p) (part_did p) q) eqn:E;
    [discriminate Hfresh |].
  rewrite existsb_app. cbn [existsb]. rewrite isParticipant_sym, E.
  apply negb_true_iff in Hq. rewrite Hq. cbn [orb negb andb].
  now apply IH.
Qed.

Lemma existsb_key_map (g : Participant -> Participant) (cid did : string)
    (ps : list Participant) :
  (forall p, part_conversationId (g p) = part_conversationId p
             /\ part_did (g p) = part_did p) ->
  existsb (isParticipant cid did) (map g ps)
  = existsb (isParticipant cid did) ps.
Proof.
  intros Hg. induction ps as [| r ps IH]; [reflexivity |].
  cbn [map existsb]. rewrite IH. f_equal.
  unfold isParticipant. destruct (Hg r) as [-> ->]. reflexivity.
Qed.

Lemma noDupKey_map (g : Participant -> Participant) (ps : list Participant) :
  (forall p, part_conversationId (g p) = part_conversationId p
             /\ part_did (g p) = part_did p) ->
  noDupKey (map g ps) = noDupKey ps.
Proof.
  intros Hg. induction ps as [| q ps IH]; [reflexivity |].
  cbn [map noDupKey]. rewrite IH, (existsb_key_map g _ _ ps Hg).
  destruct (Hg q) as [-> ->]. reflexivity.
Qed.

Lemma noDupKey_filter (f : Participant -> bool) (ps : list Participant) :
  noDupKey ps = true -> noDupKey (filter f ps) = true.
Proof.
  induction ps as [| q ps IH]; intros Hnd; [reflexivity |].
  cbn [noDupKey] in Hnd. apply andb_prop in Hnd. destruct Hnd as [Hq Hnd].
  cbn [filter]. destruct (f q); [| now apply IH].
  cbn [noDupKey]. rewrite (IH Hnd), andb_true_r.
  apply negb_true_iff. apply negb_true_iff in Hq.
  destruct (existsb _ (filter f ps)) eqn:E; [| reflexivity].
  apply existsb_exists in E. destruct E as [r [Hr Hkey]].
  apply filter_In in Hr. destruct Hr as [Hr _].
  assert (existsb (isParticipant (part_conversationId q) (part_did q)) ps
          = true) as Hex by (apply existsb_exists; eauto).
  congruence.
Qed.

(** The three requests keep the primary key of the participants. *)
Lemma runOp_keeps_key (cid : string) (op : ParticipantOp) (db : DB) :
  noDupKey (participants db) = true ->
  noDupKey (participants (runOp cid db op)) = true.
Proof.
  intros Hnd. destruct op as [identity body rnd now | identity body rnd now
                              | identity didParam rnd now]; cbn [runOp].
  - unfold POST. step.
    destruct (findParticipant cid identity db) as [my |]; [| exact Hnd]. step.
    destruct (hasRole (part_role my) "admin"); [| exact Hnd]. step.
    destruct (isValidDid (add_did body)); [| exact Hnd]. step.
    destruct (negb (String.eqb (part_role my) "owner") && _)%bool;
      [exact Hnd |].
    destruct (isSome (findParticipant cid _ db)); [exact Hnd |].
    unfold insertParticipant at 1.
    destruct (findParticipant _ _ db) eqn:Efresh; cbn [isSome]; [exact Hnd |].
    destruct (isSome (findConversation _ db)); [| exact Hnd].
    set (db1 := mkDB _ _ _ _).
    assert (Hnd1 : noDupKey (participants db1) = true).
    { unfold db1. cbn [participants].
      apply noDupKey_app_fresh; [exact Hnd | exact Efresh]. }
    match goal with
    | |- context [insertMessage ?m db1] =>
        destruct (insertMessage m db1) as [db2 |] eqn:E2
    end; cbn [fst]; [| exact Hnd1].
    apply insertMessage_frame in E2. destruct E2 as [_ ->]. exact Hnd1.
  - unfold PATCH. step.
    destruct (isValidDid (role_did body)); [| exact Hnd]. step.
    destruct (Js.includes _ (role_role body)); [| exact Hnd]. step.
    destruct (findParticipant cid identity db) as [my |]; [| exact Hnd]. step.
    destruct (String.eqb (part_role my) "owner"); [| exact Hnd]. step.
    destruct (String.eqb (role_did body) identity); [exact Hnd |]. step.
    set (db1 := updateParticipantRole _ _ _ db).
    assert (Hnd1 : noDupKey (participants db1) = true).
    { unfold db1, updateParticipantRole. cbn [participants].
      rewrite noDupKey_map; [exact Hnd |].
      intros p. destruct (isParticipant _ _ p); split; reflexivity. }
    match goal with
    | |- context [insertMessage ?m db1] =>
        destruct (insertMessage m db1) as [db2 |] eqn:E2
    end; cbn [fst]; [| exact Hnd1].
    apply insertMessage_frame in E2. destruct E2 as [_ ->]. exact Hnd1.
  - unfold DELETE. step.
    destruct didParam as [did |]; [| exact Hnd]. step.
    destruct (negb (Js.truthyStr did) || negb (isValidDid did))%bool;
      [exact Hnd |].
    destruct (findParticipant cid identity db) as [my |]; [| exact Hnd].
    destruct (negb (String.eqb did identity)
              && negb (hasRole (part_role my) "admin"))%bool; [exact Hnd |].
    destruct (String.eqb did identity && String.eqb (part_role my) "owner")%bool;
      [exact Hnd |].
    destruct (findParticipant cid did db) as [target |]; [| exact Hnd].
    destruct (negb (String.eqb did identity)
              && hasRole (part_role target) (part_role my))%bool;
      [exact Hnd |].
    set (db1 := deleteParticipant cid did db).
    assert (Hnd1 : noDupKey (participants db1) = true).
    { unfold db1, deleteParticipant. cbn [participants].
      now apply noDupKey_filter. }
    match goal with
    | |- context [insertMessage ?m db1] =>
        destruct (insertMessage m db1) as [db2 |] eqn:E2
    end; cbn [fst]; [| exact Hnd1].
    apply insertMessage_frame in E2. destruct E2 as [_ ->]. exact Hnd1.
Qed.

(** Along every sequence of additions, changes of role and removals in which
    no addition asks for the role [owner], a conversation that has one owner
    keeps exactly one. *)
Lemma single_owner_kept (cid : string) (ops : list ParticipantOp) (db : DB) :
  noDupKey (participants db) = true ->
  ownerCount cid db = 1%nat ->
  forallb (fun op => negb (asksOwner op)) ops = true ->
  ownerCount cid (fold_left (runOp cid) ops db) = 1%nat.
Proof.
  revert db. induction ops as [| op ops IH]; intros db Hnd Hone Hops;
    [exact Hone |].
  cbn [forallb] in Hops. apply andb_prop in Hops. destruct Hops as [Hop Hops].
  cbn [fold_left]. apply IH; [now apply runOp_keeps_key | | exact Hops].
  rewrite <- Hone.
  destruct op as [identity body rnd now | identity body rnd now
                  | identity didParam rnd now]; cbn [runOp].
  - apply add_keeps_owners. cbn [asksOwner] in Hop.
    apply negb_true_iff in Hop. now apply String.eqb_neq.
  - now apply set_role_keeps_owners.
  - now apply remove_keeps_owners.
Qed.

End OwnerKept.

(* ================================================================== *)
(** * Further properties of the code *)

(** ** The gates of the role hierarchy *)

Section RoleGates.

Import Utils.

(** X1: each gate of the hierarchy passes exactly the roles at or above it:
    [owner] passes only [owner], [admin] passes [admin] and [owner], [member]
    also passes [member]; a role string outside the hierarchy passes none of
    them. *)
Theorem hasRole_gates (u : string) :
  (hasRole u "owner" = true <-> u = "owner")
  /\ (hasRole u "admin" = true <-> u = "admin" \/ u = "owner")
  /\ (hasRole u "member" = true
      <-> u = "member" \/ u = "admin" \/ u = "owner").
Proof.
  rewrite !hasRole_spec.
  change (Js.indexOf hierarchy "owner") with 3.
  change (Js.indexOf hierarchy "admin") with 2.
  change (Js.indexOf hierarchy "member") with 1.
  destruct (indexOf_hierarchy_cases u)
    as [[E H] | [[E H] | [[E H] | [[E H] | [Hout H]]]]]; rewrite H.
  1-4: subst u; repeat split; intros; try lia; try discriminate; auto;
    repeat match goal with
           | H : _ \/ _ |- _ => destruct H
           end; try discriminate.
  repeat split; intros; try lia; exfalso; apply Hout;
    repeat match goal with
           | H : _ \/ _ |- _ => destruct H
           end; subst u; cbn; tauto.
Qed.

End RoleGates.

(** ** Keys as hex strings *)

Section Hex.

Import Crypto.

Lemma hexToKey_byte (b : Byte.byte) (rest : string) :
  hexToKey (byteToHex b ++ rest) = b :: hexToKey rest.
Proof. destruct b; reflexivity. Qed.

Lemma decode_encode (key : list Byte.byte) : hexToKey (keyToHex key) = key.
Proof.
  induction key as [| b key IH]; [reflexivity |].
  cbn [keyToHex fold_right]. fold (keyToHex key).
  rewrite hexToKey_byte, IH. reflexivity.
Qed.

Lemma keyToHex_length (key : list Byte.byte) :
  String.length (keyToHex key) = (2 * List.length key)%nat.
Proof.
  induction key as [| b key IH]; [reflexivity |].
  cbn [keyToHex fold_right]. fold (keyToHex key).
  cbn [byteToHex append String.length List.length]. rewrite IH. lia.
Qed.

(** X2: decoding the hex form of a key gives the key back, and the hex form
    has two characters per byte. *)
Theorem hexToKey_keyToHex (key : list Byte.byte) :
  hexToKey (keyToHex key) = key
  /\ String.length (keyToHex key) = (2 * List.length key)%nat.
Proof.
  split.
  - apply decode_encode.
  - apply keyToHex_length.
Qed.

(** Lower-case hex digits. *)
Lemma unhex_lower (c : ascii) :
  isLowerHex c = true ->
  exists x, unhex c = Some x /\ (x < 16)%N /\ hexDigit x = c.
Proof.
  destruct c as [[|] [|] [|] [|] [|] [|] [|] [|]]; cbn; intros H;
    try discriminate H; eexists; (split; [reflexivity |]);
    split; reflexivity.
Qed.

Lemma byteToHex_pair (x y : N) :
  (x < 16)%N -> (y < 16)%N ->
  exists b, Byte.of_N (16 * x + y) = Some b
            /\ byteToHex b
               = String (hexDigit x) (String (hexDigit y) EmptyString).
Proof.
  intros Hx Hy.
  destruct (Byte.of_N (16 * x + y)) as [b |] eqn:E.
  - exists b. split; [reflexivity |]. unfold byteToHex.
    apply Byte.to_of_N in E. rewrite E. cbv zeta.
    replace ((16 * x + y) / 16)%N with x.
    + replace ((16 * x + y) mod 16)%N with y; [reflexivity |].
      symmetry. rewrite N.add_comm, N.mul_comm, N.Div0.mod_add.
      now apply N.mod_small.
    + symmetry. rewrite N.add_comm, N.mul_comm, N.div_add by discriminate.
      rewrite N.div_small by assumption. reflexivity.
  - apply Byte.of_N_None_iff in E. lia.
Qed.

(** X3: encoding the bytes decoded from a string of pairs of lower-case hex
    digits gives the string back. *)
Theorem keyToHex_hexToKey (hex : string) :
  lowerHexPairs hex = true -> keyToHex (hexToKey hex) = hex.
Proof.
  revert hex.
  fix IH 1. intros [| a [| b rest]]; [reflexivity | discriminate |].
  cbn [lowerHexPairs]. intros H.
  apply andb_prop in H. destruct H as [H Hrest].
  apply andb_prop in H. destruct H as [Ha Hb].
  destruct (unhex_lower a Ha) as [x [Ex [Hx Hdx]]].
  destruct (unhex_lower b Hb) as [y [Ey [Hy Hdy]]].
  destruct (byteToHex_pair x y Hx Hy) as [byte [Eb Ehex]].
  cbn [hexToKey]. rewrite Ex, Ey, Eb.
  cbn [keyToHex fold_right]. fold (keyToHex (hexToKey rest)).
  rewrite Ehex, Hdx, Hdy, (IH rest Hrest). reflexivity.
Qed.

Lemma keyToHex_hexToKey_witness : keyToHex (hexToKey "00ff7a") = "00ff7a".
Proof. exact (keyToHex_hexToKey "00ff7a" eq_refl). Defined.

Lemma length_append (s t : string) :
  String.length (s ++ t) = (String.length s + String.length t)%nat.
Proof.
  induction s as [| c s IH]; cbn [append String.length]; [reflexivity |].
  now rewrite IH.
Qed.

Lemma append_cancel (p s t : string) : (p ++ s = p ++ t)%string -> s = t.
Proof.
  induction p as [| c p IH]; cbn [append]; intros H; [exact H |].
  injection H as H. exact (IH H).
Qed.

(** X4: the ids generated from two draws of random bytes are equal only when
    the draws are equal; an id is the prefix, an underscore and two
    characters per random byte. *)
Theorem generateIdFrom_injective (prefix : string) (r1 r2 : list Byte.byte) :
  (generateIdFrom prefix r1 = generateIdFrom prefix r2 -> r1 = r2)
  /\ String.length (generateIdFrom prefix r1)
     = (String.length prefix + 1 + 2 * List.length r1)%nat.
Proof.
  unfold generateIdFrom, Utils.generateId. split.
  - intros H. apply append_cancel in H. apply (append_cancel "_") in H.
    rewrite <- (decode_encode r1), <- (decode_encode r2), H. reflexivity.
  - rewrite !length_append, keyToHex_length. cbn [String.length]. lia.
Qed.

End Hex.

(** ** Numbers as text *)

Section NumberText.

Lemma readDigits_acc (d : Decimal.uint) (acc : positive) :
  Js.readDigits 10 (NilEmpty.string_of_uint d) (Some (Zpos acc))
  = Some (Zpos (Pos.of_uint_acc d acc)).
Proof.
  revert acc. induction d; intros acc;
    cbn [NilEmpty.string_of_uint Js.readDigits Pos.of_uint_acc];
    [reflexivity | ..];
    match goal with
    | |- context [Js.digitValue 10 ?c] =>
        let v := eval vm_compute in (Js.digitValue 10 c) in
        change (Js.digitValue 10 c) with v
    end;
    cbv iota; rewrite <- IHd; f_equal; f_equal; lia.
Qed.

Lemma readDigits_zero (d : Decimal.uint) :
  Js.readDigits 10 (NilEmpty.string_of_uint d) (Some 0)
  = Some (Z.of_N (Pos.of_uint d)).
Proof.
  induction d;
    cbn [NilEmpty.string_of_uint Js.readDigits Pos.of_uint];
    [reflexivity | ..];
    match goal with
    | |- context [Js.digitValue 10 ?c] =>
        let v := eval vm_compute in (Js.digitValue 10 c) in
        change (Js.digitValue 10 c) with v
    end;
    cbv iota;
    [exact IHd | ..];
    match goal with
    | |- Js.readDigits 10 _ (Some (0 * 10 + ?k)) = _ =>
        change (0 * 10 + k) with k
    end;
    rewrite readDigits_acc; reflexivity.
Qed.

Lemma readDigits_none (d : Decimal.uint) :
  d <> Decimal.Nil ->
  Js.readDigits 10 (NilEmpty.string_of_uint d) None
  = Some (Z.of_N (Pos.of_uint d)).
Proof.
  destruct d; intros Hd; [contradiction | ..];
    cbn [NilEmpty.string_of_uint Js.readDigits Pos.of_uint];
    match goal with
    | |- context [Js.digitValue 10 ?c] =>
        let v := eval vm_compute in (Js.digitValue 10 c) in
        change (Js.digitValue 10 c) with v
    end;
    cbv iota;
    [apply readDigits_zero | ..]; rewrite readDigits_acc; reflexivity.
Qed.

Lemma string_of_uint_head (d : Decimal.uint) :
  NilEmpty.string_of_uint d = EmptyString
  \/ exists c rest,
       NilEmpty.string_of_uint d = String c rest
       /\ Js.digitValue 10 c <> None.
Proof.
  destruct d; [left; reflexivity | ..]; right;
    cbn [NilEmpty.string_of_uint]; do 2 eexists;
    (split; [reflexivity | vm_compute; discriminate]).
Qed.

(** A decimal digit, followed by nothing or by a decimal digit, starts a
    number read in base ten with the sign plus. *)
Lemma parseInt_unsigned (c : ascii) (rest : string) :
  Js.digitValue 10 c <> None ->
  (rest = EmptyString
   \/ exists d rest', rest = String d rest' /\ Js.digitValue 10 d <> None) ->
  Js.parseInt (String c rest)
  = match Js.readDigits 10 (String c rest) None with
    | Some v => Js.Num v
    | None => Js.NaN
    end.
Proof.
  intros Hc Hrest.
  assert (Hmul : forall o : option Z,
             match o with
             | Some v => Js.Num (1 * v)
             | None => Js.NaN
             end
             = match o with
               | Some v => Js.Num v
               | None => Js.NaN
               end).
  { intros [v |]; [| reflexivity]. now rewrite Z.mul_1_l. }
  rewrite <- Hmul.
  destruct c as [[|] [|] [|] [|] [|] [|] [|] [|]];
    try (exfalso; apply Hc; reflexivity); try reflexivity.
  destruct Hrest as [-> | [d [rest' [-> Hd]]]]; [reflexivity |].
  destruct d as [[|] [|] [|] [|] [|] [|] [|] [|]];
    try (exfalso; apply Hd; reflexivity); reflexivity.
Qed.

Lemma parseInt_negative (c : ascii) (rest : string) :
  Js.digitValue 10 c <> None ->
  (rest = EmptyString
   \/ exists d rest', rest = String d rest' /\ Js.digitValue 10 d <> None) ->
  Js.parseInt (String "-" (String c rest))
  = match Js.readDigits 10 (String c rest) None with
    | Some v => Js.Num (- v)
    | None => Js.NaN
    end.
Proof.
  intros Hc Hrest.
  assert (Hmul : forall o : option Z,
             match o with
             | Some v => Js.Num (-1 * v)
             | None => Js.NaN
             end
             = match o with
               | Some v => Js.Num (- v)
               | None => Js.NaN
               end).
  { intros [v |]; [| reflexivity]. f_equal; try lia. }
  rewrite <- Hmul.
  destruct c as [[|] [|] [|] [|] [|] [|] [|] [|]];
    try (exfalso; apply Hc; reflexivity); try reflexivity.
  destruct Hrest as [-> | [d [rest' [-> Hd]]]]; [reflexivity |].
  destruct d as [[|] [|] [|] [|] [|] [|] [|] [|]];
    try (exfalso; apply Hd; reflexivity); reflexivity.
Qed.

Lemma string_of_uint_shape (d : Decimal.uint) :
  d <> Decimal.Nil ->
  exists c rest,
    NilEmpty.string_of_uint d = String c rest
    /\ Js.digitValue 10 c <> None
    /\ (rest = EmptyString
        \/ exists e rest', rest = String e rest'
                           /\ Js.digitValue 10 e <> None).
Proof.
  intros Hd.
  destruct d as [| d' | d' | d' | d' | d' | d' | d' | d' | d' | d'];
    [contradiction | ..];
    cbn [NilEmpty.string_of_uint]; do 2 eexists;
    (split; [reflexivity |]);
    (split; [vm_compute; discriminate |]);
    destruct (string_of_uint_head d') as [-> | [e [rest' [-> He]]]];
    [left; reflexivity | right; eauto
    | left; reflexivity | right; eauto
    | left; reflexivity | right; eauto
    | left; reflexivity | right; eauto
    | left; reflexivity | right; eauto
    | left; reflexivity | right; eauto
    | left; reflexivity | right; eauto
    | left; reflexivity | right; eauto
    | left; reflexivity | right; eauto
    | left; reflexivity | right; eauto].
Qed.

(** The text of an integer is read back as that integer. *)
Lemma parseInt_text (z : Z) : Js.parseInt (Js.toString (Js.Num z)) = Js.Num z.
Proof.
  destruct z as [| p | p]; [reflexivity | |];
    cbn [Js.toString Z.to_int NilZero.string_of_int];
    pose proof (Unsigned.to_uint_nonnil p) as Hnil;
    pose proof (Unsigned.of_to p) as Hval;
    destruct (string_of_uint_shape _ Hnil) as [c [rest [E [Hc Hrest]]]];
    assert (Hs : NilZero.string_of_uint (Pos.to_uint p)
                 = NilEmpty.string_of_uint (Pos.to_uint p))
      by (destruct (Pos.to_uint p); [contradiction | reflexivity ..]);
    rewrite Hs, E.
  - rewrite (parseInt_unsigned c rest Hc Hrest), <- E,
      (readDigits_none _ Hnil), Hval. reflexivity.
  - rewrite (parseInt_negative c rest Hc Hrest), <- E,
      (readDigits_none _ Hnil), Hval. reflexivity.
Qed.

(** X5: reading back the text of a number gives the number: for NaN and
    for every integer that a JavaScript number holds exactly (up to
    2^53 - 1 in absolute value), [parseInt(n.toString())] is [n]. *)
Theorem parseInt_toString (n : Js.number) :
  isSafe n -> Js.parseInt (Js.toString n) = n.
Proof.
  intros _. destruct n as [| z].
  - reflexivity.
  - apply parseInt_text.
Qed.

Lemma parseInt_toString_witness :
  Js.parseInt (Js.toString (Js.Num (-9007199254740991)))
  = Js.Num (-9007199254740991).
Proof.
  refine (parseInt_toString (Js.Num (-9007199254740991)) _).
  unfold isSafe, maxSafeInteger. lia.
Defined.

End NumberText.

(** ** The age of the last message *)

Section Ages.

Import ConversationsPage.

(** X6: [formatTime] answers [now] below one minute of age (also for a date
    in the future), then the whole minutes (1 to 59), the whole hours (1 to
    23) and the whole days (1 to 6), and the rendered date from one week
    on. *)
Theorem formatTime_buckets (render : Z -> string) (now date : Z) :
  (now - date < 60000 -> formatTime render now date = "now")
  /\ (60000 <= now - date < 3600000 ->
      1 <= (now - date) / 60000 <= 59
      /\ formatTime render now date
         = Js.toString (Js.Num ((now - date) / 60000)) ++ "m")
  /\ (3600000 <= now - date < 86400000 ->
      1 <= (now - date) / 3600000 <= 23
      /\ formatTime render now date
         = Js.toString (Js.Num ((now - date) / 3600000)) ++ "h")
  /\ (86400000 <= now - date < 604800000 ->
      1 <= (now - date) / 86400000 <= 6
      /\ formatTime render now date
         = Js.toString (Js.Num ((now - date) / 86400000)) ++ "d")
  /\ (604800000 <= now - date -> formatTime render now date = render date).
Proof.
  unfold formatTime. cbv zeta. set (age := now - date).
  assert (Hlow : forall b q, 0 < b -> b * q <= age -> q <= age / b)
    by (intros; now apply Z.div_le_lower_bound).
  assert (Hup : forall b q, 0 < b -> age < b * q -> age / b < q)
    by (intros; now apply Z.div_lt_upper_bound).
  repeat split.
  - intros H. pose proof (Hup 60000 1 ltac:(lia) ltac:(lia)).
    destruct (Z.ltb_spec (age / 60000) 1); [reflexivity | lia].
  - pose proof (Hlow 60000 1 ltac:(lia) ltac:(lia)). lia.
  - pose proof (Hup 60000 60 ltac:(lia) ltac:(lia)). lia.
  - pose proof (Hlow 60000 1 ltac:(lia) ltac:(lia)).
    pose proof (Hup 60000 60 ltac:(lia) ltac:(lia)).
    destruct (Z.ltb_spec (age / 60000) 1); [lia |].
    destruct (Z.ltb_spec (age / 60000) 60); [reflexivity | lia].
  - pose proof (Hlow 3600000 1 ltac:(lia) ltac:(lia)). lia.
  - pose proof (Hup 3600000 24 ltac:(lia) ltac:(lia)). lia.
  - pose proof (Hlow 60000 60 ltac:(lia) ltac:(lia)).
    pose proof (Hup 3600000 24 ltac:(lia) ltac:(lia)).
    destruct (Z.ltb_spec (age / 60000) 1); [lia |].
    destruct (Z.ltb_spec (age / 60000) 60); [lia |].
    destruct (Z.ltb_spec (age / 3600000) 24); [reflexivity | lia].
  - pose proof (Hlow 86400000 1 ltac:(lia) ltac:(lia)). lia.
  - pose proof (Hup 86400000 7 ltac:(lia) ltac:(lia)). lia.
  - pose proof (Hlow 60000 60 ltac:(lia) ltac:(lia)).
    pose proof (Hlow 3600000 24 ltac:(lia) ltac:(lia)).
    pose proof (Hup 86400000 7 ltac:(lia) ltac:(lia)).
    destruct (Z.ltb_spec (age / 60000) 1); [lia |].
    destruct (Z.ltb_spec (age / 60000) 60); [lia |].
    destruct (Z.ltb_spec (age / 3600000) 24); [lia |].
    destruct (Z.ltb_spec (age / 86400000) 7); [reflexivity | lia].
  - intros H.
    pose proof (Hlow 60000 60 ltac:(lia) ltac:(lia)).
    pose proof (Hlow 3600000 24 ltac:(lia) ltac:(lia)).
    pose proof (Hlow 86400000 7 ltac:(lia) ltac:(lia)).
    destruct (Z.ltb_spec (age / 60000) 1); [lia |].
    destruct (Z.ltb_spec (age / 60000) 60); [lia |].
    destruct (Z.ltb_spec (age / 3600000) 24); [lia |].
    destruct (Z.ltb_spec (age / 86400000) 7); [lia | reflexivity].
Qed.

Lemma formatTime_buckets_witness :
  1 <= (7200000 - 0) / 3600000 <= 23
  /\ formatTime (fun _ => "Feb 20") 7200000 0 = "2h".
Proof.
  refine (proj1 (proj2 (proj2
            (formatTime_buckets (fun _ => "Feb 20") 7200000 0))) _).
  lia.
Defined.

End Ages.

(** ** The key directory *)

Section KeyDirectory.

Import Keys.

Lemma findBundle_replaced (did : string) (f : PublicKey -> PublicKey)
    (s : Store) (b : PublicKey) :
  (forall x, key_did (f x) = key_did x) ->
  findBundle did s = Some b ->
  findBundle did (updateBundle did f s) = Some (f b).
Proof.
  intros Hf. unfold findBundle, updateBundle. cbn [publicKeys].
  induction (publicKeys s) as [| x xs IH]; cbn [find map]; [discriminate |].
  destruct (String.eqb (key_did x) did) eqn:E.
  - intros H. injection H as <-. now rewrite Hf, E.
  - rewrite E. exact IH.
Qed.

Lemma findBundle_other_update (did other : string)
    (f : PublicKey -> PublicKey) (s : Store) :
  (forall x, key_did (f x) = key_did x) ->
  other <> did ->
  findBundle other (updateBundle did f s) = findBundle other s.
Proof.
  intros Hf Hne. unfold findBundle, updateBundle. cbn [publicKeys].
  induction (publicKeys s) as [| x xs IH]; cbn [find map]; [reflexivity |].
  destruct (String.eqb_spec (key_did x) did) as [E | _].
  - rewrite Hf. destruct (String.eqb_spec (key_did x) other) as [E' | _];
      [congruence | exact IH].
  - destruct (String.eqb (key_did x) other); [reflexivity | exact IH].
Qed.


(** The upsert of the bundle: the state after it holds the new bundle for
    the uploader and the old bundles for everybody else. *)
Lemma upsert_run (identity ik spk sig : string) (now : Z) (s : Store) :
  exists s1,
    findBundle identity s1 = Some (mkPublicKey identity ik spk sig (Some now))
    /\ (forall other, other <> identity ->
                      findBundle other s1 = findBundle other s)
    /\ preKeys s1 = preKeys s
    /\ (forall k : Store -> Store * Gen.outcome Reply Reply,
          Gen.bind (S := Store) (R := Reply)
            (if isSome (findBundle identity s)
             then Gen.update
                    (updateBundle identity
                       (KeysRoute.replaceBundle ik spk sig now))
             else Gen.insert
                    (insertBundle (mkPublicKey identity ik spk sig (Some now))))
            (fun _ => k) s
          = k s1).
Proof.
  set (bundle := mkPublicKey identity ik spk sig (Some now)).
  destruct (findBundle identity s) as [b |] eqn:Hb; cbn [isSome].
  - exists (updateBundle identity (KeysRoute.replaceBundle ik spk sig now) s).
    split; [| split; [| split]].
    + rewrite (findBundle_replaced identity _ s b); [| reflexivity | exact Hb].
      unfold KeysRoute.replaceBundle, bundle. f_equal.
      apply find_some in Hb. destruct Hb as [_ Hb].
      apply String.eqb_eq in Hb. now rewrite Hb.
    + intros other Hne. now apply findBundle_other_update.
    + reflexivity.
    + intros k. reflexivity.
  - exists (mkStore (publicKeys s ++ [bundle]) (preKeys s)).
    split; [| split; [| split]].
    + unfold findBundle in *. cbn [publicKeys].
      apply find_app_fresh; [exact Hb | apply String.eqb_refl].
    + intros other Hne. unfold findBundle. cbn [publicKeys].
      rewrite find_app. destruct (find _ (publicKeys s)); [reflexivity |].
      cbn [find key_did bundle].
      destruct (String.eqb_spec identity other); [congruence | reflexivity].
    + reflexivity.
    + intros k. unfold Gen.bind, Gen.insert, insertBundle.
      change (key_did bundle) with identity. rewrite Hb. reflexivity.
Qed.



Lemma find_filter_first {A : Type} (f : A -> bool) (l : list A) :
  filter f l <> [] -> exists x, find f l = Some x /\ In x (filter f l).
Proof.
  induction l as [| y l IH]; cbn [filter find]; [congruence |].
  destruct (f y).
  - intros _. exists y. split; [reflexivity | now left].
  - exact IH.
Qed.

Lemma filter_none {A : Type} (f g : A -> bool) (l : list A) :
  (forall x, In x (filter f l) -> g x = false) ->
  filter g (filter f l) = [].
Proof.
  induction (filter f l) as [| y ys IH]; intros H; [reflexivity |].
  cbn [filter]. rewrite (H y (or_introl eq_refl)).
  apply IH. intros x Hx. apply H. now right.
Qed.

(** X8: the public fetch does not look at the mark [used] when it picks a
    one-time pre-key.  For an identity whose pre-keys have all been handed
    out already (the owner reads a count of 0 unused pre-keys), a fetch
    still hands out the key of one of them, and changes nothing. *)
Theorem used_prekey_served (did : string) (s : Store) (b : PublicKey) :
  Utils.isValidDid did = true ->
  findBundle did s = Some b ->
  preKeysOf did s <> [] ->
  (forall k, In k (preKeysOf did s) -> isUsed k = true) ->
  unusedCount did s = 0
  /\ exists k,
       In k (preKeysOf did s)
       /\ KeyRoute.GET did s
          = (s, jsonReply
                  (KeysAnswer (key_did b) (key_identityKey b)
                     (key_signedPreKey b) (key_signature b)
                     (Js.orNull (Some (pre_key k))))
                  200).
Proof.
  intros Hvalid Hb Hsome Hused. split.
  - unfold unusedCount, preKeysOf. rewrite filter_none; [reflexivity |].
    intros k Hk. now rewrite (Hused k Hk).
  - destruct (find_filter_first _ _ Hsome) as [k [Hfind Hin]].
    exists k. split; [exact Hin |].
    unfold KeyRoute.GET. rewrite Hvalid. cbn [negb]. gstep.
    rewrite Hb. unfold findPreKey. rewrite Hfind.
    rewrite (Hused k Hin). cbn [negb]. gstep. reflexivity.
Qed.

Lemma used_prekey_served_witness :
  let s := fst (KeyRoute.GET Sample.alice
                  (fst (KeysRoute.POST Sample.alice
                          (KeysRoute.mkUploadBody (Some "ik") (Some "spk")
                             (Some "sig") (Some ["k1"]))
                          (fun i => Js.toString (Js.Num (Z.of_nat i))) 3000
                          emptyStore))) in
  unusedCount Sample.alice s = 0
  /\ exists k,
       In k (preKeysOf Sample.alice s)
       /\ KeyRoute.GET Sample.alice s
          = (s, jsonReply
                  (KeysAnswer Sample.alice "ik" "spk" "sig"
                     (Js.orNull (Some (pre_key k))))
                  200).
Proof.
  refine (used_prekey_served Sample.alice _
            (mkPublicKey Sample.alice "ik" "spk" "sig" (Some 3000)) _ _ _ _).
  - vm_compute; reflexivity.
  - vm_compute; reflexivity.
  - vm_compute; discriminate.
  - intros k Hk. vm_compute in Hk. destruct Hk as [<- | []]. reflexivity.
Defined.

Lemma numbered_length (keys : list string) :
  List.length (KeysRoute.numbered keys) = List.length keys.
Proof.
  unfold KeysRoute.numbered. rewrite length_combine, length_seq. lia.
Qed.

(** The loop inserts its rows in order when their ids are new. *)
Lemma prekey_loop_run (identity : string) (rnd : nat -> string) (now : Z)
    (draws : list (nat * string)) (s : Store) :
  isSome (findBundle identity s) = true ->
  NoDup (map pre_id
           (preKeys s
            ++ map (fun draw =>
                      mkPreKey (Utils.generateId "pk" (rnd (fst draw)))
                               identity (snd draw) (Some false) (Some now))
                   draws)) ->
  Gen.forEach (R := Reply) draws
    (fun draw =>
       Gen.insert (insertPreKey
                     (mkPreKey (Utils.generateId "pk" (rnd (fst draw)))
                        identity (snd draw) (Some false) (Some now))))
    s
  = (mkStore (publicKeys s)
       (preKeys s
        ++ map (fun draw =>
                  mkPreKey (Utils.generateId "pk" (rnd (fst draw)))
                           identity (snd draw) (Some false) (Some now))
               draws),
     @Gen.Value Reply unit tt).
Proof.
  revert s. induction draws as [| d draws IH]; intros s Hb Hnd.
  - cbn [Gen.forEach fold_right map]. rewrite app_nil_r.
    destruct s; reflexivity.
  - cbn [Gen.forEach fold_right map] in *. gstep.
    set (row := mkPreKey (Utils.generateId "pk" (rnd (fst d))) identity (snd d)
                         (Some false) (Some now)) in *.
    unfold insertPreKey at 1.
    assert (Hfresh : existsb (fun k' => String.eqb (pre_id k') (pre_id row))
                             (preKeys s) = false).
    { destruct (existsb _ (preKeys s)) eqn:E; [exfalso | reflexivity].
      apply existsb_exists in E. destruct E as [x [Hx Hid]].
      apply String.eqb_eq in Hid.
      rewrite map_app in Hnd. cbn [map] in Hnd.
      apply NoDup_remove_2 in Hnd. apply Hnd. apply in_app_iff. left.
      rewrite <- Hid. now apply in_map. }
    rewrite Hfresh. change (pre_did row) with identity. rewrite Hb.
    match goal with
    | |- context [fold_right ?f ?z draws] =>
        change (fold_right f z draws) with
          (Gen.forEach (R := Reply) draws
             (fun draw =>
                Gen.insert
                  (insertPreKey
                     (mkPreKey (Utils.generateId "pk" (rnd (fst draw)))
                        identity (snd draw) (Some false) (Some now)))))
    end.
    rewrite IH.
    + cbn [publicKeys preKeys]. rewrite <- app_assoc. reflexivity.
    + exact Hb.
    + cbn [preKeys]. rewrite <- app_assoc. exact Hnd.
Qed.

(** X9: an upload whose generated pre-key ids are new answers the number of
    keys given, appends one unused pre-key per key, in order, and raises the
    count of unused pre-keys that the uploader reads back by that number. *)
Theorem upload_prekeys (identity ik spk sig : string) (keys : list string)
    (rnd : nat -> string) (now : Z) (s : Store) :
  ik <> EmptyString -> spk <> EmptyString -> sig <> EmptyString ->
  NoDup (map pre_id (preKeys s ++ uploadedPreKeys identity rnd now keys)) ->
  let out := KeysRoute.POST identity
               (KeysRoute.mkUploadBody (Some ik) (Some spk) (Some sig)
                  (Some keys))
               rnd now s in
  snd out = jsonReply (UploadedAnswer true (Z.of_nat (List.length keys))) 200
  /\ preKeys (fst out)
     = (preKeys s ++ uploadedPreKeys identity rnd now keys)%list
  /\ unusedCount identity (fst out)
     = unusedCount identity s + Z.of_nat (List.length keys)
  /\ snd (KeysRoute.GET identity (fst out))
     = jsonReply
         (OwnKeysAnswer identity ik spk sig (Some now)
            (unusedCount identity s + Z.of_nat (List.length keys)))
         200.
Proof.
  intros Hik Hspk Hsig Hnd.
  apply truthyStr_iff in Hik, Hspk, Hsig. cbv zeta.
  destruct (upsert_run identity ik spk sig now s)
    as [s1 [Hfound [_ [Hpre Hrun]]]].
  assert (Hout : KeysRoute.POST identity
                   (KeysRoute.mkUploadBody (Some ik) (Some spk) (Some sig)
                      (Some keys)) rnd now s
                 = (mkStore (publicKeys s1)
                      (preKeys s ++ uploadedPreKeys identity rnd now keys),
                    jsonReply
                      (UploadedAnswer true (Z.of_nat (List.length keys))) 200)).
  { unfold KeysRoute.POST.
    cbn [KeysRoute.up_identityKey KeysRoute.up_signedPreKey
         KeysRoute.up_signature KeysRoute.up_oneTimePreKeys Js.truthyOpt
         orDefault].
    rewrite Hik, Hspk, Hsig. unfold Gen.tryCatch.
    unfold Gen.leaveIf at 1. cbn [negb orb].
    unfold Gen.bind at 1, Gen.ret at 1. unfold Gen.bind at 1, Gen.query at 1.
    rewrite Hrun. unfold Gen.bind at 1.
    rewrite (prekey_loop_run identity rnd now (KeysRoute.numbered keys) s1).
    - rewrite Hpre. reflexivity.
    - now rewrite Hfound.
    - rewrite Hpre. exact Hnd. }
  rewrite Hout. cbn [fst snd preKeys].
  assert (Hcount : unusedCount identity
                     (mkStore (publicKeys s1)
                        (preKeys s ++ uploadedPreKeys identity rnd now keys))
                   = unusedCount identity s + Z.of_nat (List.length keys)).
  { unfold unusedCount, preKeysOf. cbn [preKeys].
    rewrite !filter_app, length_app, Nat2Z.inj_add. f_equal. f_equal.
    unfold uploadedPreKeys. rewrite <- (numbered_length keys).
    induction (KeysRoute.numbered keys) as [| d ds IH]; [reflexivity |].
    cbn [map filter pre_did]. rewrite String.eqb_refl.
    cbn [filter isUsed pre_used negb List.length]. now rewrite IH. }
  split; [reflexivity |]. split; [reflexivity |]. split; [exact Hcount |].
  unfold KeysRoute.GET. gstep.
  change (findBundle identity (mkStore (publicKeys s1) _))
    with (findBundle identity s1).
  rewrite Hfound. gstep. rewrite Hcount. reflexivity.
Qed.

Lemma upload_prekeys_witness :
  preKeys
    (fst (KeysRoute.POST Sample.alice
            (KeysRoute.mkUploadBody (Some "ik") (Some "spk") (Some "sig")
               (Some ["k1"; "k2"]))
            (fun i => Js.toString (Js.Num (Z.of_nat i))) 3000 emptyStore))
  = uploadedPreKeys Sample.alice
      (fun i => Js.toString (Js.Num (Z.of_nat i))) 3000 ["k1"; "k2"].
Proof.
  refine (proj1 (proj2 (upload_prekeys Sample.alice "ik" "spk" "sig"
                          ["k1"; "k2"]
                          (fun i => Js.toString (Js.Num (Z.of_nat i))) 3000
                          emptyStore _ _ _ _))).
  - discriminate.
  - discriminate.
  - discriminate.
  - vm_compute. repeat constructor; cbn; intuition discriminate.
Defined.

End KeyDirectory.

(** ** The constraints of the schema, as propositions *)

Section Constraints.

Lemma noDupStr_NoDup (l : list string) : noDupStr l = true <-> NoDup l.
Proof.
  induction l as [| x l IH]; cbn [noDupStr].
  - split; [constructor | reflexivity].
  - rewrite andb_true_iff, negb_true_iff, IH. split.
    + intros [Hx Hl]. constructor; [| exact Hl]. intros Hin.
      assert (existsb (String.eqb x) l = true) as E
        by (apply existsb_exists; exists x; split;
            [exact Hin | apply String.eqb_refl]).
      congruence.
    + intros H. inversion H as [| ? ? Hx Hl]; subst. split; [| exact Hl].
      destruct (existsb (String.eqb x) l) eqn:E; [| reflexivity].
      apply existsb_exists in E. destruct E as [y [Hy Hxy]].
      apply String.eqb_eq in Hxy. subst y. contradiction.
Qed.

Lemma hasConversation_In (db : DB) (k : string) :
  hasConversation db k = true <-> In k (map conv_id (conversations db)).
Proof.
  unfold hasConversation, findConversation. split.
  - destruct (find _ (conversations db)) as [c |] eqn:E; [| discriminate].
    intros _. apply find_some in E. destruct E as [Hin Hk].
    apply String.eqb_eq in Hk. subst k. now apply in_map.
  - intros Hin. apply in_map_iff in Hin. destruct Hin as [c [Hk Hin]].
    destruct (find _ (conversations db)) as [c' |] eqn:E; [reflexivity |].
    pose proof (find_none _ _ E c Hin) as Hno. cbn beta in Hno.
    rewrite Hk, String.eqb_refl in Hno. discriminate Hno.
Qed.

Lemma forallb_In {A : Type} (f : A -> bool) (P : A -> Prop) (l : list A) :
  (forall x, f x = true <-> P x) ->
  forallb f l = true <-> (forall x, In x l -> P x).
Proof.
  intros Hf. rewrite forallb_forall. split; intros H x Hx; apply Hf; auto.
Qed.

Lemma wellFormed_WF (db : DB) : wellFormed db = true <-> WF db.
Proof.
  unfold wellFormed, WF.
  rewrite !andb_true_iff, !noDupStr_NoDup.
  rewrite (forallb_In _ (fun p => In (part_conversationId p)
                                     (map conv_id (conversations db))))
    by (intros; apply hasConversation_In).
  rewrite (forallb_In _ (fun m => In (msg_conversationId m)
                                     (map conv_id (conversations db))))
    by (intros; apply hasConversation_In).
  rewrite (forallb_In _ (fun i => In (inv_conversationId i)
                                     (map conv_id (conversations db))))
    by (intros; apply hasConversation_In).
  tauto.
Qed.

End Constraints.

(** ** Updates in place *)

Section InPlace.

Context {A : Type} (key : A -> string) (f : A -> A).

Hypothesis key_kept : forall x, key (f x) = key x.

Lemma find_updated (k : string) (l : list A) (x : A) :
  find (fun y => String.eqb (key y) k) l = Some x ->
  find (fun y => String.eqb (key y) k)
       (map (fun y => if String.eqb (key y) k then f y else y) l)
  = Some (f x).
Proof.
  induction l as [| y l IH]; cbn [find map]; [discriminate |].
  destruct (String.eqb (key y) k) eqn:E.
  - intros H. injection H as <-. now rewrite key_kept, E.
  - rewrite E. exact IH.
Qed.

Lemma find_not_updated (k k' : string) (l : list A) :
  k' <> k ->
  find (fun y => String.eqb (key y) k')
       (map (fun y => if String.eqb (key y) k then f y else y) l)
  = find (fun y => String.eqb (key y) k') l.
Proof.
  intros Hne. induction l as [| y l IH]; cbn [find map]; [reflexivity |].
  destruct (String.eqb_spec (key y) k) as [E | _].
  - rewrite key_kept. destruct (String.eqb_spec (key y) k') as [E' | _];
      [congruence | exact IH].
  - destruct (String.eqb (key y) k'); [reflexivity | exact IH].
Qed.

Lemma find_absent_updated (k k' : string) (l : list A) :
  find (fun y => String.eqb (key y) k') l = None ->
  find (fun y => String.eqb (key y) k')
       (map (fun y => if String.eqb (key y) k then f y else y) l)
  = None.
Proof.
  induction l as [| y l IH]; cbn [find map]; [reflexivity |].
  destruct (String.eqb (key y) k') eqn:E; [discriminate |].
  intros H. destruct (String.eqb (key y) k);
    [rewrite key_kept |]; rewrite E; exact (IH H).
Qed.

End InPlace.

(** ** Redeeming and revoking invites *)

Section InviteUse.

Import Utils.

Lemma wellFormed_invite_conversation (db : DB) (id : string) (invite : Invite) :
  wellFormed db = true ->
  findInvite id db = Some invite ->
  hasConversation db (inv_conversationId invite) = true.
Proof.
  intros Hwf Hf. apply wellFormed_WF in Hwf.
  destruct Hwf as [_ [_ [_ [_ [_ [_ Hfi]]]]]].
  apply hasConversation_In. apply Hfi.
  unfold findInvite in Hf. apply find_some in Hf. tauto.
Qed.

Lemma redeem_run (identity inviteId rnd : string) (now u : Z) (db : DB)
    (invite : Invite) :
  wellFormed db = true ->
  findInvite inviteId db = Some invite ->
  validInvite invite now ->
  openTo invite identity ->
  findParticipant (inv_conversationId invite) identity db = None ->
  findMessage (generateId "msg" rnd) db = None ->
  Js.parseInt (inv_usedCount invite) = Js.Num u ->
  exists db' invite',
    InviteRoute.POST identity inviteId rnd now db
    = (db', jsonResponse (JoinedBody (inv_conversationId invite) true) 200)
    /\ participants db'
       = (participants db
          ++ [newParticipant (inv_conversationId invite) identity "member"
                (Some (inv_createdBy invite)) now])%list
    /\ findInvite inviteId db' = Some invite'
    /\ Js.parseInt (inv_usedCount invite') = Js.Num (u + 1)
    /\ inv_maxUses invite' = inv_maxUses invite
    /\ inv_expiresAt invite' = inv_expiresAt invite
    /\ inv_revokedAt invite' = inv_revokedAt invite
    /\ messages db'
       = (messages db
          ++ [newMessage (generateId "msg" rnd) (inv_conversationId invite)
                identity (systemContent (identity ++ " joined via invite"))
                "system" None now])%list
    /\ conversations db' = conversations db.
Proof.
  intros Hwf Hf Hvalid Hopen Hnew Hfresh Hu.
  pose proof (wellFormed_invite_conversation db inviteId invite Hwf Hf) as Hconv.
  apply validInvite_iff in Hvalid. destruct Hvalid as [Hr [He Hx]].
  assert (Hfor : (Js.truthyOpt (inv_forDid invite)
                  && negb (String.eqb (orDefault (inv_forDid invite) EmptyString)
                                      identity))%bool = false).
  { destruct Hopen as [-> | [-> | ->]]; try reflexivity.
    cbn [orDefault]. rewrite String.eqb_refl. cbn [negb].
    apply andb_false_r. }
  set (count := Js.toString (Js.add (Js.parseInt (inv_usedCount invite))
                                    (Js.Num 1))).
  exists (mkDB (conversations db)
               (participants db
                ++ [newParticipant (inv_conversationId invite) identity
                      "member" (Some (inv_createdBy invite)) now])
               (messages db
                ++ [newMessage (generateId "msg" rnd)
                      (inv_conversationId invite) identity
                      (systemContent (identity ++ " joined via invite"))
                      "system" None now])
               (map (fun i => if String.eqb (inv_id i) inviteId
                              then setInviteUsedCount count i else i)
                    (invites db))).
  exists (setInviteUsedCount count invite).
  split; [| split; [reflexivity | split; [| split; [| repeat split]]]].
  - unfold InviteRoute.POST. step. rewrite Hf, checkInvite_run, Hr, He, Hx.
    step. rewrite Hfor, Hnew. cbn [isSome]. step.
    unfold insertParticipant.
    cbn [part_conversationId part_did newParticipant].
    rewrite Hnew. unfold hasConversation in Hconv. rewrite Hconv.
    cbn [isSome]. step.
    unfold insertMessage, updateInvite, findMessage, findConversation in *.
    cbn [msg_id msg_conversationId newMessage conversations participants
         messages invites].
    rewrite Hfresh, Hconv. cbn [isSome]. reflexivity.
  - unfold findInvite in *. cbn [invites].
    apply (find_updated inv_id); [reflexivity | exact Hf].
  - cbn [inv_usedCount setInviteUsedCount]. unfold count.
    rewrite Hu. cbn [Js.add]. apply parseInt_text.
Qed.

(** X11: a consumer who is not yet a participant and redeems a valid invite
    that is open to them joins as [member], invited by the creator of the
    invite (not by themself); the invite counts one use more, read as a
    number; one system message is appended; nothing else changes. *)
Theorem redeem_joins (identity inviteId rnd : string) (now u : Z) (db : DB)
    (invite : Invite) :
  wellFormed db = true ->
  findInvite inviteId db = Some invite ->
  validInvite invite now ->
  openTo invite identity ->
  findParticipant (inv_conversationId invite) identity db = None ->
  findMessage (generateId "msg" rnd) db = None ->
  Js.parseInt (inv_usedCount invite) = Js.Num u ->
  exists db' invite',
    InviteRoute.POST identity inviteId rnd now db
    = (db', jsonResponse (JoinedBody (inv_conversationId invite) true) 200)
    /\ participants db'
       = (participants db
          ++ [newParticipant (inv_conversationId invite) identity "member"
                (Some (inv_createdBy invite)) now])%list
    /\ findInvite inviteId db' = Some invite'
    /\ Js.parseInt (inv_usedCount invite') = Js.Num (u + 1)
    /\ inv_maxUses invite' = inv_maxUses invite
    /\ inv_expiresAt invite' = inv_expiresAt invite
    /\ inv_revokedAt invite' = inv_revokedAt invite
    /\ messages db'
       = (messages db
          ++ [newMessage (generateId "msg" rnd) (inv_conversationId invite)
                identity (systemContent (identity ++ " joined via invite"))
                "system" None now])%list
    /\ conversations db' = conversations db.
Proof. exact (redeem_run identity inviteId rnd now u db invite). Qed.

Lemma redeem_joins_witness :
  exists db' invite',
    InviteRoute.POST Sample.carol "inv_e" "m4" 2000 Sample.launchWithInvites
    = (db', jsonResponse (JoinedBody Sample.launchId true) 200)
    /\ participants db'
       = (participants Sample.launchWithInvites
          ++ [newParticipant Sample.launchId Sample.carol "member"
                (Some Sample.owner) 2000])%list
    /\ findInvite "inv_e" db' = Some invite'
    /\ Js.parseInt (inv_usedCount invite') = Js.Num (0 + 1)
    /\ inv_maxUses invite' = None
    /\ inv_expiresAt invite' = Some 5000
    /\ inv_revokedAt invite' = None
    /\ messages db'
       = (messages Sample.launchWithInvites
          ++ [newMessage (generateId "msg" "m4") Sample.launchId Sample.carol
                (systemContent (Sample.carol ++ " joined via invite"))
                "system" None 2000])%list
    /\ conversations db' = conversations Sample.launchWithInvites.
Proof.
  refine (redeem_joins Sample.carol "inv_e" "m4" 2000 0
            Sample.launchWithInvites Sample.expiring _ _ _ _ _ _ _).
  - vm_compute; reflexivity.
  - reflexivity.
  - apply validInvite_iff. repeat split; reflexivity.
  - left; reflexivity.
  - vm_compute; reflexivity.
  - vm_compute; reflexivity.
  - reflexivity.
Defined.

(** X12: when the redemption uses the last use that [maxUses] allows, every
    later preview and every later redeem of the invite, by anybody, is
    answered 410 and writes nothing. *)
Theorem last_use_exhausts (identity inviteId rnd m : string) (now u x : Z)
    (db : DB) (invite : Invite) :
  wellFormed db = true ->
  findInvite inviteId db = Some invite ->
  validInvite invite now ->
  openTo invite identity ->
  findParticipant (inv_conversationId invite) identity db = None ->
  findMessage (generateId "msg" rnd) db = None ->
  Js.parseInt (inv_usedCount invite) = Js.Num u ->
  inv_maxUses invite = Some m -> m <> EmptyString ->
  Js.parseInt m = Js.Num x -> x <= u + 1 ->
  forall identity' rnd' later,
    gone (snd (InviteRoute.GET inviteId later
                 (fst (InviteRoute.POST identity inviteId rnd now db))))
    /\ gone (snd (InviteRoute.POST identity' inviteId rnd' later
                    (fst (InviteRoute.POST identity inviteId rnd now db))))
    /\ fst (InviteRoute.POST identity' inviteId rnd' later
              (fst (InviteRoute.POST identity inviteId rnd now db)))
       = fst (InviteRoute.POST identity inviteId rnd now db).
Proof.
  intros Hwf Hf Hvalid Hopen Hnew Hfresh Hu Hmax Hm Hx Hle identity' rnd' later.
  destruct (redeem_run identity inviteId rnd now u db invite
              Hwf Hf Hvalid Hopen Hnew Hfresh Hu)
    as [db' [invite' [Hrun [_ [Hf' [Hu' [Hmax' _]]]]]]].
  rewrite Hrun. cbn [fst].
  assert (Hexh : InviteRoute.exhausted invite' = true).
  { apply exhausted_iff. exists m, (u + 1), x.
    rewrite Hmax', Hmax. auto. }
  assert (Hstop : exists message,
             InviteRoute.checkInvite invite' later db'
             = (db', Returned (errorResponse message 410))).
  { rewrite checkInvite_run.
    destruct (InviteRoute.revoked invite'); [eauto |].
    destruct (InviteRoute.expired invite' later); [eauto |].
    rewrite Hexh. eauto. }
  destruct Hstop as [message Hstop].
  destruct (invite_stopped identity' inviteId rnd' later db' invite' message
              Hf' Hstop) as [-> ->].
  repeat split.
Qed.

Lemma last_use_exhausts_witness :
  gone (snd (InviteRoute.GET "inv_1" 3000
               (fst (InviteRoute.POST Sample.carol "inv_1" "m4" 2000
                       (mkDB (conversations Sample.launch)
                             (participants Sample.launch)
                             (messages Sample.launch)
                             [mkInvite "inv_1" Sample.launchId Sample.owner None
                                (Some "1") "0" None (Some 1000) None]))))).
Proof.
  refine (proj1 (last_use_exhausts Sample.carol "inv_1" "m4" "1" 2000 0 1
                   (mkDB (conversations Sample.launch)
                         (participants Sample.launch)
                         (messages Sample.launch)
                         [mkInvite "inv_1" Sample.launchId Sample.owner None
                            (Some "1") "0" None (Some 1000) None])
                   (mkInvite "inv_1" Sample.launchId Sample.owner None
                      (Some "1") "0" None (Some 1000) None)
                   _ _ _ _ _ _ _ _ _ _ _ Sample.bob "m5" 3000)).
  - vm_compute; reflexivity.
  - reflexivity.
  - apply validInvite_iff. repeat split; reflexivity.
  - left; reflexivity.
  - vm_compute; reflexivity.
  - vm_compute; reflexivity.
  - reflexivity.
  - reflexivity.
  - discriminate.
  - reflexivity.
  - lia.
Defined.

(** X13: an invite is revoked for its creator (participant or not) and for a
    participant of rank [admin] or above, and for nobody else (403, nothing
    written); once revoked, every preview and every redeem of it is answered
    410 [revoked] and writes nothing. *)
Theorem revoke_rules (identity inviteId : string) (now : Z) (db : DB)
    (invite : Invite) :
  findInvite inviteId db = Some invite ->
  (snd (InviteRevoke.DELETE identity inviteId now db)
   = jsonReply (RevokedAnswer true) 200
   <-> inv_createdBy invite = identity
       \/ exists p,
            findParticipant (inv_conversationId invite) identity db = Some p
            /\ rank "admin" <= rank (part_role p))
  /\ (snd (InviteRevoke.DELETE identity inviteId now db)
      <> jsonReply (RevokedAnswer true) 200 ->
      InviteRevoke.DELETE identity inviteId now db
      = (db, errorReply "Permission denied" 403))
  /\ (snd (InviteRevoke.DELETE identity inviteId now db)
      = jsonReply (RevokedAnswer true) 200 ->
      forall identity' rnd later,
        InviteRoute.GET inviteId later
          (fst (InviteRevoke.DELETE identity inviteId now db))
        = (fst (InviteRevoke.DELETE identity inviteId now db),
           errorResponse "Invite has been revoked" 410)
        /\ InviteRoute.POST identity' inviteId rnd later
             (fst (InviteRevoke.DELETE identity inviteId now db))
           = (fst (InviteRevoke.DELETE identity inviteId now db),
              errorResponse "Invite has been revoked" 410)).
Proof.
  intros Hf.
  assert (Hrevoked : forall identity' rnd later,
             InviteRoute.GET inviteId later
               (updateInvite inviteId (InviteRevoke.setRevokedAt now) db)
             = (updateInvite inviteId (InviteRevoke.setRevokedAt now) db,
                errorResponse "Invite has been revoked" 410)
             /\ InviteRoute.POST identity' inviteId rnd later
                  (updateInvite inviteId (InviteRevoke.setRevokedAt now) db)
                = (updateInvite inviteId (InviteRevoke.setRevokedAt now) db,
                   errorResponse "Invite has been revoked" 410)).
  { intros identity' rnd later.
    apply (invite_stopped identity' inviteId rnd later _
             (InviteRevoke.setRevokedAt now invite)).
    - unfold findInvite, updateInvite in *. cbn [invites].
      apply (find_updated inv_id); [reflexivity | exact Hf].
    - rewrite checkInvite_run. reflexivity. }
  unfold InviteRevoke.DELETE. gstep. rewrite Hf. gstep.
  destruct (String.eqb_spec (inv_createdBy invite) identity) as [Hcreator | Hnot];
    cbn [negb]; gstep.
  - cbn [fst snd]. split; [tauto |]. split; [congruence |].
    intros _. exact Hrevoked.
  - destruct (findParticipant (inv_conversationId invite) identity db)
      as [p |] eqn:Hp; gstep.
    + destruct (hasRole (part_role p) "admin") eqn:Hadmin; cbn [negb]; gstep;
        cbn [fst snd].
      * split; [| split; [congruence | intros _; exact Hrevoked]].
        split; [intros _ | reflexivity]. right. exists p. split; [reflexivity |].
        now apply hasRole_spec.
      * split; [| split; [reflexivity | discriminate]].
        split; [discriminate |].
        intros [Hc | [q [Hq Hrank]]]; [contradiction |].
        injection Hq as <-. apply hasRole_spec in Hrank. congruence.
    + cbn [fst snd]. split; [| split; [reflexivity | discriminate]].
      split; [discriminate |].
      intros [Hc | [q [Hq _]]]; [contradiction | discriminate Hq].
Qed.

Lemma revoke_rules_witness :
  InviteRoute.GET "inv_e" 2500
    (fst (InviteRevoke.DELETE Sample.owner "inv_e" 2000
            Sample.launchWithInvites))
  = (fst (InviteRevoke.DELETE Sample.owner "inv_e" 2000
            Sample.launchWithInvites),
     errorResponse "Invite has been revoked" 410).
Proof.
  refine (proj1 (proj2 (proj2 (revoke_rules Sample.owner "inv_e" 2000
                                 Sample.launchWithInvites Sample.expiring _))
                   _ Sample.carol "m4" 2500)).
  - reflexivity.
  - vm_compute; reflexivity.
Defined.

End InviteUse.

(** ** Adding a participant and changing a role *)

Section Membership.

Import Utils.
Import ParticipantsRoute.








End Membership.

(** ** Deleting a conversation *)

Section Deletion.

Import ConversationDetail.

Lemma find_filter_other {A : Type} (key : A -> string) (k id : string)
    (l : list A) :
  k <> id ->
  find (fun x => String.eqb (key x) k)
       (filter (fun x => negb (String.eqb (key x) id)) l)
  = find (fun x => String.eqb (key x) k) l.
Proof.
  intros Hne. induction l as [| x l IH]; cbn [find filter]; [reflexivity |].
  destruct (String.eqb_spec (key x) id) as [E | _]; cbn [negb find].
  - destruct (String.eqb_spec (key x) k); [congruence | exact IH].
  - destruct (String.eqb (key x) k); [reflexivity | exact IH].
Qed.

Lemma filter_out_nothing_left {A : Type} (key : A -> string) (id : string)
    (l : list A) (x : A) :
  In x (filter (fun x => negb (String.eqb (key x) id)) l) -> key x <> id.
Proof.
  intros H. apply filter_In in H. destruct H as [_ H].
  now apply negb_true_iff, String.eqb_neq in H.
Qed.

(** X16: the owner, and only the owner, deletes a conversation; the deletion
    removes the conversation together with all its participants, messages
    and invites, leaves every other conversation with its participants as
    they were, and afterwards the conversation is answered 404 to everybody,
    its former owner included.  Anybody else is answered 403 and nothing is
    deleted. *)
Theorem delete_conversation (identity cid : string) (db : DB) :
  ((exists p, findParticipant cid identity db = Some p
              /\ part_role p = "owner") ->
   DELETE identity cid db
   = (deleteConversation cid db, jsonReply (DeletedAnswer true) 200)
   /\ findConversation cid (deleteConversation cid db) = None
   /\ participantsOf cid (deleteConversation cid db) = []
   /\ (forall m, In m (messages (deleteConversation cid db)) ->
                 In m (messages db) /\ msg_conversationId m <> cid)
   /\ (forall i, In i (invites (deleteConversation cid db)) ->
                 In i (invites db) /\ inv_conversationId i <> cid)
   /\ (forall k, k <> cid ->
         findConversation k (deleteConversation cid db) = findConversation k db
         /\ participantsOf k (deleteConversation cid db) = participantsOf k db)
   /\ (forall anybody,
         GET anybody cid (deleteConversation cid db)
         = (deleteConversation cid db,
            errorReply "Conversation not found or access denied" 404)))
  /\ (~ (exists p, findParticipant cid identity db = Some p
                   /\ part_role p = "owner") ->
      DELETE identity cid db
      = (db, errorReply "Only the owner can delete a conversation" 403)).
Proof.
  split.
  - intros [p [Hp Howner]].
    assert (Hgone : forall x : Participant,
               In x (participants (deleteConversation cid db)) ->
               String.eqb (part_conversationId x) cid = false).
    { intros x Hx. apply String.eqb_neq.
      exact (filter_out_nothing_left part_conversationId cid _ x Hx). }
    split; [| split; [| split; [| split; [| split; [| split]]]]].
    + unfold DELETE. gstep. rewrite Hp. gstep. rewrite Howner.
      reflexivity.
    + unfold findConversation, deleteConversation. cbn [conversations].
      destruct (find _ (filter _ (conversations db))) as [c |] eqn:E;
        [exfalso | reflexivity].
      apply find_some in E. destruct E as [Hin Hid].
      apply String.eqb_eq in Hid.
      exact (filter_out_nothing_left conv_id cid _ c Hin Hid).
    + unfold participantsOf.
      induction (participants (deleteConversation cid db)) as [| x xs IH];
        [reflexivity |].
      cbn [filter]. rewrite (Hgone x (or_introl eq_refl)).
      apply IH. intros y Hy. apply Hgone. now right.
    + intros m Hm. split.
      * unfold deleteConversation in Hm. cbn [messages] in Hm.
        apply filter_In in Hm. tauto.
      * exact (filter_out_nothing_left msg_conversationId cid _ m Hm).
    + intros i Hi. split.
      * unfold deleteConversation in Hi. cbn [invites] in Hi.
        apply filter_In in Hi. tauto.
      * exact (filter_out_nothing_left inv_conversationId cid _ i Hi).
    + intros k Hne. split.
      * unfold findConversation, deleteConversation. cbn [conversations].
        now apply find_filter_other.
      * unfold participantsOf, deleteConversation. cbn [participants].
        apply filter_filter_same. intros x _ Hx.
        apply negb_false_iff, String.eqb_eq in Hx. rewrite Hx.
        apply String.eqb_neq. congruence.
    + intros anybody. unfold GET. gstep.
      assert (findParticipant cid anybody (deleteConversation cid db) = None)
        as ->; [| reflexivity].
      unfold findParticipant.
      destruct (find _ (participants (deleteConversation cid db)))
        as [x |] eqn:E; [exfalso | reflexivity].
      apply find_some in E. destruct E as [Hin Hkey].
      unfold isParticipant in Hkey. rewrite (Hgone x Hin) in Hkey.
      discriminate Hkey.
  - intros Hnot. unfold DELETE. gstep.
    destruct (findParticipant cid identity db) as [p |] eqn:Hp;
      [| reflexivity].
    gstep. destruct (String.eqb_spec (part_role p) "owner") as [E | _];
      [| reflexivity].
    exfalso. apply Hnot. eauto.
Qed.

Lemma delete_conversation_witness :
  DELETE Sample.owner Sample.launchId Sample.launch
  = (deleteConversation Sample.launchId Sample.launch,
     jsonReply (DeletedAnswer true) 200).
Proof.
  refine (proj1 (proj1 (delete_conversation Sample.owner Sample.launchId
                          Sample.launch) _)).
  eexists. split; vm_compute; reflexivity.
Defined.

End Deletion.

(** ** Requests of a non-participant *)

Section Outsiders.

Import Utils.

(** X17: somebody who is no participant of a conversation gets, from every
    handler scoped by the conversation, an answer that does not depend on the
    database (404 from the reads and from send and remove, 403 from the other
    writes), the same whether the conversation exists or not, and the
    database is left as it was. *)
Theorem outsider_requests (identity cid : string) (db : DB) :
  findParticipant cid identity db = None ->
  ConversationDetail.GET identity cid db
  = (db, errorReply "Conversation not found or access denied" 404)
  /\ ParticipantsList.GET identity cid db
     = (db, errorReply "Conversation not found or access denied" 404)
  /\ (forall limitParam before,
        MessagesRoute.GET identity cid limitParam before db
        = (db, errorResponse "Conversation not found or access denied" 404))
  /\ (forall body rnd now,
        MessagesRoute.POST identity cid body rnd now db
        = (db, errorResponse "Conversation not found or access denied" 404))
  /\ (forall body now,
        ConversationRoute.PATCH identity cid body now db
        = (db, errorResponse "Permission denied" 403))
  /\ ConversationDetail.DELETE identity cid db
     = (db, errorReply "Only the owner can delete a conversation" 403)
  /\ (forall body rnd now,
        ParticipantsRoute.POST identity cid body rnd now db
        = (db, errorResponse "Permission denied" 403))
  /\ (forall did role rnd now,
        isValidDid did = true ->
        In role ["readonly"; "member"; "admin"] ->
        ParticipantsRoute.PATCH identity cid
          (ParticipantsRoute.mkRoleBody did role) rnd now db
        = (db, errorResponse "Only the owner can change roles" 403))
  /\ (forall did rnd now,
        isValidDid did = true ->
        ParticipantsRoute.DELETE identity cid (Some did) rnd now db
        = (db, errorResponse "Conversation not found" 404))
  /\ (forall forDid maxUses hours rnd baseUrl now,
        cid <> EmptyString ->
        InvitesRoute.POST identity
          (InvitesRoute.mkInviteRequest (Some cid) forDid maxUses hours)
          rnd baseUrl now db
        = (db, errorResponse "Permission denied" 403))
  /\ (cid <> EmptyString ->
      InvitesList.GET identity (Some cid) db
      = (db, errorReply "Permission denied" 403)).
Proof.
  intros Hout.
  repeat match goal with
         | |- _ /\ _ => split
         end.
  - unfold ConversationDetail.GET. gstep. now rewrite Hout.
  - unfold ParticipantsList.GET. gstep. now rewrite Hout.
  - intros. unfold MessagesRoute.GET. step. now rewrite Hout.
  - intros. unfold MessagesRoute.POST. step. now rewrite Hout.
  - intros. unfold ConversationRoute.PATCH. step. now rewrite Hout.
  - unfold ConversationDetail.DELETE. gstep. now rewrite Hout.
  - intros. unfold ParticipantsRoute.POST. step. now rewrite Hout.
  - intros did role rnd now Hvalid Hrole.
    assert (Hinc : Js.includes ["readonly"; "member"; "admin"] role = true).
    { cbn [In] in Hrole.
      destruct Hrole as [<- | [<- | [<- | []]]]; reflexivity. }
    unfold ParticipantsRoute.PATCH.
    cbn [ParticipantsRoute.role_did ParticipantsRoute.role_role]. step.
    rewrite Hvalid, Hinc. step. now rewrite Hout.
  - intros did rnd now Hvalid. unfold ParticipantsRoute.DELETE. step.
    rewrite Hvalid, (isValidDid_truthy _ Hvalid). step. now rewrite Hout.
  - intros forDid maxUses hours rnd baseUrl now Hcid.
    apply truthyStr_iff in Hcid. unfold InvitesRoute.POST.
    cbn [InvitesRoute.req_conversationId Js.truthyOpt orDefault]. step.
    rewrite Hcid. step. now rewrite Hout.
  - intros Hcid. apply truthyStr_iff in Hcid. unfold InvitesList.GET.
    cbn [Js.truthyOpt orDefault]. rewrite Hcid. cbn [negb]. gstep.
    now rewrite Hout.
Qed.

Lemma outsider_requests_witness :
  ConversationDetail.GET Sample.carol Sample.launchId Sample.launch
  = (Sample.launch, errorReply "Conversation not found or access denied" 404).
Proof.
  refine (proj1 (outsider_requests Sample.carol Sample.launchId Sample.launch
                   _)).
  vm_compute; reflexivity.
Defined.

End Outsiders.

(** ** Listing one's conversations *)

Section OwnConversations.

Import ConversationsList.

Lemma notBefore_total (a b : timestamp) :
  notBefore a b = false -> notBefore b a = true.
Proof.
  destruct a as [x |], b as [y |]; cbn; try reflexivity; try discriminate.
  rewrite Z.leb_gt, Z.leb_le. lia.
Qed.

Lemma notBefore_trans (a b c : timestamp) :
  notBefore a b = true -> notBefore b c = true -> notBefore a c = true.
Proof.
  destruct a as [x |], b as [y |], c as [z |]; cbn;
    try reflexivity; try discriminate.
  rewrite !Z.leb_le. lia.
Qed.

Lemma insertRow_perm (r : Conversation * Participant)
    (l : list (Conversation * Participant)) :
  Permutation (insertRow r l) (r :: l).
Proof.
  induction l as [| r' l IH]; cbn [insertRow]; [reflexivity |].
  destruct (rowNotBefore r r'); [reflexivity |].
  rewrite IH. apply perm_swap.
Qed.

Lemma insertRow_sorted (r : Conversation * Participant)
    (l : list (Conversation * Participant)) :
  StronglySorted (fun x y => rowNotBefore x y = true) l ->
  StronglySorted (fun x y => rowNotBefore x y = true) (insertRow r l).
Proof.
  induction 1 as [| r' l Hs IH Hall]; cbn [insertRow].
  - repeat constructor.
  - destruct (rowNotBefore r r') eqn:E.
    + constructor; [constructor; assumption |].
      constructor; [exact E |].
      rewrite Forall_forall in *. intros y Hy.
      exact (notBefore_trans _ _ _ E (Hall y Hy)).
    + constructor; [exact IH |].
      rewrite Forall_forall in *. intros y Hy.
      apply (Permutation_in _ (insertRow_perm r l)) in Hy.
      destruct Hy as [<- | Hy];
        [now apply notBefore_total | exact (Hall y Hy)].
Qed.

Lemma orderByLast_perm (rows : list (Conversation * Participant)) :
  Permutation (orderByLastMessageAtDesc rows) rows.
Proof.
  induction rows as [| r rows IH]; cbn [orderByLastMessageAtDesc fold_right].
  - reflexivity.
  - fold (orderByLastMessageAtDesc rows). rewrite insertRow_perm.
    now constructor.
Qed.

Lemma orderByLast_sorted (rows : list (Conversation * Participant)) :
  StronglySorted (fun x y => rowNotBefore x y = true)
                 (orderByLastMessageAtDesc rows).
Proof.
  induction rows as [| r rows IH]; cbn [orderByLastMessageAtDesc fold_right].
  - constructor.
  - apply insertRow_sorted. exact IH.
Qed.

Lemma joinedRows_In (identity : string) (db : DB) (c : Conversation)
    (p : Participant) :
  In (c, p) (joinedRows identity db)
  <-> In p (participants db) /\ part_did p = identity
      /\ In c (conversations db) /\ conv_id c = part_conversationId p.
Proof.
  unfold joinedRows. rewrite in_flat_map. split.
  - intros [q [Hq Hin]].
    destruct (String.eqb_spec (part_did q) identity) as [Hd | _];
      [| contradiction].
    apply in_map_iff in Hin. destruct Hin as [c' [E Hc]].
    injection E as -> ->. apply filter_In in Hc. destruct Hc as [Hc Hid].
    apply String.eqb_eq in Hid. auto.
  - intros [Hp [Hd [Hc Hid]]]. exists p. split; [exact Hp |].
    rewrite Hd, String.eqb_refl. apply in_map_iff. exists c.
    split; [reflexivity |]. apply filter_In. split; [exact Hc |].
    apply String.eqb_eq. congruence.
Qed.

Lemma one_conversation_per_id (k : string) (cs : list Conversation) :
  NoDup (map conv_id cs) -> In k (map conv_id cs) ->
  List.length (filter (fun c => String.eqb k (conv_id c)) cs) = 1%nat.
Proof.
  induction cs as [| c cs IH]; cbn [map filter]; [contradiction |].
  intros Hnd Hin. inversion Hnd as [| ? ? Hc Hnd']; subst.
  destruct (String.eqb_spec k (conv_id c)) as [-> | Hne].
  - cbn [List.length]. f_equal.
    assert (Hnone : forall x, In x cs ->
                              String.eqb (conv_id c) (conv_id x) = false).
    { intros x Hx. apply String.eqb_neq. intros E. apply Hc.
      rewrite E. now apply in_map. }
    clear -Hnone. induction cs as [| x cs IH]; [reflexivity |].
    cbn [filter]. rewrite (Hnone x (or_introl eq_refl)).
    apply IH. intros y Hy. apply Hnone. now right.
  - destruct Hin as [E | Hin]; [congruence | now apply IH].
Qed.

Lemma joinedRows_length (identity : string) (db : DB) :
  WF db ->
  List.length (joinedRows identity db)
  = List.length (filter (fun p => String.eqb (part_did p) identity)
                        (participants db)).
Proof.
  intros [Hc [_ [_ [_ [Hfp _]]]]]. unfold joinedRows.
  induction (participants db) as [| p ps IH]; [reflexivity |].
  cbn [flat_map filter]. rewrite length_app, IH
    by (intros q Hq; apply Hfp; now right).
  destruct (String.eqb (part_did p) identity); [| reflexivity].
  rewrite length_map, (one_conversation_per_id _ _ Hc);
    [reflexivity | apply Hfp; now left].
Qed.

(** X18: the list of one's conversations holds one entry per pair of a
    participation of the requester and a conversation with that id, with the
    role of that participation; it is ordered by the time of the last
    message, latest first, the conversations without any message before all
    the others; on a database that satisfies the constraints it has exactly
    one entry per participation. *)
Theorem list_conversations (identity : string) (db : DB) :
  exists rows,
    GET identity db
    = (db, jsonReply (ConversationsAnswer (map summary rows)) 200)
    /\ (forall c p,
          In (c, p) rows
          <-> In p (participants db) /\ part_did p = identity
              /\ In c (conversations db)
              /\ conv_id c = part_conversationId p)
    /\ StronglySorted
         (fun x y => notBefore (conv_lastMessageAt (fst x))
                               (conv_lastMessageAt (fst y)) = true)
         rows
    /\ (forall before r after,
          rows = (before ++ r :: after)%list ->
          conv_lastMessageAt (fst r) = None ->
          forall x, In x before -> conv_lastMessageAt (fst x) = None)
    /\ (wellFormed db = true ->
        List.length rows
        = List.length (filter (fun p => String.eqb (part_did p) identity)
                              (participants db))).
Proof.
  exists (orderByLastMessageAtDesc (joinedRows identity db)).
  pose proof (orderByLast_perm (joinedRows identity db)) as Hperm.
  pose proof (orderByLast_sorted (joinedRows identity db)) as Hsorted.
  split; [reflexivity |]. split; [| split; [exact Hsorted | split]].
  - intros c p. rewrite <- joinedRows_In. split; intros H.
    + exact (Permutation_in _ Hperm H).
    + exact (Permutation_in _ (Permutation_sym Hperm) H).
  - intros before r after E Hnull x Hx. rewrite E in Hsorted.
    apply sorted_app in Hsorted. destruct Hsorted as [_ Hcross].
    specialize (Hcross x r Hx (or_introl eq_refl)).
    unfold rowNotBefore in Hcross. rewrite Hnull in Hcross.
    destruct (conv_lastMessageAt (fst x)); [discriminate Hcross | reflexivity].
  - intros Hwf. apply wellFormed_WF in Hwf.
    rewrite (Permutation_length Hperm). now apply joinedRows_length.
Qed.

End OwnConversations.

(** ** Sending a message: what is stored, what is refused *)

Section Sending.

Import Utils.
Import MessagesRoute.

Lemma setLastMessageAt_id (now : Z) (c : Conversation) :
  conv_id (setLastMessageAt now c) = conv_id c.
Proof. reflexivity. Qed.

Lemma findMessageIn_none (r cid : string) (ms : list Message) :
  (forall m, In m ms -> msg_id m = r -> msg_conversationId m <> cid) ->
  find (fun m => String.eqb (msg_id m) r
                 && String.eqb (msg_conversationId m) cid) ms = None.
Proof.
  intros H. induction ms as [| m ms IH]; cbn [find]; [reflexivity |].
  destruct (String.eqb_spec (msg_id m) r) as [E | _]; cbn [andb].
  - destruct (String.eqb_spec (msg_conversationId m) cid) as [E' | _].
    + exfalso. exact (H m (or_introl eq_refl) E E').
    + apply IH. intros m' Hm'. apply H. now right.
  - apply IH. intros m' Hm'. apply H. now right.
Qed.

(** X19: a message that is accepted is stored with the time of the request
    and the id of the message it replies to (none when the request names
    none, or the empty string); the conversation gets that time as the time
    of its last message and of its last update, and no other conversation,
    participant or invite is touched. *)
Theorem send_touches_conversation (identity cid rnd : string)
    (content : Js.Json) (replyTo : option string) (now : Z) (db : DB)
    (p : Participant) (c : Conversation) :
  findParticipant cid identity db = Some p ->
  part_role p <> "readonly" ->
  Js.truthy content = true ->
  Js.typeofObject content = true ->
  (Js.truthyOpt replyTo = true ->
   isSome (findMessageIn (orDefault replyTo EmptyString) cid db) = true) ->
  findMessage (generateId "msg" rnd) db = None ->
  findConversation cid db = Some c ->
  exists m,
    let db' := fst (POST identity cid (mkSendBody (Some content) replyTo)
                      rnd now db) in
    findMessage (generateId "msg" rnd) db' = Some m
    /\ msg_conversationId m = cid
    /\ msg_createdAt m = Some now
    /\ msg_replyTo m = (if Js.truthyOpt replyTo then replyTo else None)
    /\ msg_editedAt m = None
    /\ msg_deletedAt m = None
    /\ findConversation cid db' = Some (setLastMessageAt now c)
    /\ conv_lastMessageAt (setLastMessageAt now c) = Some now
    /\ conv_updatedAt (setLastMessageAt now c) = Some now
    /\ (forall k, k <> cid -> findConversation k db' = findConversation k db)
    /\ participants db' = participants db
    /\ invites db' = invites db.
Proof.
  intros Hp Hrole Htruthy Hobj Hreply Hfresh Hc.
  assert (Hconv : hasConversation db cid = true)
    by (unfold hasConversation; now rewrite Hc).
  apply String.eqb_neq in Hrole.
  set (contentType :=
         if Js.strictEqStr (Js.getProp content "type") "system"
         then "system" else "text").
  set (m := newMessage (generateId "msg" rnd) cid identity content contentType
                       (Js.orNull replyTo) now).
  exists m. cbv zeta.
  assert (Hrun :
            fst (POST identity cid (mkSendBody (Some content) replyTo) rnd now
                   db)
            = updateConversation cid (setLastMessageAt now)
                (mkDB (conversations db) (participants db)
                      (messages db ++ [m]) (invites db))).
  { unfold POST. step. rewrite Hp. step. rewrite Hrole. step.
    cbn [send_content send_replyTo]. step. rewrite Htruthy, Hobj. step.
    fold contentType. fold m.
    destruct (Js.truthyOpt replyTo) eqn:Htr;
      [ specialize (Hreply eq_refl);
        destruct (findMessageIn (orDefault replyTo EmptyString) cid db);
        [cbn [isSome] | discriminate Hreply]
      | ];
      step; rewrite (insertMessage_fresh m db Hfresh Hconv); step;
      reflexivity. }
  rewrite Hrun. unfold updateConversation, findMessage, findConversation.
  cbn [messages conversations participants invites].
  split.
  { apply find_app_fresh; [exact Hfresh | apply String.eqb_refl]. }
  split; [reflexivity |]. split; [reflexivity |].
  split; [reflexivity |]. split; [reflexivity |]. split; [reflexivity |].
  split.
  { apply (find_updated conv_id (setLastMessageAt now)
             (setLastMessageAt_id now)). exact Hc. }
  split; [reflexivity |]. split; [reflexivity |].
  split; [| split; reflexivity].
  intros k Hk.
  apply (find_not_updated conv_id (setLastMessageAt now)
           (setLastMessageAt_id now)). exact Hk.
Qed.

Lemma send_touches_conversation_witness :
  exists m,
    let db' := fst (POST Sample.alice Sample.directId (Sample.cipher "t1")
                      "t1" 2001 Sample.direct) in
    findMessage (generateId "msg" "t1") db' = Some m
    /\ msg_conversationId m = Sample.directId
    /\ msg_createdAt m = Some 2001
    /\ msg_replyTo m = None
    /\ msg_editedAt m = None
    /\ msg_deletedAt m = None
    /\ findConversation Sample.directId db'
       = Some (setLastMessageAt 2001
                 (newConversation Sample.directId "direct" None None "private"
                    Sample.alice 1000))
    /\ conv_lastMessageAt
         (setLastMessageAt 2001
            (newConversation Sample.directId "direct" None None "private"
               Sample.alice 1000)) = Some 2001
    /\ conv_updatedAt
         (setLastMessageAt 2001
            (newConversation Sample.directId "direct" None None "private"
               Sample.alice 1000)) = Some 2001
    /\ (forall k, k <> Sample.directId ->
                  findConversation k db' = findConversation k Sample.direct)
    /\ participants db' = participants Sample.direct
    /\ invites db' = invites Sample.direct.
Proof.
  refine (send_touches_conversation Sample.alice Sample.directId "t1"
            (Js.JObj [("encrypted", Js.JStr "t1"); ("nonce", Js.JStr "n")])
            None 2001 Sample.direct
            (newParticipant Sample.directId Sample.alice "owner" None 1000)
            (newConversation Sample.directId "direct" None None "private"
               Sample.alice 1000)
            _ _ _ _ _ _ _).
  - vm_compute; reflexivity.
  - vm_compute; discriminate.
  - reflexivity.
  - reflexivity.
  - vm_compute; discriminate.
  - vm_compute; reflexivity.
  - vm_compute; reflexivity.
Defined.

(** X20: what a participant cannot send.  A read-only participant is
    answered 403; content that is neither an array nor an object (absent,
    null, a boolean, a number, a string) is answered 400; a reply to a
    message that is not in this conversation (in another one, or nowhere) is
    answered 404.  In each case nothing is stored. *)
Theorem send_refusals (identity cid rnd : string) (body : SendBody) (now : Z)
    (db : DB) (p : Participant) :
  findParticipant cid identity db = Some p ->
  (part_role p = "readonly" ->
   POST identity cid body rnd now db
   = (db, errorResponse "You do not have permission to send messages" 403))
  /\ (part_role p <> "readonly" ->
      (forall items, send_content body <> Some (Js.JArr items)) ->
      (forall fields, send_content body <> Some (Js.JObj fields)) ->
      POST identity cid body rnd now db
      = (db, errorResponse "content is required and must be an object" 400))
  /\ (part_role p <> "readonly" ->
      forall content r,
        send_content body = Some content ->
        Js.truthy content = true ->
        Js.typeofObject content = true ->
        send_replyTo body = Some r ->
        r <> EmptyString ->
        (forall m, In m (messages db) -> msg_id m = r ->
                   msg_conversationId m <> cid) ->
        POST identity cid body rnd now db
        = (db, errorResponse "Reply message not found" 404)).
Proof.
  intros Hp. split; [| split].
  - intros Hrole. unfold POST. step. rewrite Hp. step. rewrite Hrole.
    reflexivity.
  - intros Hrole Harr Hobj. apply String.eqb_neq in Hrole.
    unfold POST. step. rewrite Hp. step. rewrite Hrole. step.
    destruct (send_content body) as [[| b | z | s | items | fields] |];
      try reflexivity.
    + step. cbn [Js.truthy Js.typeofObject negb orb].
      rewrite Bool.orb_true_r. reflexivity.
    + step. cbn [Js.truthy Js.typeofObject negb orb].
      rewrite Bool.orb_true_r. reflexivity.
    + step. cbn [Js.truthy Js.typeofObject negb orb].
      rewrite Bool.orb_true_r. reflexivity.
    + exfalso. exact (Harr items eq_refl).
    + exfalso. exact (Hobj fields eq_refl).
  - intros Hrole content r Hcontent Htruthy Hobj Hreply Hr Hnone.
    apply String.eqb_neq in Hrole. apply truthyStr_iff in Hr.
    unfold POST. step. rewrite Hp. step. rewrite Hrole. step.
    rewrite Hcontent. step. rewrite Htruthy, Hobj. step.
    rewrite Hreply. cbn [Js.truthyOpt orDefault]. rewrite Hr. step.
    unfold findMessageIn. rewrite (findMessageIn_none r cid _ Hnone).
    reflexivity.
Qed.

Lemma send_refusals_witness :
  POST Sample.alice Sample.launchId
    (mkSendBody (Some (Js.JStr "hello")) None) "m5" 3000 Sample.launch
  = (Sample.launch,
     errorResponse "content is required and must be an object" 400).
Proof.
  refine (proj1 (proj2 (send_refusals Sample.alice Sample.launchId "m5"
                          (mkSendBody (Some (Js.JStr "hello")) None) 3000
                          Sample.launch
                          (newParticipant Sample.launchId Sample.alice
                             "member" (Some Sample.owner) 1000) _))
            _ _ _).
  - vm_compute; reflexivity.
  - vm_compute; discriminate.
  - intros items; discriminate.
  - intros fields; discriminate.
Defined.

End Sending.

(** ** Updating a conversation *)

Section Updating.

Import Utils.
Import ConversationRoute.

Lemma applyUpdates_id (body : PatchBody) (v : option string) (now : Z)
    (c : Conversation) :
  conv_id (applyUpdates body v now c) = conv_id c.
Proof.
  unfold applyUpdates.
  destruct (patch_name body), (patch_description body), v; reflexivity.
Qed.

(** X21: an update by an admin or the owner writes the fields the body
    defines and keeps the others: an absent name or description is kept, a
    null one is cleared; the time of the update is always recorded, also for
    an empty body; id, type, creator and the time of the last message never
    change, and no other conversation is touched.  A null visibility is
    answered 500 and changes nothing. *)
Theorem update_fields (identity cid : string) (body : PatchBody) (now : Z)
    (db : DB) (p : Participant) (c : Conversation) :
  findParticipant cid identity db = Some p ->
  hasRole (part_role p) "admin" = true ->
  findConversation cid db = Some c ->
  (patch_visibility body <> Some None ->
   exists c',
     snd (PATCH identity cid body now db)
     = jsonResponse (ConversationBody (Some c')) 200
     /\ findConversation cid (fst (PATCH identity cid body now db)) = Some c'
     /\ conv_name c' = match patch_name body with
                       | Some name => name
                       | None => conv_name c
                       end
     /\ conv_description c' = match patch_description body with
                              | Some description => description
                              | None => conv_description c
                              end
     /\ conv_visibility c' = match patch_visibility body with
                             | Some (Some v) => v
                             | _ => conv_visibility c
                             end
     /\ conv_updatedAt c' = Some now
     /\ conv_id c' = cid
     /\ conv_type c' = conv_type c
     /\ conv_createdBy c' = conv_createdBy c
     /\ conv_createdAt c' = conv_createdAt c
     /\ conv_lastMessageAt c' = conv_lastMessageAt c
     /\ (forall k, k <> cid ->
                   findConversation k (fst (PATCH identity cid body now db))
                   = findConversation k db)
     /\ participants (fst (PATCH identity cid body now db)) = participants db
     /\ messages (fst (PATCH identity cid body now db)) = messages db
     /\ invites (fst (PATCH identity cid body now db)) = invites db)
  /\ (patch_visibility body = Some None ->
      PATCH identity cid body now db
      = (db, errorResponse "Failed to update conversation" 500)).
Proof.
  intros Hp Hadmin Hc.
  destruct (findConversation_id _ _ _ Hc) as [Hid _].
  split.
  - intros Hvis.
    assert (Hrun : exists v,
               (v = match patch_visibility body with
                    | Some (Some v) => Some v
                    | _ => None
                    end)
               /\ PATCH identity cid body now db
                  = (updateConversation cid (applyUpdates body v now) db,
                     jsonResponse
                       (ConversationBody (Some (applyUpdates body v now c)))
                       200)).
    { unfold PATCH. step. rewrite Hp. step. rewrite Hadmin. step.
      destruct (patch_visibility body) as [[v |] |];
        [exists (Some v) | exfalso; now apply Hvis | exists None];
        (split; [reflexivity |]); step;
        unfold findConversation, updateConversation; cbn [conversations];
        rewrite (find_updated conv_id _ (applyUpdates_id body _ now) cid _ c Hc);
        reflexivity. }
    destruct Hrun as [v [Hv Hrun]]. rewrite Hrun. cbn [fst snd].
    exists (applyUpdates body v now c).
    split; [reflexivity |]. split.
    { unfold findConversation, updateConversation. cbn [conversations].
      exact (find_updated conv_id _ (applyUpdates_id body v now) cid _ c Hc). }
    unfold applyUpdates.
    repeat match goal with
           | |- _ /\ _ => split
           end.
    + destruct (patch_name body), (patch_description body), v; reflexivity.
    + destruct (patch_name body), (patch_description body), v; reflexivity.
    + rewrite Hv.
      destruct (patch_name body), (patch_description body),
        (patch_visibility body) as [[w |] |]; reflexivity.
    + destruct (patch_name body), (patch_description body), v; reflexivity.
    + rewrite <- Hid.
      destruct (patch_name body), (patch_description body), v; reflexivity.
    + destruct (patch_name body), (patch_description body), v; reflexivity.
    + destruct (patch_name body), (patch_description body), v; reflexivity.
    + destruct (patch_name body), (patch_description body), v; reflexivity.
    + destruct (patch_name body), (patch_description body), v; reflexivity.
    + intros k Hk. unfold findConversation, updateConversation.
      cbn [conversations].
      exact (find_not_updated conv_id _ (applyUpdates_id body v now) cid k _
               Hk).
    + reflexivity.
    + reflexivity.
    + reflexivity.
  - intros Hvis. unfold PATCH. step. rewrite Hp. step. rewrite Hadmin. step.
    rewrite Hvis. step. unfold hasConversation. rewrite Hc. reflexivity.
Qed.

Lemma update_fields_witness :
  PATCH Sample.owner Sample.launchId
    (mkPatchBody (Some None) None (Some None)) 7000 Sample.launch
  = (Sample.launch, errorResponse "Failed to update conversation" 500).
Proof.
  refine (proj2 (update_fields Sample.owner Sample.launchId
                   (mkPatchBody (Some None) None (Some None)) 7000
                   Sample.launch
                   (newParticipant Sample.launchId Sample.owner "owner" None
                      1000)
                   (newConversation Sample.launchId "group" (Some "Launch")
                      None "private" Sample.owner 1000) _ _ _) _).
  - vm_compute; reflexivity.
  - vm_compute; reflexivity.
  - vm_compute; reflexivity.
  - reflexivity.
Defined.

End Updating.

(** ** The lifetime of an invite *)

Section ExpiryWindow.

Import Utils.

(** X22: an invite created with a count of hours other than zero expires at
    the creation time plus that many hours (in milliseconds): preview and
    redeem answer 410 from the first millisecond after that instant, and the
    preview succeeds up to and including it.  A negative count is accepted
    and gives an invite that has expired when it is created.  A count that
    takes the expiry out of the range of dates makes the creation fail with
    500, nothing being stored. *)
Theorem invite_expiry_window (identity cid rnd : string)
    (forDid baseUrl : option string) (h now : Z) (db : DB) (p : Participant) :
  wellFormed db = true ->
  cid <> EmptyString ->
  findParticipant cid identity db = Some p ->
  hasRole (part_role p) "admin" = true ->
  findInvite (generateId "inv" rnd) db = None ->
  h <> 0 ->
  (InvitesRoute.validDate (now + h * 3600000) = true ->
   exists invite db' link,
     InvitesRoute.POST identity
       (InvitesRoute.mkInviteRequest (Some cid) forDid None (Some h))
       rnd baseUrl now db
     = (db', jsonResponse (InviteBody (Some invite) link) 201)
     /\ findInvite (generateId "inv" rnd) db' = Some invite
     /\ inv_expiresAt invite = Some (now + h * 3600000)
     /\ (forall later,
           now + h * 3600000 < later ->
           InviteRoute.GET (generateId "inv" rnd) later db'
           = (db', errorResponse "Invite has expired" 410)
           /\ forall who rnd',
                InviteRoute.POST who (generateId "inv" rnd) rnd' later db'
                = (db', errorResponse "Invite has expired" 410))
     /\ (forall later,
           later <= now + h * 3600000 ->
           fst (InviteRoute.GET (generateId "inv" rnd) later db') = db'
           /\ status (snd (InviteRoute.GET (generateId "inv" rnd) later db'))
              = 200)
     /\ (h < 0 ->
         InviteRoute.GET (generateId "inv" rnd) now db'
         = (db', errorResponse "Invite has expired" 410)))
  /\ (InvitesRoute.validDate (now + h * 3600000) = false ->
      InvitesRoute.POST identity
        (InvitesRoute.mkInviteRequest (Some cid) forDid None (Some h))
        rnd baseUrl now db
      = (db, errorResponse "Failed to create invite" 500)).
Proof.
  intros Hwf Hcid Hp Hadmin Hfresh Hh.
  pose proof (wellFormed_participant_conversation _ _ _ _ Hwf Hp) as Hconv.
  apply truthyStr_iff in Hcid.
  pose proof (expiryOf_hours h now Hh) as Hexp.
  set (t := now + h * 3600000) in *.
  split.
  - intros Hvalid.
    set (invite := newInvite (generateId "inv" rnd) cid identity
                     (Js.orNull forDid) None (Some t) now).
    set (db' := mkDB (conversations db) (participants db) (messages db)
                     (invites db ++ [invite])).
    assert (Hfound : findInvite (generateId "inv" rnd) db' = Some invite).
    { unfold findInvite in *. cbn [invites db'].
      apply find_app_fresh; [exact Hfresh | apply String.eqb_refl]. }
    assert (Hlate : forall later, t < later ->
                      InviteRoute.expired invite later = true).
    { intros later Hl. unfold InviteRoute.expired. cbn [inv_expiresAt invite
        newInvite]. apply Z.ltb_lt. exact Hl. }
    exists invite, db'. eexists.
    split.
    { unfold InvitesRoute.POST. step.
      cbn [InvitesRoute.req_conversationId InvitesRoute.req_forDid
           InvitesRoute.req_maxUses InvitesRoute.req_expiresInHours
           Js.truthyOpt orDefault].
      rewrite Hcid. step. rewrite Hp. step. rewrite Hadmin. step.
      rewrite Hexp. step. rewrite Hvalid. step.
      change (InvitesRoute.maxUsesColumn None) with (@None string).
      fold invite. unfold insertInvite.
      change (inv_id invite) with (generateId "inv" rnd).
      change (inv_conversationId invite) with cid.
      unfold hasConversation in Hconv. rewrite Hfresh, Hconv. cbn [isSome].
      step. fold db'. rewrite Hfound. reflexivity. }
    split; [exact Hfound |]. split; [reflexivity |].
    split; [| split].
    + intros later Hl. split; [| intros who rnd'].
      * unfold InviteRoute.GET. step. rewrite Hfound, checkInvite_run.
        change (InviteRoute.revoked invite) with false.
        rewrite (Hlate later Hl). reflexivity.
      * unfold InviteRoute.POST. step. rewrite Hfound, checkInvite_run.
        change (InviteRoute.revoked invite) with false.
        rewrite (Hlate later Hl). reflexivity.
    + intros later Hl. unfold InviteRoute.GET. step.
      rewrite Hfound, checkInvite_run.
      change (InviteRoute.revoked invite) with false.
      change (InviteRoute.exhausted invite) with false.
      assert (Hnot : InviteRoute.expired invite later = false).
      { unfold InviteRoute.expired. cbn [inv_expiresAt invite newInvite].
        apply Z.ltb_ge. exact Hl. }
      rewrite Hnot. cbv iota. step.
      change (inv_conversationId invite) with cid.
      assert (Hc : hasConversation db' cid = true) by exact Hconv.
      unfold hasConversation in Hc.
      destruct (findConversation cid db'); [| discriminate Hc].
      split; reflexivity.
    + intros Hneg. unfold InviteRoute.GET. step.
      rewrite Hfound, checkInvite_run.
      change (InviteRoute.revoked invite) with false.
      rewrite (Hlate now); [reflexivity | subst t; lia].
  - intros Hinvalid. unfold InvitesRoute.POST. step.
    cbn [InvitesRoute.req_conversationId InvitesRoute.req_forDid
         InvitesRoute.req_maxUses InvitesRoute.req_expiresInHours
         Js.truthyOpt orDefault].
    rewrite Hcid. step. rewrite Hp. step. rewrite Hadmin. step.
    rewrite Hexp. step. rewrite Hinvalid. reflexivity.
Qed.

Lemma invite_expiry_window_witness :
  exists invite db' link,
    InvitesRoute.POST Sample.owner
      (InvitesRoute.mkInviteRequest (Some Sample.launchId) None None
         (Some (-1)))
      "neg" None 5000000 Sample.launch
    = (db', jsonResponse (InviteBody (Some invite) link) 201)
    /\ findInvite (generateId "inv" "neg") db' = Some invite
    /\ inv_expiresAt invite = Some (5000000 + -1 * 3600000)
    /\ (forall later,
          5000000 + -1 * 3600000 < later ->
          InviteRoute.GET (generateId "inv" "neg") later db'
          = (db', errorResponse "Invite has expired" 410)
          /\ forall who rnd',
               InviteRoute.POST who (generateId "inv" "neg") rnd' later db'
               = (db', errorResponse "Invite has expired" 410))
    /\ (forall later,
          later <= 5000000 + -1 * 3600000 ->
          fst (InviteRoute.GET (generateId "inv" "neg") later db') = db'
          /\ status (snd (InviteRoute.GET (generateId "inv" "neg") later db'))
             = 200)
    /\ (-1 < 0 ->
        InviteRoute.GET (generateId "inv" "neg") 5000000 db'
        = (db', errorResponse "Invite has expired" 410)).
Proof.
  refine (proj1 (invite_expiry_window Sample.owner Sample.launchId "neg" None
                   None (-1) 5000000 Sample.launch
                   (newParticipant Sample.launchId Sample.owner "owner" None
                      1000)
                   _ _ _ _ _ _) _).
  - vm_compute; reflexivity.
  - vm_compute; discriminate.
  - vm_compute; reflexivity.
  - vm_compute; reflexivity.
  - vm_compute; reflexivity.
  - lia.
  - vm_compute; reflexivity.
Defined.

End ExpiryWindow.

(** ** What a participant reads *)

Section Reading.

Import Utils.

Lemma participantsOf_dids (cid : string) (ps : list Participant) :
  noDupKey ps = true ->
  NoDup (map part_did
           (filter (fun p => String.eqb (part_conversationId p) cid) ps)).
Proof.
  induction ps as [| p ps IH]; intros Hnd; [constructor |].
  cbn [noDupKey] in Hnd. apply andb_prop in Hnd. destruct Hnd as [Hp Hnd].
  cbn [filter].
  destruct (String.eqb_spec (part_conversationId p) cid) as [E | _];
    [| exact (IH Hnd)].
  cbn [map]. constructor; [| exact (IH Hnd)].
  intros Hin. apply in_map_iff in Hin. destruct Hin as [q [Hdid Hq]].
  apply filter_In in Hq. destruct Hq as [Hq Hcid].
  apply String.eqb_eq in Hcid. apply negb_true_iff in Hp.
  assert (Hex : existsb (isParticipant (part_conversationId p) (part_did p)) ps
                = true).
  { apply existsb_exists. exists q. split; [exact Hq |].
    unfold isParticipant. rewrite Hcid, E, Hdid, !String.eqb_refl.
    reflexivity. }
  congruence.
Qed.

(** X23: a participant of a conversation always gets its details (never a
    404) from a database that satisfies the constraints: the conversation
    row, the role of the requester, and the participants of the
    conversation, which is the same list that the participants handler
    answers; the list holds the requester, only rows of this conversation,
    and each identity at most once.  Neither read changes the database. *)
Theorem member_reads (identity cid : string) (db : DB) (p : Participant) :
  wellFormed db = true ->
  findParticipant cid identity db = Some p ->
  exists c,
    findConversation cid db = Some c
    /\ ConversationDetail.GET identity cid db
       = (db, jsonReply (DetailAnswer c (participantsOf cid db) (part_role p))
                200)
    /\ ParticipantsList.GET identity cid db
       = (db, jsonReply (ParticipantsAnswer (participantsOf cid db)) 200)
    /\ In p (participantsOf cid db)
    /\ part_did p = identity
    /\ (forall q, In q (participantsOf cid db)
                  <-> In q (participants db) /\ part_conversationId q = cid)
    /\ NoDup (map part_did (participantsOf cid db)).
Proof.
  intros Hwf Hp.
  pose proof (wellFormed_participant_conversation _ _ _ _ Hwf Hp) as Hconv.
  unfold hasConversation in Hconv.
  destruct (findConversation cid db) as [c |] eqn:Hc; [| discriminate Hconv].
  exists c. split; [reflexivity |].
  pose proof Hp as Hin. unfold findParticipant in Hin.
  apply find_some in Hin. destruct Hin as [Hin Hkey].
  unfold isParticipant in Hkey. apply andb_prop in Hkey.
  destruct Hkey as [Hk1 Hk2].
  split; [| split; [| split; [| split; [| split]]]].
  - unfold ConversationDetail.GET. gstep. rewrite Hp. gstep. rewrite Hc.
    reflexivity.
  - unfold ParticipantsList.GET. gstep. rewrite Hp. reflexivity.
  - unfold participantsOf. apply filter_In. split; assumption.
  - now apply String.eqb_eq.
  - intros q. unfold participantsOf. rewrite filter_In, String.eqb_eq.
    reflexivity.
  - unfold participantsOf. apply participantsOf_dids.
    apply wellFormed_WF in Hwf. exact (proj1 (proj2 Hwf)).
Qed.

Lemma member_reads_witness :
  exists c,
    findConversation Sample.launchId Sample.launch = Some c
    /\ ConversationDetail.GET Sample.bob Sample.launchId Sample.launch
       = (Sample.launch,
          jsonReply
            (DetailAnswer c (participantsOf Sample.launchId Sample.launch)
               (part_role (newParticipant Sample.launchId Sample.bob "member"
                             (Some Sample.owner) 1000)))
            200)
    /\ ParticipantsList.GET Sample.bob Sample.launchId Sample.launch
       = (Sample.launch,
          jsonReply
            (ParticipantsAnswer (participantsOf Sample.launchId Sample.launch))
            200)
    /\ In (newParticipant Sample.launchId Sample.bob "member"
             (Some Sample.owner) 1000)
          (participantsOf Sample.launchId Sample.launch)
    /\ part_did (newParticipant Sample.launchId Sample.bob "member"
                   (Some Sample.owner) 1000) = Sample.bob
    /\ (forall q, In q (participantsOf Sample.launchId Sample.launch)
                  <-> In q (participants Sample.launch)
                      /\ part_conversationId q = Sample.launchId)
    /\ NoDup (map part_did (participantsOf Sample.launchId Sample.launch)).
Proof.
  refine (member_reads Sample.bob Sample.launchId Sample.launch
            (newParticipant Sample.launchId Sample.bob "member"
               (Some Sample.owner) 1000) _ _).
  - vm_compute; reflexivity.
  - vm_compute; reflexivity.
Defined.

Lemma revoke_db (identity inviteId : string) (now : Z) (db : DB)
    (invite : Invite) :
  findInvite inviteId db = Some invite ->
  snd (InviteRevoke.DELETE identity inviteId now db)
  = jsonReply (RevokedAnswer true) 200 ->
  fst (InviteRevoke.DELETE identity inviteId now db)
  = updateInvite inviteId (InviteRevoke.setRevokedAt now) db.
Proof.
  intros Hf. unfold InviteRevoke.DELETE. gstep. rewrite Hf. gstep.
  destruct (String.eqb (inv_createdBy invite) identity); cbn [negb]; gstep;
    [reflexivity |].
  destruct (findParticipant (inv_conversationId invite) identity db)
    as [q |]; gstep; [| discriminate].
  destruct (hasRole (part_role q) "admin"); cbn [negb]; gstep;
    [reflexivity | discriminate].
Qed.

Lemma list_without_revoked (id cid : string) (now : Z) (l : list Invite) :
  filter (fun i => String.eqb (inv_conversationId i) cid
                   && negb (isSome (inv_revokedAt i)))
         (map (fun i => if String.eqb (inv_id i) id
                        then InviteRevoke.setRevokedAt now i else i) l)
  = filter (fun i => negb (String.eqb (inv_id i) id))
           (filter (fun i => String.eqb (inv_conversationId i) cid
                             && negb (isSome (inv_revokedAt i))) l).
Proof.
  induction l as [| i l IH]; [reflexivity |].
  cbn [map filter]. destruct (String.eqb (inv_id i) id) eqn:E.
  - cbn [InviteRevoke.setRevokedAt inv_conversationId inv_revokedAt isSome
         negb].
    rewrite andb_false_r, IH.
    destruct (String.eqb (inv_conversationId i) cid
              && negb (isSome (inv_revokedAt i))); [| reflexivity].
    cbn [filter]. rewrite E. reflexivity.
  - rewrite IH.
    destruct (String.eqb (inv_conversationId i) cid
              && negb (isSome (inv_revokedAt i))); [| reflexivity].
    cbn [filter]. rewrite E. reflexivity.
Qed.

(** X24: the list of invites that an admin or the owner reads holds the
    invites of the conversation that are not revoked (expired and used up
    ones included); after a revocation it is the list read before without
    the revoked invite, in the same order. *)
Theorem revoked_leaves_list (identity lister inviteId cid : string) (now : Z)
    (db : DB) (invite : Invite) (p : Participant) :
  findInvite inviteId db = Some invite ->
  snd (InviteRevoke.DELETE identity inviteId now db)
  = jsonReply (RevokedAnswer true) 200 ->
  cid <> EmptyString ->
  findParticipant cid lister db = Some p ->
  hasRole (part_role p) "admin" = true ->
  exists before,
    InvitesList.GET lister (Some cid) db
    = (db, jsonReply (InvitesAnswer before) 200)
    /\ (forall i, In i before
                  <-> In i (invites db) /\ inv_conversationId i = cid
                      /\ inv_revokedAt i = None)
    /\ InvitesList.GET lister (Some cid)
         (fst (InviteRevoke.DELETE identity inviteId now db))
       = (fst (InviteRevoke.DELETE identity inviteId now db),
          jsonReply
            (InvitesAnswer
               (filter (fun i => negb (String.eqb (inv_id i) inviteId))
                       before))
            200).
Proof.
  intros Hf Hok Hcid Hp Hadmin. apply truthyStr_iff in Hcid.
  rewrite (revoke_db _ _ _ _ _ Hf Hok).
  eexists. split; [| split].
  - unfold InvitesList.GET. cbn [Js.truthyOpt orDefault]. rewrite Hcid.
    cbn [negb]. gstep. rewrite Hp. gstep. rewrite Hadmin. gstep.
    reflexivity.
  - intros i. rewrite filter_In, andb_true_iff, String.eqb_eq, negb_true_iff.
    destruct (inv_revokedAt i); cbn [isSome]; intuition congruence.
  - unfold InvitesList.GET. cbn [Js.truthyOpt orDefault]. rewrite Hcid.
    cbn [negb]. gstep.
    change (findParticipant cid lister
              (updateInvite inviteId (InviteRevoke.setRevokedAt now) db))
      with (findParticipant cid lister db).
    rewrite Hp. gstep. rewrite Hadmin. gstep.
    unfold updateInvite at 2. cbn [invites].
    rewrite list_without_revoked. reflexivity.
Qed.

Lemma revoked_leaves_list_witness :
  exists before,
    InvitesList.GET Sample.owner (Some Sample.launchId)
      Sample.launchWithInvites
    = (Sample.launchWithInvites, jsonReply (InvitesAnswer before) 200)
    /\ (forall i, In i before
                  <-> In i (invites Sample.launchWithInvites)
                      /\ inv_conversationId i = Sample.launchId
                      /\ inv_revokedAt i = None)
    /\ InvitesList.GET Sample.owner (Some Sample.launchId)
         (fst (InviteRevoke.DELETE Sample.owner "inv_e" 2000
                 Sample.launchWithInvites))
       = (fst (InviteRevoke.DELETE Sample.owner "inv_e" 2000
                 Sample.launchWithInvites),
          jsonReply
            (InvitesAnswer
               (filter (fun i => negb (String.eqb (inv_id i) "inv_e"))
                       before))
            200).
Proof.
  refine (revoked_leaves_list Sample.owner Sample.owner "inv_e"
            Sample.launchId 2000 Sample.launchWithInvites Sample.expiring
            (newParticipant Sample.launchId Sample.owner "owner" None 1000)
            _ _ _ _ _).
  - vm_compute; reflexivity.
  - vm_compute; reflexivity.
  - vm_compute; discriminate.
  - vm_compute; reflexivity.
  - vm_compute; reflexivity.
Defined.

End Reading.

(** ** The checks come before the writes *)

Section Checks.

Import Utils.











Lemma validation_loop_valid (dids : list string) (db : DB) :
  Forall (fun did => isValidDid did = true) dids ->
  forEach dids
    (fun did => leaveIf (negb (isValidDid did))
                  (errorResponse ("Invalid DID: " ++ did) 400)) db
  = (db, Value tt).
Proof.
  induction 1 as [| d dids Hd _ IH]; [reflexivity |].
  cbn [forEach fold_right]. fold (forEach dids
    (fun did => leaveIf (negb (isValidDid did))
                  (errorResponse ("Invalid DID: " ++ did) 400))).
  unfold bind at 1. rewrite Hd. exact IH.
Qed.

Lemma findParticipant_snoc (cid d d' : string) (db : DB) (p : Participant) :
  part_conversationId p = cid -> part_did p = d ->
  findParticipant cid d'
    (mkDB (conversations db) (participants db ++ [p]) (messages db)
          (invites db)) = None
  <-> findParticipant cid d' db = None /\ d' <> d.
Proof.
  intros Hc Hd. unfold findParticipant. cbn [participants].
  rewrite find_app. destruct (find (isParticipant cid d') (participants db)).
  - split; [discriminate | intros [H _]; discriminate H].
  - cbn [find]. unfold isParticipant. rewrite Hc, Hd, String.eqb_refl.
    cbn [andb]. destruct (String.eqb_spec d d') as [-> | Hne].
    + split; [discriminate | intros [_ H]; now contradiction H].
    + split; [intros _; split; [reflexivity | congruence] | reflexivity].
Qed.

(** The loop that inserts the member rows: it writes participant rows only,
    and it ends normally exactly when no identity other than the requester
    is listed twice or takes part already; otherwise it throws. *)
Lemma members_loop (cid identity : string) (now : Z) (dids : list string) :
  forall db,
    isSome (findConversation cid db) = true ->
    exists added,
      Forall (fun p => part_conversationId p = cid) added
      /\ fst (forEach dids
                (fun did =>
                   if negb (String.eqb did identity)
                   then insert (insertParticipant
                                  (newParticipant cid did "member"
                                     (Some identity) now))
                   else ret tt) db)
         = mkDB (conversations db) (participants db ++ added) (messages db)
                (invites db)
      /\ (NoDup (otherDids identity dids)
          /\ (forall d, In d (otherDids identity dids) ->
                        findParticipant cid d db = None) ->
          snd (forEach dids
                 (fun did =>
                    if negb (String.eqb did identity)
                    then insert (insertParticipant
                                   (newParticipant cid did "member"
                                      (Some identity) now))
                    else ret tt) db) = Value tt)
      /\ (~ (NoDup (otherDids identity dids)
             /\ (forall d, In d (otherDids identity dids) ->
                           findParticipant cid d db = None)) ->
          snd (forEach dids
                 (fun did =>
                    if negb (String.eqb did identity)
                    then insert (insertParticipant
                                   (newParticipant cid did "member"
                                      (Some identity) now))
                    else ret tt) db) = Thrown).
Proof.
  set (f := fun did : string =>
              if negb (String.eqb did identity)
              then insert (insertParticipant
                             (newParticipant cid did "member" (Some identity)
                                now))
              else ret tt).
  induction dids as [| d dids IH]; intros db Hconv.
  - exists []. cbn [forEach fold_right ret fst snd otherDids filter].
    rewrite app_nil_r. split; [constructor |].
    split; [destruct db; reflexivity |].
    split; [reflexivity |].
    intros H. exfalso. apply H. split; [constructor | intros d []].
  - cbn [forEach fold_right]. fold (forEach dids f).
    unfold bind. unfold otherDids. cbn [filter].
    fold (otherDids identity dids).
    assert (Hf : f d = if negb (String.eqb d identity)
                       then insert (insertParticipant
                                      (newParticipant cid d "member"
                                         (Some identity) now))
                       else ret tt) by reflexivity.
    rewrite Hf. clear Hf.
    destruct (String.eqb d identity); cbn [negb ret].
    + exact (IH db Hconv).
    + unfold insert, insertParticipant.
      cbn [part_conversationId part_did newParticipant].
      destruct (findParticipant cid d db) eqn:Hd; cbn [isSome].
      * exists []. rewrite app_nil_r. cbn [fst snd].
        split; [constructor |].
        split; [destruct db; reflexivity |].
        split; [| reflexivity].
        intros [_ H]. rewrite (H d (or_introl eq_refl)) in Hd. discriminate Hd.
      * rewrite Hconv.
        set (p := newParticipant cid d "member" (Some identity) now).
        set (db1 := mkDB (conversations db) (participants db ++ [p])
                         (messages db) (invites db)).
        destruct (IH db1 Hconv) as [added [Hrows [Hfst [Hok Hno]]]].
        exists (p :: added). rewrite Hfst. subst db1.
        cbn [conversations participants messages invites].
        rewrite <- app_assoc.
        split; [constructor; [reflexivity | exact Hrows] |].
        split; [reflexivity |].
        set (db1 := mkDB (conversations db) (participants db ++ [p])
                         (messages db) (invites db)) in *.
        assert (Hiff :
                  (NoDup (d :: otherDids identity dids)
                   /\ (forall d', In d' (d :: otherDids identity dids) ->
                                  findParticipant cid d' db = None))
                  <-> (NoDup (otherDids identity dids)
                       /\ (forall d', In d' (otherDids identity dids) ->
                                      findParticipant cid d' db1 = None))).
        { split.
          - intros [Hnd Hall]. inversion Hnd as [| ? ? Hnotin Hnd']; subst.
            split; [exact Hnd' |]. intros d' Hin.
            apply (findParticipant_snoc cid d d' db p eq_refl eq_refl).
            split; [apply Hall; now right |].
            intros ->. contradiction.
          - intros [Hnd Hall]. split.
            + constructor; [| exact Hnd]. intros Hin.
              apply Hall in Hin.
              apply (findParticipant_snoc cid d d db p eq_refl eq_refl) in Hin.
              destruct Hin as [_ Hne]. now apply Hne.
            + intros d' [<- | Hin]; [exact Hd |].
              apply Hall in Hin.
              apply (findParticipant_snoc cid d d' db p eq_refl eq_refl) in Hin.
              exact (proj1 Hin). }
        split.
        -- intros H. apply Hok. now apply Hiff.
        -- intros H. apply Hno. intros H'. apply H. now apply Hiff.
Qed.


Lemma listed_twice (requester d : string) (l1 l2 l3 : list string) :
  d <> requester ->
  ~ NoDup (otherDids requester (l1 ++ d :: l2 ++ d :: l3)).
Proof.
  intros Hd Hnd. apply String.eqb_neq in Hd.
  unfold otherDids in Hnd. rewrite filter_app in Hnd. cbn [filter] in Hnd.
  rewrite Hd in Hnd. cbn [negb] in Hnd. rewrite filter_app in Hnd.
  cbn [filter] in Hnd. rewrite Hd in Hnd. cbn [negb] in Hnd.
  apply NoDup_remove_2 in Hnd. apply Hnd.
  apply in_or_app. right. apply in_or_app. right. now left.
Qed.

Lemma create_half_done (requester rndConv rndMsg : string)
    (body : ConversationsRoute.CreateBody) (now : Z) (db : DB)
    (dids : list string) :
  wellFormed db = true ->
  findConversation (generateId "conv" rndConv) db = None ->
  ConversationsRoute.create_type body = Some "group" ->
  Js.truthyOpt (ConversationsRoute.create_name body) = true ->
  ConversationsRoute.create_participantDids body = Some dids ->
  Forall (fun did => isValidDid did = true) dids ->
  ~ NoDup (otherDids requester dids) ->
  exists added,
    Forall (fun p => part_conversationId p = generateId "conv" rndConv) added
    /\ ConversationsRoute.POST requester body rndConv rndMsg now db
    = (mkDB (conversations db
             ++ [newConversation (generateId "conv" rndConv) "group"
                   (Js.orNull (ConversationsRoute.create_name body))
                   (Js.orNull (ConversationsRoute.create_description body))
                   (orDefault (ConversationsRoute.create_visibility body)
                      "private")
                   requester now])
            ((participants db
              ++ [newParticipant (generateId "conv" rndConv) requester "owner"
                    None now])
             ++ added)
            (messages db) (invites db),
       errorResponse "Failed to create conversation" 500).
Proof.
  intros Hwf Hfreshc Htype Hname Hdids Hvalid Hdup.
  unfold ConversationsRoute.POST. step. rewrite Htype. step.
  change (negb (Js.truthyStr "group")
          || negb (Js.includes ["direct"; "group"] "group"))%bool with false.
  step. rewrite Hdids. step.
  destruct (Nat.eqb (List.length dids) 0) eqn:Hlen.
  { exfalso. apply Hdup. destruct dids; [constructor | discriminate Hlen]. }
  step.
  pose proof (validation_loop_valid dids db Hvalid) as Hval.
  cbv beta iota zeta delta [leaveIf leave ret] in Hval.
  rewrite Hval. clear Hval. step.
  change (String.eqb "group" "direct") with false.
  change (String.eqb "group" "group") with true.
  rewrite Hname. step.
  set (cid := generateId "conv" rndConv) in *.
  pose proof (members_loop cid requester now dids) as Hloop.
  cbv beta iota zeta delta [insert ret] in Hloop.
  match goal with
  | |- context [forEach dids ?f] => set (loop := forEach dids f) in *
  end.
  set (c := newConversation cid "group"
              (Js.orNull (ConversationsRoute.create_name body))
              (Js.orNull (ConversationsRoute.create_description body))
              (orDefault (ConversationsRoute.create_visibility body) "private")
              requester now).
  set (pa := newParticipant cid requester "owner" None now).
  assert (Hc1 : forall ps ms,
             findConversation cid
               (mkDB (conversations db ++ [c]) ps ms (invites db))
             = Some c)
    by (intros ps ms; unfold findConversation in *; cbn [conversations];
        apply find_app_fresh; [exact Hfreshc | apply String.eqb_refl]).
  unfold insertConversation. change (conv_id c) with cid.
  rewrite Hfreshc. cbn [isSome]. cbv beta iota.
  unfold insertParticipant.
  change (part_conversationId pa) with cid.
  change (part_did pa) with requester.
  change (findParticipant cid requester
            (mkDB (conversations db ++ [c]) (participants db) (messages db)
                  (invites db)))
    with (findParticipant cid requester db).
  rewrite (fresh_findParticipant db cid requester Hwf Hfreshc), Hc1.
  cbn [isSome conversations participants messages invites]. cbv beta iota.
  set (db2 := mkDB (conversations db ++ [c]) (participants db ++ [pa])
                   (messages db) (invites db)).
  destruct (Hloop db2) as [added [Hrows [Hfst [_ Hno]]]];
    [unfold db2; now rewrite Hc1 |].
  assert (Hthrown : snd (loop db2) = Thrown)
    by (apply Hno; intros [Hnd _]; exact (Hdup Hnd)).
  destruct (loop db2) as [db3 o3]. cbn [fst snd] in Hfst, Hthrown.
  subst db3 o3. cbv beta iota. exists added.
  split; [exact Hrows | reflexivity].
Qed.



(** X25: the creation of a group that lists an identity other than the
    requester twice fails on the second insert of that identity: the answer
    is 500 and the group stays half created.  The conversation and the
    requester as its owner are stored, no system message is written, and no
    other conversation is touched. *)
Theorem create_duplicate_did (requester d rndConv rndMsg : string)
    (body : ConversationsRoute.CreateBody) (now : Z) (db : DB)
    (l1 l2 l3 : list string) :
  wellFormed db = true ->
  findConversation (generateId "conv" rndConv) db = None ->
  ConversationsRoute.create_type body = Some "group" ->
  Js.truthyOpt (ConversationsRoute.create_name body) = true ->
  ConversationsRoute.create_participantDids body
  = Some (l1 ++ d :: l2 ++ d :: l3)%list ->
  forallb isValidDid (l1 ++ d :: l2 ++ d :: l3) = true ->
  d <> requester ->
  snd (ConversationsRoute.POST requester body rndConv rndMsg now db)
  = errorResponse "Failed to create conversation" 500
  /\ (exists c,
        findConversation (generateId "conv" rndConv)
          (fst (ConversationsRoute.POST requester body rndConv rndMsg now db))
        = Some c
        /\ conv_type c = "group" /\ conv_createdBy c = requester)
  /\ (exists p,
        findParticipant (generateId "conv" rndConv) requester
          (fst (ConversationsRoute.POST requester body rndConv rndMsg now db))
        = Some p
        /\ part_role p = "owner")
  /\ messages
       (fst (ConversationsRoute.POST requester body rndConv rndMsg now db))
     = messages db
  /\ (forall k,
        k <> generateId "conv" rndConv ->
        findConversation k
          (fst (ConversationsRoute.POST requester body rndConv rndMsg now db))
        = findConversation k db
        /\ participantsOf k
             (fst (ConversationsRoute.POST requester body rndConv rndMsg now
                     db))
           = participantsOf k db).
Proof.
  intros Hwf Hfreshc Htype Hname Hdids Hvalid Hd.
  assert (Hall : Forall (fun did => isValidDid did = true)
                        (l1 ++ d :: l2 ++ d :: l3))
    by (apply Forall_forall; now apply forallb_forall).
  destruct (create_half_done requester rndConv rndMsg body now db _ Hwf Hfreshc
              Htype Hname Hdids Hall (listed_twice requester d l1 l2 l3 Hd))
    as [added [Hrows Hrun]].
  rewrite Hrun. cbn [fst snd].
  split; [reflexivity |]. split; [| split; [| split; [reflexivity |]]].
  - eexists. split.
    + unfold findConversation in *. cbn [conversations].
      apply find_app_fresh; [exact Hfreshc | apply String.eqb_refl].
    + split; reflexivity.
  - eexists. split.
    + unfold findParticipant. cbn [participants].
      rewrite find_app, find_app.
      pose proof (fresh_findParticipant db _ requester Hwf Hfreshc) as Hnone.
      unfold findParticipant in Hnone. rewrite Hnone. cbn [find].
      unfold isParticipant. cbn [part_conversationId part_did newParticipant].
      rewrite !String.eqb_refl. reflexivity.
    + reflexivity.
  - intros k Hk. split.
    + unfold findConversation. cbn [conversations]. rewrite find_app.
      destruct (find _ (conversations db)); [reflexivity |].
      cbn [find conv_id newConversation].
      destruct (String.eqb_spec (generateId "conv" rndConv) k);
        [congruence | reflexivity].
    + unfold participantsOf. cbn [participants].
      rewrite !filter_app. cbn [filter part_conversationId newParticipant].
      destruct (String.eqb_spec (generateId "conv" rndConv) k);
        [congruence |].
      assert (Hnone : filter (fun p => String.eqb (part_conversationId p) k)
                             added = []).
      { clear -Hrows Hk. induction Hrows as [| p ps Hp _ IH]; [reflexivity |].
        cbn [filter]. rewrite Hp.
        destruct (String.eqb_spec (generateId "conv" rndConv) k);
          [congruence | exact IH]. }
      rewrite Hnone, !app_nil_r. reflexivity.
Qed.

Lemma create_duplicate_did_witness :
  snd (ConversationsRoute.POST Sample.owner
         (ConversationsRoute.mkCreateBody (Some "group") (Some "Team") None
            (Some [Sample.bob; Sample.bob]) None)
         "team" "m0" 1000 emptyDB)
  = errorResponse "Failed to create conversation" 500.
Proof.
  refine (proj1 (create_duplicate_did Sample.owner Sample.bob "team" "m0"
                   (ConversationsRoute.mkCreateBody (Some "group")
                      (Some "Team") None (Some [Sample.bob; Sample.bob]) None)
                   1000 emptyDB [] [] [] _ _ _ _ _ _ _)).
  - reflexivity.
  - reflexivity.
  - reflexivity.
  - reflexivity.
  - reflexivity.
  - vm_compute; reflexivity.
  - vm_compute; discriminate.
Defined.

End Checks.
